(** * The LiveKit SFU Forwarder (pkg/sfu/forwarder.go)

    A shallow embedding of the per-subscription forwarder: the layer
    allocation engine, the source-switch timestamp reconciler and the
    per-packet translation pipeline, followed by the properties proved
    about them.

    Conventions.
    - Go's fixed-width integers are [Z] with the wrap-around written out
      ([uint64], [int64], [uint32], [int32] below).
    - Go's [float64] / [float32] are IEEE-754 binary64 / binary32 values of
      the standard library's [spec_float], rounded to nearest even.
    - A run-time panic (index out of range, nil dereference) and a float to
      integer conversion that Go leaves implementation-dependent are the
      [Abort] outcome of the [result] type.
    - The lock and the logger carry no behaviour and are not modelled.
    - The layer selector, the RTP munger and the codec munger are Go
      interfaces / collaborators whose code lives in other packages: they
      are type classes here, and scripted instances stand in for them
      where a concrete run is needed. *)

From Stdlib Require Import ZArith List Lia Bool String Ascii.
From Stdlib Require Import SpecFloat.
Import ListNotations.
Open Scope Z_scope.

Set Implicit Arguments.

(* ------------------------------------------------------------------ *)
(** ** Machine integers *)

Definition wrap_unsigned (bits z : Z) : Z := z mod 2 ^ bits.
Definition wrap_signed (bits z : Z) : Z :=
  (z + 2 ^ (bits - 1)) mod 2 ^ bits - 2 ^ (bits - 1).

Definition uint64 : Z -> Z := wrap_unsigned 64.
Definition int64 : Z -> Z := wrap_signed 64.
Definition uint32 : Z -> Z := wrap_unsigned 32.
Definition int32 : Z -> Z := wrap_signed 32.

(* ------------------------------------------------------------------ *)
(** ** Outcomes: a value, or the run aborted *)

Inductive fault : Type :=
| IndexOutOfRange
| NilDereference
| ImplementationDefined.

Inductive result (A : Type) : Type :=
| Ok (a : A)
| Abort (why : fault).
Arguments Ok {A} a.
Arguments Abort {A} why.

Definition bind {A B : Type} (c : result A) (k : A -> result B) : result B :=
  match c with
  | Ok a => k a
  | Abort w => Abort w
  end.

Notation "x <- c ;; k" := (bind c (fun x => k))
  (at level 61, c at next level, right associativity).
Notation "' pat <- c ;; k" := (bind c (fun x => match x with pat => k end))
  (at level 61, pat pattern, c at next level, right associativity).

(** [for x in xs { ... }] whose body may leave the loop with [break]. *)
Inductive step (A : Type) : Type :=
| Next (a : A)
| Break (a : A).
Arguments Next {A} a.
Arguments Break {A} a.

Fixpoint for_loop {I A : Type} (xs : list I) (body : I -> A -> result (step A))
  (a : A) : result A :=
  match xs with
  | [] => Ok a
  | x :: xs' =>
      r <- body x a ;;
      match r with
      | Next a' => for_loop xs' body a'
      | Break a' => Ok a'
      end
  end.

(** A search loop: the body either finds its answer, which ends every
    enclosing search loop, or goes on to the next index. *)
Fixpoint for_first {I R : Type} (xs : list I) (body : I -> result (option R))
  : result (option R) :=
  match xs with
  | [] => Ok None
  | x :: xs' =>
      r <- body x ;;
      match r with
      | Some v => Ok (Some v)
      | None => for_first xs' body
      end
  end.

(** [for i := lo; i <= hi; i++].  The counters are [int32] in the source;
    they are layer indices, taken to stay below the largest [int32], where
    [i++] cannot wrap. *)
Definition range_up (lo hi : Z) : list Z :=
  map (fun k => lo + Z.of_nat k) (seq 0 (Z.to_nat (hi - lo + 1))).

(** [for i := hi; i >= lo; i--] *)
Definition range_down (hi lo : Z) : list Z :=
  map (fun k => hi - Z.of_nat k) (seq 0 (Z.to_nat (hi - lo + 1))).

(* ------------------------------------------------------------------ *)
(** ** Floating point *)

Module F64.
Definition prec : Z := 53.
Definition emax : Z := 1024.
Definition t : Type := spec_float.

Definition zero : t := S754_zero false.
Definition of_int (z : Z) : t := binary_normalize prec emax z 0 false.
Definition div : t -> t -> t := SFdiv prec emax.
Definition ltb : t -> t -> bool := SFltb.
Definition leb : t -> t -> bool := SFleb.
Definition eqb : t -> t -> bool := SFeqb.
Definition gtb (x y : t) : bool := SFltb y x.
Definition geb (x y : t) : bool := SFleb y x.

(** The decimal constant [n/d] as Go rounds it: the nearest binary64. *)
Definition of_ratio (n d : Z) : t := div (of_int n) (of_int d).

(** [math.Abs] *)
Definition Abs : t -> t := SFabs.

(** [math.Max], following the special cases of Go's implementation. *)
Definition Max (x y : t) : t :=
  match x, y with
  | S754_infinity false, _ | _, S754_infinity false => S754_infinity false
  | S754_nan, _ | _, S754_nan => S754_nan
  | S754_zero sx, S754_zero _ => if sx then y else x
  | _, _ => if gtb x y then x else y
  end.

(** [math.Min], following the special cases of Go's implementation. *)
Definition Min (x y : t) : t :=
  match x, y with
  | S754_infinity true, _ | _, S754_infinity true => S754_infinity true
  | S754_nan, _ | _, S754_nan => S754_nan
  | S754_zero sx, S754_zero _ => if sx then x else y
  | _, _ => if ltb x y then x else y
  end.

(** Truncation toward zero; nothing for NaN and the infinities. *)
Definition trunc (f : t) : option Z :=
  match f with
  | S754_zero _ => Some 0
  | S754_finite s m e => Some (cond_Zopp s (Z.shiftl (Zpos m) e))
  | S754_infinity _ | S754_nan => None
  end.

(** [intN(f)]: Go defines the conversion only when the truncated value
    fits the integer type. *)
Definition to_int (bits : Z) (f : t) : result Z :=
  match trunc f with
  | Some z =>
      if (- 2 ^ (bits - 1) <=? z) && (z <? 2 ^ (bits - 1)) then Ok z
      else Abort ImplementationDefined
  | None => Abort ImplementationDefined
  end.
End F64.

Module F32.
Definition prec : Z := 24.
Definition emax : Z := 128.
Definition t : Type := spec_float.

Definition zero : t := S754_zero false.
Definition of_int (z : Z) : t := binary_normalize prec emax z 0 false.
Definition div : t -> t -> t := SFdiv prec emax.
Definition eqb : t -> t -> bool := SFeqb.
Definition gtb (x y : t) : bool := SFltb y x.
End F32.

(* ------------------------------------------------------------------ *)
(** ** Constants of the forwarder *)

Definition FlagPauseOnDowngrade : bool := true.
Definition FlagFilterRTX : bool := false.
Definition FlagFilterRTXLayers : bool := true.
Definition TransitionCostSpatial : Z := 10.

Definition ResumeBehindThresholdSeconds : F64.t :=
  Eval vm_compute in F64.of_ratio 2 10.
Definition ResumeBehindHighTresholdSeconds : F64.t :=
  Eval vm_compute in F64.of_int 2.
Definition LayerSwitchBehindThresholdSeconds : F64.t :=
  Eval vm_compute in F64.of_ratio 5 100.
Definition SwitchAheadThresholdSeconds : F64.t :=
  Eval vm_compute in F64.of_ratio 25 1000.

(* ------------------------------------------------------------------ *)
(** ** package buffer: video layers and packets *)

(** Modelled from the spec: package [buffer] is not among the sources; the
    spec gives two spatial indices above 0 and temporal indices up to 3
    (a 3 x 4 bitrate matrix) and -1 as the invalid index on either axis. *)
Definition DefaultMaxLayerSpatial : Z := 2.
Definition DefaultMaxLayerTemporal : Z := 3.
Definition InvalidLayerSpatial : Z := -1.
Definition InvalidLayerTemporal : Z := -1.

Record VideoLayer : Type := mkLayer { Spatial : Z; Temporal : Z }.

Definition InvalidLayer : VideoLayer :=
  mkLayer InvalidLayerSpatial InvalidLayerTemporal.

(** Modelled from the spec: [VideoLayer.IsValid] of package [buffer],
    "IsValid requires both >= 0". *)
Definition IsValid (v : VideoLayer) : bool :=
  (0 <=? Spatial v) && (0 <=? Temporal v).

(** Modelled from the spec: [VideoLayer.GreaterThan] of package [buffer],
    the strict order that is "lexicographic by (spatial, temporal)". *)
Definition GreaterThan (v v2 : VideoLayer) : bool :=
  (Spatial v >? Spatial v2)
  || ((Spatial v =? Spatial v2) && (Temporal v >? Temporal v2)).

(** Go's [==] on the struct. *)
Definition VideoLayer_eqb (v v2 : VideoLayer) : bool :=
  (Spatial v =? Spatial v2) && (Temporal v =? Temporal v2).

(** The fields of [buffer.ExtPacket] (and of the RTP header it carries)
    that the forwarder reads. *)
Record ExtPacket : Type := mkExtPacket {
  SSRC : Z;
  SequenceNumber : Z;
  Timestamp : Z;
  ExtSequenceNumber : Z;
  ExtTimestamp : Z
}.

(* ------------------------------------------------------------------ *)
(** ** Bitrates *)

(** Modelled from the spec: the declaration of [Bitrates] is not among the
    sources; it is the fixed array
    [[DefaultMaxLayerSpatial+1][DefaultMaxLayerTemporal+1]int64].  The
    cells are given by a function and indexing outside the array panics. *)
Record Bitrates : Type := mkBitrates { cell : Z -> Z -> Z }.

Definition len_spatial : Z := DefaultMaxLayerSpatial + 1.
Definition len_temporal : Z := DefaultMaxLayerTemporal + 1.

Definition in_bounds (s t : Z) : bool :=
  (0 <=? s) && (s <? len_spatial) && (0 <=? t) && (t <? len_temporal).

(** [brs[s][t]] *)
Definition at_ (brs : Bitrates) (s t : Z) : result Z :=
  if in_bounds s t then Ok (cell brs s t) else Abort IndexOutOfRange.

(** [brs[layer.Spatial][layer.Temporal]] *)
Definition at_layer (brs : Bitrates) (l : VideoLayer) : result Z :=
  at_ brs (Spatial l) (Temporal l).

(* ------------------------------------------------------------------ *)
(** ** Allocation records *)

Inductive VideoPauseReason : Type :=
| VideoPauseReasonNone
| VideoPauseReasonMuted
| VideoPauseReasonPubMuted
| VideoPauseReasonFeedDry
| VideoPauseReasonBandwidth.

Module VideoAllocation.
Record t : Type := mk {
  PauseReason : VideoPauseReason;
  IsDeficient : bool;
  BandwidthRequested : Z;
  BandwidthDelta : Z;
  BandwidthNeeded : Z;
  Bitrates_ : Bitrates;
  TargetLayer : VideoLayer;
  RequestLayerSpatial : Z;
  MaxLayer : VideoLayer;
  DistanceToDesired : F64.t
}.

(** The zero value [VideoAllocation{}]. *)
Definition zero_value : t :=
  mk VideoPauseReasonNone false 0 0 0 (mkBitrates (fun _ _ => 0))
     (mkLayer 0 0) 0 (mkLayer 0 0) F64.zero.

Definition with_PauseReason (a : t) (r : VideoPauseReason) : t :=
  mk r (IsDeficient a) (BandwidthRequested a) (BandwidthDelta a)
     (BandwidthNeeded a) (Bitrates_ a) (TargetLayer a)
     (RequestLayerSpatial a) (MaxLayer a) (DistanceToDesired a).
Definition with_IsDeficient (a : t) (d : bool) : t :=
  mk (PauseReason a) d (BandwidthRequested a) (BandwidthDelta a)
     (BandwidthNeeded a) (Bitrates_ a) (TargetLayer a)
     (RequestLayerSpatial a) (MaxLayer a) (DistanceToDesired a).
Definition with_BandwidthRequested (a : t) (b : Z) : t :=
  mk (PauseReason a) (IsDeficient a) b (BandwidthDelta a)
     (BandwidthNeeded a) (Bitrates_ a) (TargetLayer a)
     (RequestLayerSpatial a) (MaxLayer a) (DistanceToDesired a).
Definition with_BandwidthDelta (a : t) (b : Z) : t :=
  mk (PauseReason a) (IsDeficient a) (BandwidthRequested a) b
     (BandwidthNeeded a) (Bitrates_ a) (TargetLayer a)
     (RequestLayerSpatial a) (MaxLayer a) (DistanceToDesired a).
Definition with_BandwidthNeeded (a : t) (b : Z) : t :=
  mk (PauseReason a) (IsDeficient a) (BandwidthRequested a)
     (BandwidthDelta a) b (Bitrates_ a) (TargetLayer a)
     (RequestLayerSpatial a) (MaxLayer a) (DistanceToDesired a).
Definition with_TargetLayer (a : t) (l : VideoLayer) : t :=
  mk (PauseReason a) (IsDeficient a) (BandwidthRequested a)
     (BandwidthDelta a) (BandwidthNeeded a) (Bitrates_ a) l
     (RequestLayerSpatial a) (MaxLayer a) (DistanceToDesired a).
Definition with_RequestLayerSpatial (a : t) (s : Z) : t :=
  mk (PauseReason a) (IsDeficient a) (BandwidthRequested a)
     (BandwidthDelta a) (BandwidthNeeded a) (Bitrates_ a) (TargetLayer a)
     s (MaxLayer a) (DistanceToDesired a).
Definition with_DistanceToDesired (a : t) (d : F64.t) : t :=
  mk (PauseReason a) (IsDeficient a) (BandwidthRequested a)
     (BandwidthDelta a) (BandwidthNeeded a) (Bitrates_ a) (TargetLayer a)
     (RequestLayerSpatial a) (MaxLayer a) d.
End VideoAllocation.

Definition VideoAllocationDefault : VideoAllocation.t :=
  VideoAllocation.mk VideoPauseReasonFeedDry false 0 0 0
    (mkBitrates (fun _ _ => 0)) InvalidLayer InvalidLayerSpatial InvalidLayer
    F64.zero.

Module VideoAllocationProvisional.
Record t : Type := mk {
  muted : bool;
  pubMuted : bool;
  maxSeenLayer : VideoLayer;
  availableLayers : list Z;
  bitrates : Bitrates;
  maxLayer : VideoLayer;
  currentLayer : VideoLayer;
  allocatedLayer : VideoLayer
}.

Definition with_allocatedLayer (p : t) (l : VideoLayer) : t :=
  mk (muted p) (pubMuted p) (maxSeenLayer p) (availableLayers p)
     (bitrates p) (maxLayer p) (currentLayer p) l.
End VideoAllocationProvisional.

Module VideoTransition.
Record t : Type := mk {
  From : VideoLayer;
  To : VideoLayer;
  BandwidthDelta : Z
}.
End VideoTransition.

(* ------------------------------------------------------------------ *)
(** ** Errors, translation parameters, collaborators *)

Inductive error : Type :=
| errors_New (msg : string)
| ErrUnknownKind
| ErrPaddingOnlyPacket
| ErrDuplicatePacket
| ErrOutOfOrderSequenceNumberCacheMiss.

Definition is_benign_munger_error (e : error) : bool :=
  match e with
  | ErrPaddingOnlyPacket | ErrDuplicatePacket
  | ErrOutOfOrderSequenceNumberCacheMiss => true
  | _ => false
  end.

(** Modelled from the spec: the orderings [UpdateAndGetSnTs] reports,
    "Contiguous, OutOfOrder, Gap, Duplicate"; the RTP munger is in another
    file of the package. *)
Inductive SequenceNumberOrdering : Type :=
| SequenceNumberOrderingContiguous
| SequenceNumberOrderingOutOfOrder
| SequenceNumberOrderingGap
| SequenceNumberOrderingDuplicate.

(** Modelled from the spec: what the RTP munger hands back for a packet,
    its ordering and the translated sequence number and timestamp. *)
Record TranslationParamsRTP : Type := mkTranslationParamsRTP {
  snOrdering : SequenceNumberOrdering;
  extSequenceNumber : Z;
  extTimestamp : Z
}.

Module TranslationParams.
Record t : Type := mk {
  shouldDrop : bool;
  isResuming : bool;
  isSwitching : bool;
  rtp : TranslationParamsRTP;
  ddBytes : list Z;
  marker : bool
}.

(** The zero value [TranslationParams{}]. *)
Definition zero_value : t :=
  mk false false false
     (mkTranslationParamsRTP SequenceNumberOrderingContiguous 0 0) [] false.

Definition with_shouldDrop (p : t) (b : bool) : t :=
  mk b (isResuming p) (isSwitching p) (rtp p) (ddBytes p) (marker p).
Definition with_rtp (p : t) (r : TranslationParamsRTP) : t :=
  mk (shouldDrop p) (isResuming p) (isSwitching p) r (ddBytes p) (marker p).
End TranslationParams.

(** Modelled from the spec: the part of [RTPMungerState] the forwarder
    reads, "last extended SN and TS". *)
Record RTPMungerState : Type := mkRTPMungerState {
  ExtLastSN : Z;
  ExtLastTS : Z
}.

(** Modelled from the spec: the result of [Select],
    "IsSelected, IsRelevant, IsResuming, IsSwitching, RTPMarker,
    DependencyDescriptorExtension". *)
Record VideoLayerSelectorResult : Type := mkSelectorResult {
  IsSelected : bool;
  IsRelevant : bool;
  IsResuming : bool;
  IsSwitching : bool;
  RTPMarker : bool;
  DependencyDescriptorExtension : list Z
}.

(** The methods of [videolayerselector.VideoLayerSelector] the forwarder
    calls; a method that mutates the selector returns the new selector. *)
Class VideoLayerSelector (Sel : Type) : Type := {
  GetMax : Sel -> VideoLayer;
  GetMaxSeen : Sel -> VideoLayer;
  GetTarget : Sel -> VideoLayer;
  GetCurrent : Sel -> VideoLayer;
  GetRequestSpatial : Sel -> Z;
  IsOvershootOkay : Sel -> bool;
  SetTarget : Sel -> VideoLayer -> Sel;
  SetCurrent : Sel -> VideoLayer -> Sel;
  SetRequestSpatial : Sel -> Z -> Sel;
  Select : Sel -> ExtPacket -> Z -> VideoLayerSelectorResult * Sel;
  Rollback : Sel -> Sel
}.

(** The methods of [RTPMunger] the forwarder calls. *)
Class RTPMungerOps (Mun : Type) : Type := {
  GetLast : Mun -> RTPMungerState;
  SetLastSnTs : Mun -> ExtPacket -> Mun;
  UpdateSnTsOffsets : Mun -> ExtPacket -> Z -> Z -> Mun;
  UpdateAndGetSnTs : Mun -> ExtPacket -> bool -> (TranslationParamsRTP + error) * Mun;
  PacketDropped : Mun -> ExtPacket -> Mun
}.

(** The methods of [codecmunger.CodecMunger] the forwarder calls. *)
Class CodecMungerOps (Cod : Type) : Type := {
  SetLast : Cod -> ExtPacket -> Cod;
  UpdateOffsets : Cod -> ExtPacket -> Cod
}.

(* ------------------------------------------------------------------ *)
(** ** The forwarder *)

Inductive RTPCodecType : Type :=
| RTPCodecTypeUnknown
| RTPCodecTypeAudio
| RTPCodecTypeVideo.

Record RTPCodecCapability : Type := mkCodec {
  MimeType : string;
  ClockRate : Z
}.

(** [time.Time] as nanoseconds, 0 being the zero time; [time.Duration] as
    its [int64] nanoseconds. *)
Definition Time : Type := Z.
Definition IsZero (t : Time) : bool := t =? 0.

Record Forwarder (Sel Mun Cod : Type) : Type := mkForwarder {
  codec : RTPCodecCapability;
  kind : RTPCodecType;
  getReferenceLayerRTPTimestamp : option (Z -> Z -> Z -> Z + error);
  getExpectedRTPTimestamp : option (Time -> Z + error);

  muted : bool;
  pubMuted : bool;
  resumeBehindThreshold : F64.t;

  started : bool;
  preStartTime : Time;
  extFirstTS : Z;
  lastSSRC : Z;
  referenceLayerSpatial : Z;
  refTSOffset : Z;

  provisional : option VideoAllocationProvisional.t;

  lastAllocation : VideoAllocation.t;

  rtpMunger : Mun;

  vls : Sel;

  codecMunger : Cod
}.

(** [strings.ToLower], on the ASCII letters. *)
Definition lower_ascii (c : ascii) : ascii :=
  let n := nat_of_ascii c in
  if (Nat.leb 65 n && Nat.leb n 90)%bool then ascii_of_nat (n + 32) else c.

Fixpoint ToLower (s : string) : string :=
  match s with
  | EmptyString => EmptyString
  | String c s' => String (lower_ascii c) (ToLower s')
  end.

Section ForwarderOps.
Context {Sel Mun Cod : Type}.
Context {selector : VideoLayerSelector Sel}.
Context {munger : RTPMungerOps Mun}.
Context {codecs : CodecMungerOps Cod}.

Local Notation "'Fwd'" := (Forwarder Sel Mun Cod).

(** *** Field updates *)

Definition with_muted (f : Fwd) (v : bool) : Fwd :=
  mkForwarder (codec f) (kind f) (getReferenceLayerRTPTimestamp f)
    (getExpectedRTPTimestamp f) v (pubMuted f) (resumeBehindThreshold f)
    (started f) (preStartTime f) (extFirstTS f) (lastSSRC f)
    (referenceLayerSpatial f) (refTSOffset f) (provisional f)
    (lastAllocation f) (rtpMunger f) (vls f) (codecMunger f).
Definition with_resumeBehindThreshold (f : Fwd) (v : F64.t) : Fwd :=
  mkForwarder (codec f) (kind f) (getReferenceLayerRTPTimestamp f)
    (getExpectedRTPTimestamp f) (muted f) (pubMuted f) v
    (started f) (preStartTime f) (extFirstTS f) (lastSSRC f)
    (referenceLayerSpatial f) (refTSOffset f) (provisional f)
    (lastAllocation f) (rtpMunger f) (vls f) (codecMunger f).
Definition with_started (f : Fwd) (v : bool) : Fwd :=
  mkForwarder (codec f) (kind f) (getReferenceLayerRTPTimestamp f)
    (getExpectedRTPTimestamp f) (muted f) (pubMuted f)
    (resumeBehindThreshold f) v (preStartTime f) (extFirstTS f)
    (lastSSRC f) (referenceLayerSpatial f) (refTSOffset f) (provisional f)
    (lastAllocation f) (rtpMunger f) (vls f) (codecMunger f).
Definition with_lastSSRC (f : Fwd) (v : Z) : Fwd :=
  mkForwarder (codec f) (kind f) (getReferenceLayerRTPTimestamp f)
    (getExpectedRTPTimestamp f) (muted f) (pubMuted f)
    (resumeBehindThreshold f) (started f) (preStartTime f) (extFirstTS f)
    v (referenceLayerSpatial f) (refTSOffset f) (provisional f)
    (lastAllocation f) (rtpMunger f) (vls f) (codecMunger f).
Definition with_referenceLayerSpatial (f : Fwd) (v : Z) : Fwd :=
  mkForwarder (codec f) (kind f) (getReferenceLayerRTPTimestamp f)
    (getExpectedRTPTimestamp f) (muted f) (pubMuted f)
    (resumeBehindThreshold f) (started f) (preStartTime f) (extFirstTS f)
    (lastSSRC f) v (refTSOffset f) (provisional f)
    (lastAllocation f) (rtpMunger f) (vls f) (codecMunger f).
Definition with_refTSOffset (f : Fwd) (v : Z) : Fwd :=
  mkForwarder (codec f) (kind f) (getReferenceLayerRTPTimestamp f)
    (getExpectedRTPTimestamp f) (muted f) (pubMuted f)
    (resumeBehindThreshold f) (started f) (preStartTime f) (extFirstTS f)
    (lastSSRC f) (referenceLayerSpatial f) v (provisional f)
    (lastAllocation f) (rtpMunger f) (vls f) (codecMunger f).
Definition with_provisional (f : Fwd)
  (v : option VideoAllocationProvisional.t) : Fwd :=
  mkForwarder (codec f) (kind f) (getReferenceLayerRTPTimestamp f)
    (getExpectedRTPTimestamp f) (muted f) (pubMuted f)
    (resumeBehindThreshold f) (started f) (preStartTime f) (extFirstTS f)
    (lastSSRC f) (referenceLayerSpatial f) (refTSOffset f) v
    (lastAllocation f) (rtpMunger f) (vls f) (codecMunger f).
Definition with_lastAllocation (f : Fwd) (v : VideoAllocation.t) : Fwd :=
  mkForwarder (codec f) (kind f) (getReferenceLayerRTPTimestamp f)
    (getExpectedRTPTimestamp f) (muted f) (pubMuted f)
    (resumeBehindThreshold f) (started f) (preStartTime f) (extFirstTS f)
    (lastSSRC f) (referenceLayerSpatial f) (refTSOffset f) (provisional f)
    v (rtpMunger f) (vls f) (codecMunger f).
Definition with_rtpMunger (f : Fwd) (v : Mun) : Fwd :=
  mkForwarder (codec f) (kind f) (getReferenceLayerRTPTimestamp f)
    (getExpectedRTPTimestamp f) (muted f) (pubMuted f)
    (resumeBehindThreshold f) (started f) (preStartTime f) (extFirstTS f)
    (lastSSRC f) (referenceLayerSpatial f) (refTSOffset f) (provisional f)
    (lastAllocation f) v (vls f) (codecMunger f).
Definition with_vls (f : Fwd) (v : Sel) : Fwd :=
  mkForwarder (codec f) (kind f) (getReferenceLayerRTPTimestamp f)
    (getExpectedRTPTimestamp f) (muted f) (pubMuted f)
    (resumeBehindThreshold f) (started f) (preStartTime f) (extFirstTS f)
    (lastSSRC f) (referenceLayerSpatial f) (refTSOffset f) (provisional f)
    (lastAllocation f) (rtpMunger f) v (codecMunger f).
Definition with_codecMunger (f : Fwd) (v : Cod) : Fwd :=
  mkForwarder (codec f) (kind f) (getReferenceLayerRTPTimestamp f)
    (getExpectedRTPTimestamp f) (muted f) (pubMuted f)
    (resumeBehindThreshold f) (started f) (preStartTime f) (extFirstTS f)
    (lastSSRC f) (referenceLayerSpatial f) (refTSOffset f) (provisional f)
    (lastAllocation f) (rtpMunger f) (vls f) v.

(** *** Resync and mute *)

Definition resyncLocked (f : Fwd) : Fwd :=
  let f := with_vls f (SetCurrent (vls f) InvalidLayer) in
  let f := with_lastSSRC f 0 in
  if pubMuted f
  then with_resumeBehindThreshold f ResumeBehindThresholdSeconds
  else f.

Definition Mute (f : Fwd) (muted' isSubscribeMutable : bool) : bool * Fwd :=
  if Bool.eqb (muted f) muted' then (false, f)
  else if muted' && negb isSubscribeMutable then (false, f)
  else
    let f := with_muted f muted' in
    let f := if muted' then resyncLocked f else f in
    (true, f).

(** *** Bandwidth helpers *)

Definition getOptimalBandwidthNeeded (muted' pubMuted' : bool)
  (maxPublishedLayer : Z) (brs : Bitrates) (maxLayer : VideoLayer)
  : result Z :=
  if muted' || pubMuted' || (maxPublishedLayer =? InvalidLayerSpatial)
  then Ok 0
  else
    found <- for_first (range_down (Spatial maxLayer) 0) (fun i =>
               for_first (range_down (Temporal maxLayer) 0) (fun j =>
                 b <- at_ brs i j ;;
                 if b =? 0 then Ok None else Ok (Some b))) ;;
    match found with
    | Some b => Ok b
    | None => Ok 0
    end.

Definition getBandwidthNeeded (brs : Bitrates) (layer : VideoLayer)
  (fallback : Z) : result Z :=
  if IsValid layer then
    b <- at_layer brs layer ;;
    if b >? 0 then Ok b else Ok fallback
  else Ok fallback.

Definition getDistanceToDesired (muted' pubMuted' : bool)
  (maxSeenLayer : VideoLayer) (availableLayers : list Z) (brs : Bitrates)
  (targetLayer maxLayer : VideoLayer) : result F64.t :=
  if muted' || pubMuted' || negb (IsValid maxSeenLayer)
     || negb (IsValid maxLayer)
  then Ok F64.zero
  else
    let adjustedMaxLayer := maxLayer in
    let maxAvailableSpatial := InvalidLayerSpatial in
    let maxAvailableTemporal := InvalidLayerTemporal in
    (* the loop labelled [done] *)
    found <- for_first (range_down (len_spatial - 1) 0) (fun s =>
               for_first (range_down (len_temporal - 1) 0) (fun t =>
                 b <- at_ brs s t ;;
                 if negb (b =? 0) then Ok (Some s) else Ok None)) ;;
    let maxAvailableSpatial :=
      match found with Some s => s | None => maxAvailableSpatial end in
    let '(maxAvailableSpatial, maxAvailableTemporal) :=
      fold_left (fun '(sp, tp) layer =>
                   if layer >? sp then (layer, Temporal maxSeenLayer)
                   else (sp, tp))
                availableLayers (maxAvailableSpatial, maxAvailableTemporal) in
    let adjustedMaxLayer :=
      if maxAvailableSpatial <? Spatial adjustedMaxLayer
      then mkLayer maxAvailableSpatial (Temporal adjustedMaxLayer)
      else adjustedMaxLayer in
    let adjustedMaxLayer :=
      if Spatial maxSeenLayer <? Spatial adjustedMaxLayer
      then mkLayer (Spatial maxSeenLayer) (Temporal adjustedMaxLayer)
      else adjustedMaxLayer in
    maxAvailableTemporal <-
      (if negb (Spatial adjustedMaxLayer =? InvalidLayerSpatial) then
         found <- for_first (range_down (len_temporal - 1) 0) (fun t =>
                    b <- at_ brs (Spatial adjustedMaxLayer) t ;;
                    if negb (b =? 0) then Ok (Some t) else Ok None) ;;
         match found with
         | Some t => Ok t
         | None => Ok maxAvailableTemporal
         end
       else Ok maxAvailableTemporal) ;;
    let adjustedMaxLayer :=
      if maxAvailableTemporal <? Temporal adjustedMaxLayer
      then mkLayer (Spatial adjustedMaxLayer) maxAvailableTemporal
      else adjustedMaxLayer in
    let adjustedMaxLayer :=
      if Temporal maxSeenLayer <? Temporal adjustedMaxLayer
      then mkLayer (Spatial adjustedMaxLayer) (Temporal maxSeenLayer)
      else adjustedMaxLayer in
    let adjustedMaxLayer :=
      if negb (IsValid adjustedMaxLayer) then mkLayer 0 0
      else adjustedMaxLayer in
    let adjustedTargetLayer :=
      if negb (IsValid targetLayer) then mkLayer 0 0 else targetLayer in
    let distance :=
      int32 ((Spatial adjustedMaxLayer - Spatial adjustedTargetLayer)
             * (Temporal maxSeenLayer + 1)
             + (Temporal adjustedMaxLayer - Temporal adjustedTargetLayer)) in
    let distance :=
      if negb (IsValid targetLayer)
      then int32 (distance + (Temporal maxSeenLayer + 1))
      else distance in
    Ok (F64.div (F64.of_int distance)
                (F64.of_int (int32 (Temporal maxSeenLayer + 1)))).

(** *** Committing an allocation *)

Definition setTargetLayer (f : Fwd) (targetLayer : VideoLayer)
  (requestLayerSpatial : Z) : Fwd :=
  let f := with_vls f (SetTarget (vls f) targetLayer) in
  if IsValid targetLayer
  then with_vls f (SetRequestSpatial (vls f) requestLayerSpatial)
  else with_vls f (SetRequestSpatial (vls f) InvalidLayerSpatial).

Definition updateAllocation (f : Fwd) (alloc : VideoAllocation.t)
  : VideoAllocation.t * Fwd :=
  (* restrict target temporal to 0 if codec does not support temporal layers *)
  let alloc :=
    if IsValid (VideoAllocation.TargetLayer alloc)
       && String.eqb (ToLower (MimeType (codec f))) "video/h264"
    then VideoAllocation.with_TargetLayer alloc
           (mkLayer (Spatial (VideoAllocation.TargetLayer alloc)) 0)
    else alloc in
  let f := with_lastAllocation f alloc in
  let f := setTargetLayer f
             (VideoAllocation.TargetLayer (lastAllocation f))
             (VideoAllocation.RequestLayerSpatial (lastAllocation f)) in
  let f := if negb (IsValid (GetTarget (vls f))) then resyncLocked f else f in
  (lastAllocation f, f).

(** *** AllocateOptimal *)

Definition AllocateOptimal (f : Fwd) (availableLayers : list Z)
  (brs : Bitrates) (allowOvershoot : bool)
  : result (VideoAllocation.t * Fwd) :=
  match kind f with
  | RTPCodecTypeAudio => Ok (lastAllocation f, f)
  | _ =>
    let maxLayer := GetMax (vls f) in
    let maxSeenLayer := GetMaxSeen (vls f) in
    let currentLayer := GetCurrent (vls f) in
    let requestSpatial := GetRequestSpatial (vls f) in
    let alloc :=
      VideoAllocation.mk VideoPauseReasonNone false 0 0 0 brs InvalidLayer
        requestSpatial maxLayer F64.zero in
    optimalBandwidthNeeded <-
      getOptimalBandwidthNeeded (muted f) (pubMuted f)
        (Spatial maxSeenLayer) brs maxLayer ;;
    let alloc :=
      if optimalBandwidthNeeded =? 0
      then VideoAllocation.with_PauseReason alloc VideoPauseReasonFeedDry
      else alloc in
    let alloc := VideoAllocation.with_BandwidthNeeded alloc optimalBandwidthNeeded in

    let getMaxTemporal :=
      let maxTemporal := Temporal maxLayer in
      if negb (Temporal maxSeenLayer =? InvalidLayerTemporal)
         && (Temporal maxSeenLayer <? maxTemporal)
      then Temporal maxSeenLayer
      else maxTemporal in

    let opportunisticAlloc (alloc : VideoAllocation.t)
      : result VideoAllocation.t :=
      (* opportunistically latch on to anything *)
      let maxSpatial := Spatial maxLayer in
      let maxSpatial :=
        if allowOvershoot && IsOvershootOkay (vls f)
           && (Spatial maxSeenLayer >? maxSpatial)
        then Spatial maxSeenLayer
        else maxSpatial in
      sp <- F64.to_int 32 (F64.Min (F64.of_int (Spatial maxSeenLayer))
                                   (F64.of_int maxSpatial)) ;;
      Ok (VideoAllocation.with_TargetLayer alloc (mkLayer sp getMaxTemporal)) in

    alloc <-
      (if negb (IsValid maxLayer)
          || (Spatial maxSeenLayer =? InvalidLayerSpatial)
       then
         (* nothing to do when max layers are not valid OR max published
            layer is invalid *)
         Ok alloc
       else if muted f then
         Ok (VideoAllocation.with_PauseReason alloc VideoPauseReasonMuted)
       else if pubMuted f then
         Ok (VideoAllocation.with_PauseReason alloc VideoPauseReasonPubMuted)
       else
         maxLayerSpatialLimit <-
           F64.to_int 32 (F64.Min (F64.of_int (Spatial maxLayer))
                                  (F64.of_int (Spatial maxSeenLayer))) ;;
         let highestAvailableLayer := InvalidLayerSpatial in
         let requestLayerSpatial := InvalidLayerSpatial in
         let '(requestLayerSpatial, highestAvailableLayer) :=
           fold_left (fun '(req, highest) al =>
                        let req :=
                          if (al >? req) && (al <=? maxLayerSpatialLimit)
                          then al else req in
                        let highest :=
                          if al >? highest then al else highest in
                        (req, highest))
                     availableLayers
                     (requestLayerSpatial, highestAvailableLayer) in
         let requestLayerSpatial :=
           if (requestLayerSpatial =? InvalidLayerSpatial)
              && negb (highestAvailableLayer =? InvalidLayerSpatial)
              && allowOvershoot && IsOvershootOkay (vls f)
           then highestAvailableLayer
           else requestLayerSpatial in
         if IsValid currentLayer then
           let alloc :=
             if ((requestLayerSpatial =? requestSpatial)
                 && (Spatial currentLayer =? requestSpatial))
                || (requestLayerSpatial =? InvalidLayerSpatial)
             then
               (* current is locked to desired, or the feed may be dry:
                  stay at current *)
               VideoAllocation.with_TargetLayer alloc
                 (mkLayer (Spatial currentLayer) getMaxTemporal)
             else
               (* current layer has stopped, switch to highest available *)
               VideoAllocation.with_TargetLayer alloc
                 (mkLayer requestLayerSpatial getMaxTemporal) in
           Ok (VideoAllocation.with_RequestLayerSpatial alloc
                 (Spatial (VideoAllocation.TargetLayer alloc)))
         else
           (* opportunistically latch on to anything *)
           alloc <- opportunisticAlloc alloc ;;
           if requestLayerSpatial =? InvalidLayerSpatial
           then Ok (VideoAllocation.with_RequestLayerSpatial alloc
                      maxLayerSpatialLimit)
           else Ok (VideoAllocation.with_RequestLayerSpatial alloc
                      requestLayerSpatial)) ;;

    let alloc :=
      if negb (IsValid (VideoAllocation.TargetLayer alloc))
      then VideoAllocation.with_RequestLayerSpatial
             (VideoAllocation.with_TargetLayer alloc InvalidLayer)
             InvalidLayerSpatial
      else alloc in
    let alloc :=
      if IsValid (VideoAllocation.TargetLayer alloc)
      then VideoAllocation.with_BandwidthRequested alloc optimalBandwidthNeeded
      else alloc in
    existing <- getBandwidthNeeded brs (GetTarget (vls f))
                  (VideoAllocation.BandwidthRequested (lastAllocation f)) ;;
    let alloc :=
      VideoAllocation.with_BandwidthDelta alloc
        (int64 (VideoAllocation.BandwidthRequested alloc - existing)) in
    distance <- getDistanceToDesired (muted f) (pubMuted f)
                  (GetMaxSeen (vls f)) availableLayers brs
                  (VideoAllocation.TargetLayer alloc) (GetMax (vls f)) ;;
    let alloc := VideoAllocation.with_DistanceToDesired alloc distance in
    Ok (updateAllocation f alloc)
  end.

(** *** Cooperative (provisional) allocation *)

(** [f.provisional] is a pointer: using it before
    [ProvisionalAllocatePrepare] dereferences nil. *)
Definition the_provisional (f : Fwd) : result VideoAllocationProvisional.t :=
  match provisional f with
  | Some p => Ok p
  | None => Abort NilDereference
  end.

Definition set_allocatedLayer (f : Fwd) (p : VideoAllocationProvisional.t)
  (l : VideoLayer) : Fwd :=
  with_provisional f (Some (VideoAllocationProvisional.with_allocatedLayer p l)).

Definition ProvisionalAllocatePrepare (f : Fwd) (availableLayers : list Z)
  (bitrates : Bitrates) : Fwd :=
  with_provisional f
    (Some (VideoAllocationProvisional.mk (muted f) (pubMuted f)
             (GetMaxSeen (vls f)) availableLayers bitrates (GetMax (vls f))
             (GetCurrent (vls f)) InvalidLayer)).

Definition ProvisionalAllocateReset (f : Fwd) : result Fwd :=
  p <- the_provisional f ;;
  Ok (set_allocatedLayer f p InvalidLayer).

Definition ProvisionalAllocate (f : Fwd) (availableChannelCapacity : Z)
  (layer : VideoLayer) (allowPause allowOvershoot : bool)
  : result (bool * Z * Fwd) :=
  p <- the_provisional f ;;
  if VideoAllocationProvisional.muted p
     || VideoAllocationProvisional.pubMuted p
     || (Spatial (VideoAllocationProvisional.maxSeenLayer p)
         =? InvalidLayerSpatial)
     || negb (IsValid (VideoAllocationProvisional.maxLayer p))
     || ((negb allowOvershoot || negb (IsOvershootOkay (vls f)))
         && GreaterThan layer (VideoAllocationProvisional.maxLayer p))
  then Ok (false, 0, f)
  else
    requiredBitrate <- at_layer (VideoAllocationProvisional.bitrates p) layer ;;
    if requiredBitrate =? 0 then Ok (false, 0, f)
    else
      alreadyAllocatedBitrate <-
        (if IsValid (VideoAllocationProvisional.allocatedLayer p)
         then at_layer (VideoAllocationProvisional.bitrates p)
                (VideoAllocationProvisional.allocatedLayer p)
         else Ok 0) ;;
      (* a layer under maximum fits, take it *)
      if negb (GreaterThan layer (VideoAllocationProvisional.maxLayer p))
         && (requiredBitrate
             <=? int64 (availableChannelCapacity + alreadyAllocatedBitrate))
      then Ok (true, int64 (requiredBitrate - alreadyAllocatedBitrate),
               set_allocatedLayer f p layer)
      else
        (* Given layer does not fit: take the lowest possible layer if
           pause is not allowed *)
        if negb allowPause
           && (negb (IsValid (VideoAllocationProvisional.allocatedLayer p))
               || negb (GreaterThan layer
                          (VideoAllocationProvisional.allocatedLayer p)))
        then Ok (true, int64 (requiredBitrate - alreadyAllocatedBitrate),
                 set_allocatedLayer f p layer)
        else Ok (false, 0, f).

(** The first cell with a non-zero bitrate, spatial index outermost. *)
Definition first_nonzero_layer (brs : Bitrates) (spatials temporals : list Z)
  : result (option (VideoLayer * Z)) :=
  for_first spatials (fun s =>
    for_first temporals (fun t =>
      b <- at_ brs s t ;;
      if negb (b =? 0) then Ok (Some (mkLayer s t, b)) else Ok None)).

Definition ProvisionalAllocateGetCooperativeTransition (f : Fwd)
  (allowOvershoot : bool)
  : result (VideoTransition.t * list Z * Bitrates * Fwd) :=
  let existingTargetLayer := GetTarget (vls f) in
  p <- the_provisional f ;;
  let brs := VideoAllocationProvisional.bitrates p in
  let maxLayer := VideoAllocationProvisional.maxLayer p in
  let out (tr : VideoTransition.t) (f' : Fwd) :=
    (tr, VideoAllocationProvisional.availableLayers p, brs, f') in
  if VideoAllocationProvisional.muted p
     || VideoAllocationProvisional.pubMuted p
  then
    existing <- getBandwidthNeeded brs existingTargetLayer
                  (VideoAllocation.BandwidthRequested (lastAllocation f)) ;;
    Ok (out (VideoTransition.mk existingTargetLayer InvalidLayer
               (int64 (- existing)))
            (set_allocatedLayer f p InvalidLayer))
  else
    (* check if we should preserve current target *)
    early <-
      (if IsValid existingTargetLayer then
         (* what is the highest that is available *)
         found <- first_nonzero_layer brs
                    (range_down (Spatial maxLayer) 0)
                    (range_down (Temporal maxLayer) 0) ;;
         let '(maximalLayer, maximalBandwidthRequired) :=
           match found with
           | Some hit => hit
           | None => (InvalidLayer, 0)
           end in
         if IsValid maximalLayer then
           streaming <-
             (if negb (GreaterThan existingTargetLayer maximalLayer)
              then b <- at_layer brs existingTargetLayer ;;
                   Ok (negb (b =? 0))
              else Ok false) ;;
           if streaming then
             (* currently streaming and maybe wanting an upgrade, just
                preserve current target in the cooperative scheme *)
             Ok (Some (out (VideoTransition.mk existingTargetLayer
                              existingTargetLayer 0)
                           (set_allocatedLayer f p existingTargetLayer)))
           else if GreaterThan existingTargetLayer maximalLayer then
             (* maximalLayer < existingTargetLayer, make the down move *)
             existing <- getBandwidthNeeded brs existingTargetLayer
                           (VideoAllocation.BandwidthRequested
                              (lastAllocation f)) ;;
             Ok (Some (out (VideoTransition.mk existingTargetLayer
                              maximalLayer
                              (int64 (maximalBandwidthRequired - existing)))
                           (set_allocatedLayer f p maximalLayer)))
           else Ok None
         else Ok None
       else Ok None) ;;
    match early with
    | Some r => Ok r
    | None =>
      let findNextLayer (minSpatial maxSpatial minTemporal maxTemporal : Z)
        : result (VideoLayer * Z) :=
        found <- first_nonzero_layer brs (range_up minSpatial maxSpatial)
                   (range_up minTemporal maxTemporal) ;;
        match found with
        | Some hit => Ok hit
        | None => Ok (InvalidLayer, 0)
        end in
      let targetLayer := InvalidLayer in
      let bandwidthRequired := 0 in
      '(targetLayer, bandwidthRequired) <-
        (if negb (IsValid existingTargetLayer) then
           (* currently not streaming, find minimal *)
           '(targetLayer, bandwidthRequired) <-
             findNextLayer 0 (Spatial maxLayer) 0 (Temporal maxLayer) ;;
           (* could not find a minimal layer, overshoot if allowed *)
           if (bandwidthRequired =? 0) && IsValid maxLayer && allowOvershoot
              && IsOvershootOkay (vls f)
           then findNextLayer (Spatial maxLayer + 1) DefaultMaxLayerSpatial
                              0 DefaultMaxLayerTemporal
           else Ok (targetLayer, bandwidthRequired)
         else Ok (targetLayer, bandwidthRequired)) ;;
      (* if nothing available, just leave target at current to enable
         opportunistic forwarding in case current resumes *)
      '(targetLayer, bandwidthRequired) <-
        (if negb (IsValid targetLayer) then
           let targetLayer := VideoAllocationProvisional.currentLayer p in
           if IsValid targetLayer
           then b <- at_layer brs targetLayer ;; Ok (targetLayer, b)
           else Ok (targetLayer, bandwidthRequired)
         else Ok (targetLayer, bandwidthRequired)) ;;
      existing <- getBandwidthNeeded brs existingTargetLayer
                    (VideoAllocation.BandwidthRequested (lastAllocation f)) ;;
      Ok (out (VideoTransition.mk (GetTarget (vls f)) targetLayer
                 (int64 (bandwidthRequired - existing)))
              (set_allocatedLayer f p targetLayer))
    end.

(** The running best of the weighted search:
    [bestLayer], [bestBandwidthDelta], [bestValue]. *)
Definition best : Type := (VideoLayer * Z * F32.t)%type.

(** One candidate [(s, t)] of the weighted search. *)
Definition weigh_candidate (brs : Bitrates) (targetLayer : VideoLayer)
  (maxReachableLayerTemporal existingBandwidthNeeded s t : Z) (acc : best)
  : result best :=
  let '(bestLayer, bestBandwidthDelta, bestValue) := acc in
  b <- at_ brs s t ;;
  bandwidthDelta <-
    F64.to_int 64 (F64.Max (F64.of_int 0)
                           (F64.of_int (int64 (existingBandwidthNeeded - b)))) ;;
  let transitionCost :=
    if negb (Spatial targetLayer =? s) then TransitionCostSpatial else 0 in
  let qualityCost :=
    int32 ((maxReachableLayerTemporal + 1) * (Spatial targetLayer - s)
           + (Temporal targetLayer - t)) in
  let value :=
    if negb (int32 (transitionCost + qualityCost) =? 0)
    then F32.div (F32.of_int bandwidthDelta)
                 (F32.of_int (int32 (transitionCost + qualityCost)))
    else F32.zero in
  if F32.gtb value bestValue
     || (F32.eqb value bestValue && (bandwidthDelta >? bestBandwidthDelta))
  then Ok (mkLayer s t, bandwidthDelta, value)
  else Ok acc.

Definition weighted_search (brs : Bitrates) (targetLayer : VideoLayer)
  (maxReachableLayerTemporal existingBandwidthNeeded : Z) : result best :=
  for_loop (range_up 0 (Spatial targetLayer)) (fun s acc =>
    acc <- for_loop (range_up 0 (Temporal targetLayer)) (fun t acc =>
             if (s =? Spatial targetLayer) && (t =? Temporal targetLayer)
             then Ok (Break acc)
             else
               acc <- weigh_candidate brs targetLayer
                        maxReachableLayerTemporal existingBandwidthNeeded
                        s t acc ;;
               Ok (Next acc)) acc ;;
    Ok (Next acc))
    (InvalidLayer, 0, F32.zero).

(** The highest temporal index with a non-zero bitrate in some spatial
    layer under the maximum; nothing when the feed is dry. *)
Definition maxReachableLayerTemporal (brs : Bitrates) (maxLayer : VideoLayer)
  : result (option Z) :=
  for_first (range_down (Temporal maxLayer) 0) (fun t =>
    for_first (range_down (Spatial maxLayer) 0) (fun s =>
      b <- at_ brs s t ;;
      if negb (b =? 0) then Ok (Some t) else Ok None)).

Definition ProvisionalAllocateGetBestWeightedTransition (f : Fwd)
  : result (VideoTransition.t * list Z * Bitrates * Fwd) :=
  let targetLayer := GetTarget (vls f) in
  p <- the_provisional f ;;
  let brs := VideoAllocationProvisional.bitrates p in
  let maxLayer := VideoAllocationProvisional.maxLayer p in
  let out (tr : VideoTransition.t) (f' : Fwd) :=
    (tr, VideoAllocationProvisional.availableLayers p, brs, f') in
  if VideoAllocationProvisional.muted p
     || VideoAllocationProvisional.pubMuted p
  then
    existing <- getBandwidthNeeded brs targetLayer
                  (VideoAllocation.BandwidthRequested (lastAllocation f)) ;;
    Ok (out (VideoTransition.mk targetLayer InvalidLayer
               (int64 (0 - existing)))
            (set_allocatedLayer f p InvalidLayer))
  else
    reachable <- maxReachableLayerTemporal brs maxLayer ;;
    match reachable with
    | None =>
      (* feed has gone dry, just leave target at current to enable
         opportunistic forwarding in case current resumes *)
      existing <- getBandwidthNeeded brs targetLayer
                    (VideoAllocation.BandwidthRequested (lastAllocation f)) ;;
      Ok (out (VideoTransition.mk targetLayer
                 (VideoAllocationProvisional.currentLayer p)
                 (int64 (0 - existing)))
              (set_allocatedLayer f p
                 (VideoAllocationProvisional.currentLayer p)))
    | Some maxReachableLayerTemporal =>
      (* starting from minimum to target, find transition which gives the
         best transition taking into account bits saved vs cost *)
      existingBandwidthNeeded <-
        getBandwidthNeeded brs targetLayer
          (VideoAllocation.BandwidthRequested (lastAllocation f)) ;;
      '(bestLayer, bestBandwidthDelta, _) <-
        weighted_search brs targetLayer maxReachableLayerTemporal
          existingBandwidthNeeded ;;
      Ok (out (VideoTransition.mk targetLayer bestLayer
                 (int64 (- bestBandwidthDelta)))
              (set_allocatedLayer f p bestLayer))
    end.

(** *** AllocateNextHigher *)

Definition isDeficientLocked (f : Fwd) : bool :=
  VideoAllocation.IsDeficient (lastAllocation f).

(** The end of the body of [doAllocation]: the allocation for the layer
    [(s, t)] that is taken, committed with [updateAllocation]. *)
Definition boostTo (f : Fwd) (availableLayers : list Z) (brs : Bitrates)
  (maxLayer maxSeenLayer : VideoLayer)
  (optimalBandwidthNeeded alreadyAllocated : Z) (s t bandwidthRequested : Z)
  : result (bool * VideoAllocation.t * bool * Fwd) :=
  let newTargetLayer := mkLayer s t in
  distance <- getDistanceToDesired (muted f) (pubMuted f) maxSeenLayer
                availableLayers brs newTargetLayer maxLayer ;;
  let alloc :=
    VideoAllocation.mk VideoPauseReasonNone true bandwidthRequested
      (int64 (bandwidthRequested - alreadyAllocated))
      optimalBandwidthNeeded brs newTargetLayer
      (Spatial newTargetLayer) maxLayer distance in
  let alloc :=
    if GreaterThan newTargetLayer maxLayer
       || (bandwidthRequested >=? optimalBandwidthNeeded)
    then VideoAllocation.with_IsDeficient alloc false
    else alloc in
  let '(a, f') := updateAllocation f alloc in
  Ok (true, a, true, f').

(** The closure [doAllocation] of [AllocateNextHigher], with the
    variables it captures as parameters. *)
Definition doAllocation (f : Fwd) (availableChannelCapacity : Z)
  (availableLayers : list Z) (brs : Bitrates) (allowOvershoot : bool)
  (maxLayer maxSeenLayer : VideoLayer)
  (optimalBandwidthNeeded alreadyAllocated : Z)
  (minSpatial maxSpatial minTemporal maxTemporal : Z)
  : result (bool * VideoAllocation.t * bool * Fwd) :=
  found <-
    for_first (range_up minSpatial maxSpatial) (fun s =>
      for_first (range_up minTemporal maxTemporal) (fun t =>
        bandwidthRequested <- at_ brs s t ;;
        if bandwidthRequested =? 0 then Ok None
        else if (negb allowOvershoot || negb (IsOvershootOkay (vls f)))
                && (int64 (bandwidthRequested - alreadyAllocated)
                    >? availableChannelCapacity)
        then
          (* next higher available layer does not fit, return *)
          Ok (Some (true, lastAllocation f, false, f))
        else
          r <- boostTo f availableLayers brs maxLayer maxSeenLayer
                 optimalBandwidthNeeded alreadyAllocated s t
                 bandwidthRequested ;;
          Ok (Some r))) ;;
  match found with
  | Some r => Ok r
  | None => Ok (false, VideoAllocation.zero_value, false, f)
  end.

Definition AllocateNextHigher (f : Fwd) (availableChannelCapacity : Z)
  (availableLayers : list Z) (brs : Bitrates) (allowOvershoot : bool)
  : result (VideoAllocation.t * bool * Fwd) :=
  match kind f with
  | RTPCodecTypeAudio => Ok (lastAllocation f, false, f)
  | _ =>
    (* if not deficient, nothing to do *)
    if negb (isDeficientLocked f) then Ok (lastAllocation f, false, f)
    else
      (* if targets are still pending, don't increase *)
      let targetLayer := GetTarget (vls f) in
      if IsValid targetLayer
         && negb (VideoLayer_eqb targetLayer (GetCurrent (vls f)))
      then Ok (lastAllocation f, false, f)
      else
        let maxLayer := GetMax (vls f) in
        let maxSeenLayer := GetMaxSeen (vls f) in
        optimalBandwidthNeeded <-
          getOptimalBandwidthNeeded (muted f) (pubMuted f)
            (Spatial maxSeenLayer) brs maxLayer ;;
        alreadyAllocated <-
          (if IsValid targetLayer then at_layer brs targetLayer else Ok 0) ;;
        let doAllocation :=
          doAllocation f availableChannelCapacity availableLayers brs
            allowOvershoot maxLayer maxSeenLayer optimalBandwidthNeeded
            alreadyAllocated in
        (* try moving temporal layer up in currently streaming spatial layer *)
        '(done, allocation, boosted, f1) <-
          (if IsValid targetLayer
           then doAllocation (Spatial targetLayer) (Spatial targetLayer)
                             (Temporal targetLayer + 1) (Temporal maxLayer)
           else Ok (false, VideoAllocation.zero_value, false, f)) ;;
        if done then Ok (allocation, boosted, f1)
        else
          (* try moving spatial layer up if temporal layer move up is not
             available *)
          '(done, allocation, boosted, f2) <-
            doAllocation (Spatial targetLayer + 1) (Spatial maxLayer)
                         0 (Temporal maxLayer) ;;
          if done then Ok (allocation, boosted, f2)
          else
            '(done, allocation, boosted, f3) <-
              (if allowOvershoot && IsOvershootOkay (vls f) && IsValid maxLayer
               then doAllocation (Spatial maxLayer + 1) DefaultMaxLayerSpatial
                                 0 DefaultMaxLayerTemporal
               else Ok (false, VideoAllocation.zero_value, false, f)) ;;
            if done then Ok (allocation, boosted, f3)
            else Ok (lastAllocation f, false, f)
  end.

(** *** Source switch *)

(** [float64(int64(a - b)) / float64(f.codec.ClockRate)] *)
Definition diff_seconds (f : Fwd) (a b : Z) : F64.t :=
  F64.div (F64.of_int (int64 (a - b))) (F64.of_int (ClockRate (codec f))).

(** The timestamps [processSourceSwitch] works out and logs as
    "next timestamp on switch". *)
Record SwitchTimestamps : Type := mkSwitchTimestamps {
  extLastTS : Z;
  extRefTS : Z;
  extExpectedTS : Z;
  extNextTS : Z
}.

(** [extRefTS]: the packet's timestamp in the reference layer's time
    base, stitched into the 64-bit space around [extExpectedTS]. *)
Definition referenceTimestamp (f : Fwd) (extPkt : ExtPacket) (layer : Z)
  (extExpectedTS extRefTS : Z) : Z + error :=
  match getReferenceLayerRTPTimestamp f with
  | None => inl extRefTS
  | Some callback =>
    match callback (Timestamp extPkt) layer (referenceLayerSpatial f) with
    | inr err => inr err
    | inl ts =>
      let extRefTS := uint64 (Z.land extRefTS 0xFFFFFFFF00000000 + ts) in
      let expectedTS32 := uint32 extExpectedTS in
      let extRefTS :=
        if (uint32 (ts - expectedTS32) <? 2 ^ 31) && (ts <? expectedTS32)
        then uint64 (extRefTS + 2 ^ 32)
        else extRefTS in
      let extRefTS :=
        if (uint32 (expectedTS32 - ts) <? 2 ^ 31) && (expectedTS32 <? ts)
           && (extRefTS >=? 2 ^ 32)
        then uint64 (extRefTS - 2 ^ 32)
        else extRefTS in
      inl extRefTS
    end
  end.

(** [extExpectedTS], and [refTSOffset] when it is first computed.
    [timeSinceFirst] is what [time.Since(f.preStartTime)] reads. *)
Definition expectedTimestamp (f : Fwd) (switchingAt : Time)
  (timeSinceFirst : Z) (extExpectedTS extRefTS : Z) : Z * Fwd :=
  match getExpectedRTPTimestamp f with
  | None => (extExpectedTS, f)
  | Some callback =>
    match callback switchingAt with
    | inl tsExt => (tsExt, f)
    | inr _ =>
      if negb (IsZero (preStartTime f)) then
        let rtpDiff :=
          uint64 (Z.quot (int64 (timeSinceFirst * ClockRate (codec f)))
                         1000000000) in
        let extExpectedTS := uint64 (extFirstTS f + rtpDiff) in
        let f :=
          if refTSOffset f =? 0
          then with_refTSOffset f (uint64 (extExpectedTS - extRefTS))
          else f in
        (extExpectedTS, f)
      else (extExpectedTS, f)
    end
  end.

(** The first part of [processSourceSwitch] after the start-up case:
    the three timestamps the decision is taken on, [extLastTS],
    [extRefTS] (offset applied) and [extExpectedTS]. *)
Definition switchCandidates (f : Fwd) (extPkt : ExtPacket) (layer : Z)
  (switchingAt : Time) (timeSinceFirst : Z) : (Z * Z * Z + error) * Fwd :=
  let f :=
    if referenceLayerSpatial f =? InvalidLayerSpatial
    then with_referenceLayerSpatial f layer
    else f in
  let rtpMungerState := GetLast (rtpMunger f) in
  let extLastTS := ExtLastTS rtpMungerState in
  let extExpectedTS := extLastTS in
  let extRefTS := extExpectedTS in
  match referenceTimestamp f extPkt layer extExpectedTS extRefTS with
  | inr err => (inr err, f)
  | inl extRefTS =>
    let '(extExpectedTS, f) :=
      expectedTimestamp f switchingAt timeSinceFirst extExpectedTS extRefTS in
    let extRefTS := uint64 (extRefTS + refTSOffset f) in
    (inl (extLastTS, extRefTS, extExpectedTS), f)
  end.

(** The decision rule: resume ([lastSSRC == 0]) or layer switch. *)
Definition chooseNextTimestamp (f : Fwd) (extLastTS extRefTS extExpectedTS : Z)
  : (Z + error) * Fwd :=
  if lastSSRC f =? 0 then
    (* resuming: keep next timestamp close to expected timestamp *)
    let diffSeconds := diff_seconds f extExpectedTS extRefTS in
    let extNextTS :=
      if F64.geb diffSeconds F64.zero then
        if F64.gtb (resumeBehindThreshold f) F64.zero
           && F64.gtb diffSeconds (resumeBehindThreshold f)
        then extExpectedTS
        else if F64.gtb diffSeconds ResumeBehindHighTresholdSeconds
        then extExpectedTS
        else extRefTS
      else extRefTS in
    (inl extNextTS, with_resumeBehindThreshold f F64.zero)
  else
    (* switching between layers, check if extRefTS is too far behind the
       last sent *)
    let diffSeconds := diff_seconds f extRefTS extLastTS in
    if F64.ltb diffSeconds F64.zero then
      if F64.gtb (F64.Abs diffSeconds) LayerSwitchBehindThresholdSeconds
      then (inr (errors_New "switch point too far behind"), f)
      else
        (* use a nominal increase to ensure that timestamp is always
           moving forward *)
        (inl (uint64 (extLastTS + 1)), f)
    else (inl extRefTS, f).

(** The guard after the decision rule. *)
Definition guardNextTimestamp (extLastTS extNextTS : Z) : Z :=
  if int64 (extNextTS - extLastTS) <=? 0
  then uint64 (extLastTS + 1)  (* nominal increase *)
  else extNextTS.

(** [processSourceSwitch] from the start-up case to the update of the
    mungers: the choice of [extNextTS]. *)
Definition nextTimestampOnSwitch (f : Fwd) (extPkt : ExtPacket) (layer : Z)
  (switchingAt : Time) (timeSinceFirst : Z)
  : (SwitchTimestamps + error) * Fwd :=
  match switchCandidates f extPkt layer switchingAt timeSinceFirst with
  | (inr err, f) => (inr err, f)
  | (inl (extLastTS, extRefTS, extExpectedTS), f) =>
    match chooseNextTimestamp f extLastTS extRefTS extExpectedTS with
    | (inr err, f) => (inr err, f)
    | (inl extNextTS, f) =>
      (inl (mkSwitchTimestamps extLastTS extRefTS extExpectedTS
              (guardNextTimestamp extLastTS extNextTS)), f)
    end
  end.

Definition processSourceSwitch (f : Fwd) (extPkt : ExtPacket) (layer : Z)
  (switchingAt : Time) (timeSinceFirst : Z) : option error * Fwd :=
  if negb (started f) then
    let f := with_started f true in
    let f := with_referenceLayerSpatial f layer in
    let f := with_rtpMunger f (SetLastSnTs (rtpMunger f) extPkt) in
    let f := with_codecMunger f (SetLast (codecMunger f) extPkt) in
    (None, f)
  else
    match nextTimestampOnSwitch f extPkt layer switchingAt timeSinceFirst with
    | (inr err, f) => (Some err, f)
    | (inl ts, f) =>
      let f :=
        with_rtpMunger f
          (UpdateSnTsOffsets (rtpMunger f) extPkt 1
             (uint64 (extNextTS ts - extLastTS ts))) in
      let f := with_codecMunger f (UpdateOffsets (codecMunger f) extPkt) in
      (None, f)
    end.

(** *** Translation pipeline *)

Definition getTranslationParamsCommon (f : Fwd) (extPkt : ExtPacket)
  (layer : Z) (tp : TranslationParams.t) (switchingAt : Time)
  (timeSinceFirst : Z) : TranslationParams.t * option error * Fwd :=
  let '(dropped, f) :=
    if negb (lastSSRC f =? SSRC extPkt) then
      match processSourceSwitch f extPkt layer switchingAt timeSinceFirst with
      | (Some _, f) => (true, f)
      | (None, f) => (false, with_lastSSRC f (SSRC extPkt))
      end
    else (false, f) in
  if dropped then (TranslationParams.with_shouldDrop tp true, None, f)
  else
    let '(translated, m) :=
      UpdateAndGetSnTs (rtpMunger f) extPkt (TranslationParams.marker tp) in
    let f := with_rtpMunger f m in
    match translated with
    | inr err =>
      let tp := TranslationParams.with_shouldDrop tp true in
      if is_benign_munger_error err then (tp, None, f)
      else (tp, Some err, f)
    | inl tpRTP => (TranslationParams.with_rtp tp tpRTP, None, f)
    end.

Definition getTranslationParamsAudio (f : Fwd) (extPkt : ExtPacket)
  (layer : Z) (switchingAt : Time) (timeSinceFirst : Z)
  : TranslationParams.t * option error * Fwd :=
  let tp := TranslationParams.zero_value in
  match getTranslationParamsCommon f extPkt layer tp switchingAt
          timeSinceFirst with
  | (tp, Some err, f) =>
    (TranslationParams.with_shouldDrop tp true, Some err, f)
  | (tp, None, f) => (tp, None, f)
  end.

Definition maybeRollback (f : Fwd) (isSwitching : bool) : Fwd :=
  if isSwitching then with_vls f (Rollback (vls f)) else f.

Definition getTranslationParamsVideo (f : Fwd) (extPkt : ExtPacket)
  (layer : Z) (switchingAt : Time) (timeSinceFirst : Z)
  : TranslationParams.t * option error * Fwd :=
  let tp := TranslationParams.zero_value in
  if negb (IsValid (GetTarget (vls f))) then
    (* stream is paused by streamallocator *)
    (TranslationParams.with_shouldDrop tp true, None, f)
  else
    let '(result, sel) := Select (vls f) extPkt layer in
    let f := with_vls f sel in
    if negb (IsSelected result) then
      let tp := TranslationParams.with_shouldDrop tp true in
      if started f && IsRelevant result then
        (* call to update highest incoming sequence number and other
           internal structures *)
        let '(translated, m) :=
          UpdateAndGetSnTs (rtpMunger f) extPkt (RTPMarker result) in
        let f := with_rtpMunger f m in
        match translated with
        | inl tpRTP =>
          match snOrdering tpRTP with
          | SequenceNumberOrderingContiguous =>
            (tp, None,
             with_rtpMunger f (PacketDropped (rtpMunger f) extPkt))
          | _ => (tp, None, f)
          end
        | inr _ => (tp, None, f)
        end
      else (tp, None, f)
    else
      let tp :=
        TranslationParams.mk false (IsResuming result) (IsSwitching result)
          (TranslationParams.rtp tp) (DependencyDescriptorExtension result)
          (RTPMarker result) in
      if FlagPauseOnDowngrade && isDeficientLocked f
         && (Spatial (GetTarget (vls f)) <? Spatial (GetCurrent (vls f)))
      then
        (* target is lower than current because of bandwidth constraints:
           drop rather than stress the channel *)
        let tp := TranslationParams.with_shouldDrop tp true in
        (tp, None, maybeRollback f (IsSwitching result))
      else
        let '(tp, err, f) :=
          getTranslationParamsCommon f extPkt layer tp switchingAt
            timeSinceFirst in
        if TranslationParams.shouldDrop tp
        then (tp, err, maybeRollback f (IsSwitching result))
        else (tp, None, f).

Definition GetTranslationParams (f : Fwd) (extPkt : ExtPacket) (layer : Z)
  (switchingAt : Time) (timeSinceFirst : Z)
  : TranslationParams.t * option error * Fwd :=
  if muted f || pubMuted f then
    (TranslationParams.with_shouldDrop TranslationParams.zero_value true,
     None, f)
  else
    match kind f with
    | RTPCodecTypeAudio =>
      getTranslationParamsAudio f extPkt layer switchingAt timeSinceFirst
    | RTPCodecTypeVideo =>
      getTranslationParamsVideo f extPkt layer switchingAt timeSinceFirst
    | RTPCodecTypeUnknown =>
      (TranslationParams.with_shouldDrop TranslationParams.zero_value true,
       Some ErrUnknownKind, f)
    end.

End ForwarderOps.

(* ------------------------------------------------------------------ *)
(** ** Search passes, in the words of the specification

    The definitions below do not come from the source: they state how the
    specification describes a search pass of [AllocateNextHigher], and are
    compared with [doAllocation] in the properties. *)

(** The candidate layers of a pass in scan order: spatial index outermost,
    both ascending. *)
Definition scan_order (minSpatial maxSpatial minTemporal maxTemporal : Z)
  : list (Z * Z) :=
  flat_map (fun s => map (fun t => (s, t)) (range_up minTemporal maxTemporal))
           (range_up minSpatial maxSpatial).

(** The first candidate of a pass: the first cell in scan order whose
    bitrate is not zero, the zero cells before it being skipped. *)
Fixpoint first_candidate (brs : Bitrates) (cells : list (Z * Z))
  : result (option (Z * Z * Z)) :=
  match cells with
  | [] => Ok None
  | (s, t) :: rest =>
      b <- at_ brs s t ;;
      if b =? 0 then first_candidate brs rest else Ok (Some (s, t, b))
  end.

(* ------------------------------------------------------------------ *)
(** ** Predicates of the properties *)

(** Every cell of the matrix is zero: nothing measured, or the feed is dry. *)
Definition zero_bitrates (brs : Bitrates) : Prop :=
  forall s t, in_bounds s t = true -> cell brs s t = 0.

(** What the weighted search keeps true of its running best: the best layer
    is still invalid or lies between (0,0) and the target on both axes, and
    the bandwidth it gives back is a non-negative int64. *)
Definition best_ok (targetLayer : VideoLayer) (acc : best) : Prop :=
  let '(bestLayer, bestBandwidthDelta, _) := acc in
  (bestLayer = InvalidLayer
   \/ (0 <= Spatial bestLayer <= Spatial targetLayer
       /\ 0 <= Temporal bestLayer <= Temporal targetLayer))
  /\ 0 <= bestBandwidthDelta < 2 ^ 63.

(* ------------------------------------------------------------------ *)
(** ** Scripted collaborators

    Stand-ins for the selector and the mungers, used to run the forwarder
    on concrete inputs: the selector keeps the layers it is told, hands out
    the selection results of a script and counts roll-backs; the mungers
    record the calls made to them. *)

Module Scripted.
Record Selector : Type := mkSelector {
  max : VideoLayer;
  maxSeen : VideoLayer;
  target : VideoLayer;
  current : VideoLayer;
  requestSpatial : Z;
  overshootOkay : bool;
  script : list VideoLayerSelectorResult;
  rollbacks : nat
}.

Definition notSelected : VideoLayerSelectorResult :=
  mkSelectorResult false false false false false [].

#[export] Instance selector : VideoLayerSelector Selector := {|
  GetMax := max;
  GetMaxSeen := maxSeen;
  GetTarget := target;
  GetCurrent := current;
  GetRequestSpatial := requestSpatial;
  IsOvershootOkay := overshootOkay;
  SetTarget s l :=
    mkSelector (max s) (maxSeen s) l (current s) (requestSpatial s)
      (overshootOkay s) (script s) (rollbacks s);
  SetCurrent s l :=
    mkSelector (max s) (maxSeen s) (target s) l (requestSpatial s)
      (overshootOkay s) (script s) (rollbacks s);
  SetRequestSpatial s r :=
    mkSelector (max s) (maxSeen s) (target s) (current s) r
      (overshootOkay s) (script s) (rollbacks s);
  Select s _ _ :=
    match script s with
    | r :: rest =>
      (r, mkSelector (max s) (maxSeen s) (target s) (current s)
            (requestSpatial s) (overshootOkay s) rest (rollbacks s))
    | [] => (notSelected, s)
    end;
  Rollback s :=
    mkSelector (max s) (maxSeen s) (target s) (current s) (requestSpatial s)
      (overshootOkay s) (script s) (S (rollbacks s))
|}.

Inductive MungerCall : Type :=
| CallSetLastSnTs (extPkt : ExtPacket)
| CallUpdateSnTsOffsets (extPkt : ExtPacket) (snAdjust tsAdjust : Z)
| CallUpdateAndGetSnTs (extPkt : ExtPacket) (marker : bool)
| CallPacketDropped (extPkt : ExtPacket).

Record Munger : Type := mkMunger {
  last : RTPMungerState;
  calls : list MungerCall
}.

#[export] Instance munger : RTPMungerOps Munger := {|
  GetLast := last;
  SetLastSnTs m extPkt :=
    mkMunger (mkRTPMungerState (ExtSequenceNumber extPkt) (ExtTimestamp extPkt))
      (calls m ++ [CallSetLastSnTs extPkt]);
  UpdateSnTsOffsets m extPkt snAdjust tsAdjust :=
    mkMunger (last m) (calls m ++ [CallUpdateSnTsOffsets extPkt snAdjust tsAdjust]);
  UpdateAndGetSnTs m extPkt marker :=
    (inl (mkTranslationParamsRTP SequenceNumberOrderingContiguous
            (ExtSequenceNumber extPkt) (ExtTimestamp extPkt)),
     mkMunger (last m) (calls m ++ [CallUpdateAndGetSnTs extPkt marker]));
  PacketDropped m extPkt :=
    mkMunger (last m) (calls m ++ [CallPacketDropped extPkt])
|}.

Inductive CodecCall : Type :=
| CallSetLast (extPkt : ExtPacket)
| CallUpdateOffsets (extPkt : ExtPacket).

Definition Codec : Type := list CodecCall.

#[export] Instance codecs : CodecMungerOps Codec := {|
  SetLast c extPkt := c ++ [CallSetLast extPkt];
  UpdateOffsets c extPkt := c ++ [CallUpdateOffsets extPkt]
|}.

Definition Fwd : Type := Forwarder Selector Munger Codec.

(** A video forwarder (VP8, 90 kHz) that has started, with the given
    selector and last output timestamp and without timestamp callbacks. *)
Definition video (sel : Selector) (extLastTS : Z) : Fwd :=
  mkForwarder (mkCodec "video/VP8" 90000) RTPCodecTypeVideo None None
    false false F64.zero true 0 0 0 InvalidLayerSpatial 0 None
    VideoAllocationDefault
    (mkMunger (mkRTPMungerState 0 extLastTS) []) sel [].

Definition layers (max' maxSeen' target' current' : VideoLayer) : Selector :=
  mkSelector max' maxSeen' target' current' InvalidLayerSpatial false [] 0.
End Scripted.
Import Scripted.

(* ------------------------------------------------------------------ *)
(** ** Scenarios

    Concrete forwarders and inputs, after the boundary scenarios of the
    specification, on which the properties are run. *)

Module Scenario.

Definition zeroBitrates : Bitrates := mkBitrates (fun _ _ => 0).

(** Every layer measured, higher layers needing more bits. *)
Definition fullBitrates : Bitrates :=
  mkBitrates (fun s t => 100000 * (s + 1) + 10000 * (t + 1)).

(** Only the layer (2,3) measured. *)
Definition topOnlyBitrates : Bitrates :=
  mkBitrates (fun s t => if (s =? 2) && (t =? 3) then 900000 else 0).

(** A higher temporal layer that needs many bits, a higher spatial layer
    that needs few. *)
Definition unorderedBitrates : Bitrates :=
  mkBitrates (fun s t =>
    if (s =? 0) && (t =? 0) then 100000
    else if (s =? 0) && (t =? 1) then 900000
    else if (s =? 1) && (t =? 0) then 150000
    else 0).

Definition L23 : VideoLayer := mkLayer 2 3.

(** S1/S2: MaxLayer = MaxSeen = (2,3), nothing current, nothing targeted. *)
Definition fresh : Scripted.Fwd :=
  Scripted.video (Scripted.layers L23 L23 InvalidLayer InvalidLayer) 0.

(** No maximum layer subscribed yet. *)
Definition withoutMax : Scripted.Fwd :=
  Scripted.video (Scripted.layers InvalidLayer L23 InvalidLayer InvalidLayer) 0.

(** Nothing published yet. *)
Definition withoutMaxSeen : Scripted.Fwd :=
  Scripted.video (Scripted.layers L23 InvalidLayer InvalidLayer InvalidLayer) 0.

(** Streaming (1,1) under a maximum of (2,3), every layer measured. *)
Definition streaming : Scripted.Fwd :=
  ProvisionalAllocatePrepare
    (Scripted.video
       (Scripted.layers L23 L23 (mkLayer 1 1) (mkLayer 1 1)) 0)
    [0; 1; 2] fullBitrates.

(** Target (1,1) with a bitrate of zero, current still (2,3), only (2,3)
    measured. *)
Definition targetNotStreaming : Scripted.Fwd :=
  ProvisionalAllocatePrepare
    (Scripted.video (Scripted.layers L23 L23 (mkLayer 1 1) L23) 0)
    [0; 1; 2] topOnlyBitrates.

(** The same forwarder once muted. *)
Definition mutedStreaming : Scripted.Fwd :=
  ProvisionalAllocatePrepare
    (with_muted
       (Scripted.video
          (Scripted.layers L23 L23 (mkLayer 1 1) (mkLayer 1 1)) 0) true)
    [0; 1; 2] fullBitrates.

(** S4: target (2,3), every layer measured. *)
Definition sacrificing : Scripted.Fwd :=
  ProvisionalAllocatePrepare
    (Scripted.video (Scripted.layers L23 L23 L23 L23) 0)
    [0; 1; 2] fullBitrates.

(** Target already moved down to (0,0), current still (2,3), feed dry. *)
Definition dryWhileSwitchingDown : Scripted.Fwd :=
  ProvisionalAllocatePrepare
    (Scripted.video (Scripted.layers L23 L23 (mkLayer 0 0) L23) 0)
    [0; 1; 2] zeroBitrates.

(** Deficient at (0,0), which is also current. *)
Definition deficient : Scripted.Fwd :=
  with_lastAllocation
    (Scripted.video
       (Scripted.layers L23 L23 (mkLayer 0 0) (mkLayer 0 0)) 0)
    (VideoAllocation.mk VideoPauseReasonNone true 100000 0 150000
       unorderedBitrates (mkLayer 0 0) 0 L23 F64.zero).

(** A provisional commitment to (1,1). *)
Definition committed : Scripted.Fwd :=
  set_allocatedLayer streaming
    (VideoAllocationProvisional.mk false false L23 [0; 1; 2] fullBitrates
       L23 (mkLayer 1 1) InvalidLayer)
    (mkLayer 1 1).

Definition packet (ssrc ts : Z) : ExtPacket := mkExtPacket ssrc 100 ts 100 ts.

(** S6: last output timestamp 1000000 at 90 kHz on SSRC 1111; the
    reference layer maps an incoming timestamp to itself. *)
Definition switching (script : list VideoLayerSelectorResult)
  : Scripted.Fwd :=
  mkForwarder (mkCodec "video/VP8" 90000) RTPCodecTypeVideo
    (Some (fun ts _ _ => inl ts)) None
    false false F64.zero true 0 0 1111 0 0 None VideoAllocationDefault
    (Scripted.mkMunger (mkRTPMungerState 500 1000000) [])
    (Scripted.mkSelector L23 L23 (mkLayer 1 3) (mkLayer 0 3) 1 false script 0)
    [].

(** The same, with no sender report yet for the layer switched to. *)
Definition unresolved (script : list VideoLayerSelectorResult)
  : Scripted.Fwd :=
  mkForwarder (mkCodec "video/VP8" 90000) RTPCodecTypeVideo
    (Some (fun _ _ _ => inr (errors_New "no sender report"))) None
    false false F64.zero true 0 0 1111 0 0 None VideoAllocationDefault
    (Scripted.mkMunger (mkRTPMungerState 500 1000000) [])
    (Scripted.mkSelector L23 L23 (mkLayer 1 3) (mkLayer 0 3) 1 false script 0)
    [].

Definition switchSelected : VideoLayerSelectorResult :=
  mkSelectorResult true true false true false [].

Definition plainSelected : VideoLayerSelectorResult :=
  mkSelectorResult true true false false false [].

End Scenario.

(* ------------------------------------------------------------------ *)
(** ** The rest of the forwarder

    The operations of forwarder.go beside the ones above: publisher mute,
    the layer limits, pause, the commit of a cooperative allocation, the
    preview of the next higher layer, RTX filtering, the codec header
    translation, padding and blank frames, and the state handed over on a
    migration. *)

(** The further methods of the selector these operations call. *)
Class VideoLayerSelectorMore (Sel : Type) : Type := {
  SetMaxSpatial : Sel -> Z -> Sel;
  SetMaxTemporal : Sel -> Z -> Sel;
  SetMaxSeenSpatial : Sel -> Z -> Sel;
  SetMaxSeenTemporal : Sel -> Z -> Sel;
  SelectorCheckSync : Sel -> bool * Z;
  SelectTemporal : Sel -> ExtPacket -> Z * bool * Sel
}.

(** Modelled from the spec: one padding or blank-frame slot, "{sn, ts}". *)
Record SnTs : Type := mkSnTs { sn : Z; ts : Z }.

(** The further methods of the RTP munger. *)
Class RTPMungerMore (Mun : Type) : Type := {
  SeedLast : Mun -> RTPMungerState -> Mun;
  GetPinnedTSOffset : Mun -> Z;
  MungerFilterRTX : Mun -> list Z -> list Z;
  IsOnFrameBoundary : Mun -> bool;
  UpdateAndGetPaddingSnTs :
    Mun -> Z -> Z -> Z -> bool -> Z -> (list SnTs + error) * Mun
}.

(** What [codecMunger.UpdateAndGet] can fail with: the two sentinel errors
    of package [codecmunger] the forwarder recognises, or another error. *)
Inductive codec_error : Type :=
| ErrFilteredVP8TemporalLayer
| ErrOutOfOrderVP8PictureIdCacheMiss
| ErrCodec (e : error).

(** The further methods of the codec munger; [CodecState] is what its
    [GetState] returns as [interface{}], [nilState] the nil interface. *)
Class CodecMungerMore (Cod : Type) : Type := {
  CodecState : Type;
  nilState : CodecState;
  CodecGetState : Cod -> CodecState;
  CodecSeedState : Cod -> CodecState -> Cod;
  UpdateAndGet :
    Cod -> ExtPacket -> bool -> bool -> Z -> (Z * Z + codec_error) * Cod;
  UpdateAndGetPadding : Cod -> bool -> (Z + error) * Cod
}.

Record ForwarderState (St : Type) : Type := mkForwarderState {
  Started : bool;
  ReferenceLayerSpatial : Z;
  PreStartTime : Time;
  ExtFirstTS : Z;
  RefTSOffset : Z;
  RTP : RTPMungerState;
  Codec : St
}.

Section ForwarderRest.
Context {Sel Mun Cod : Type}.
Context {selector : VideoLayerSelector Sel}.
Context {munger : RTPMungerOps Mun}.
Context {codecs : CodecMungerOps Cod}.
Context {selectorMore : VideoLayerSelectorMore Sel}.
Context {mungerMore : RTPMungerMore Mun}.
Context {codecsMore : CodecMungerMore Cod}.

Local Notation "'Fwd'" := (Forwarder Sel Mun Cod).

(** *** Field updates *)

Definition with_pubMuted (f : Fwd) (v : bool) : Fwd :=
  mkForwarder (codec f) (kind f) (getReferenceLayerRTPTimestamp f)
    (getExpectedRTPTimestamp f) (muted f) v (resumeBehindThreshold f)
    (started f) (preStartTime f) (extFirstTS f) (lastSSRC f)
    (referenceLayerSpatial f) (refTSOffset f) (provisional f)
    (lastAllocation f) (rtpMunger f) (vls f) (codecMunger f).
Definition with_preStartTime (f : Fwd) (v : Time) : Fwd :=
  mkForwarder (codec f) (kind f) (getReferenceLayerRTPTimestamp f)
    (getExpectedRTPTimestamp f) (muted f) (pubMuted f)
    (resumeBehindThreshold f) (started f) v (extFirstTS f) (lastSSRC f)
    (referenceLayerSpatial f) (refTSOffset f) (provisional f)
    (lastAllocation f) (rtpMunger f) (vls f) (codecMunger f).
Definition with_extFirstTS (f : Fwd) (v : Z) : Fwd :=
  mkForwarder (codec f) (kind f) (getReferenceLayerRTPTimestamp f)
    (getExpectedRTPTimestamp f) (muted f) (pubMuted f)
    (resumeBehindThreshold f) (started f) (preStartTime f) v (lastSSRC f)
    (referenceLayerSpatial f) (refTSOffset f) (provisional f)
    (lastAllocation f) (rtpMunger f) (vls f) (codecMunger f).

(** *** Layers seen and subscribed *)

Definition SetMaxPublishedLayer (f : Fwd) (maxPublishedLayer : Z)
  : bool * Fwd :=
  let existingMaxSeen := GetMaxSeen (vls f) in
  if maxPublishedLayer <=? Spatial existingMaxSeen then (false, f)
  else (true, with_vls f (SetMaxSeenSpatial (vls f) maxPublishedLayer)).

Definition SetMaxTemporalLayerSeen (f : Fwd) (maxTemporalLayerSeen : Z)
  : bool * Fwd :=
  let existingMaxSeen := GetMaxSeen (vls f) in
  if maxTemporalLayerSeen <=? Temporal existingMaxSeen then (false, f)
  else (true, with_vls f (SetMaxSeenTemporal (vls f) maxTemporalLayerSeen)).

Definition SetMaxSpatialLayer (f : Fwd) (spatialLayer : Z)
  : bool * VideoLayer * Fwd :=
  match kind f with
  | RTPCodecTypeAudio => (false, InvalidLayer, f)
  | _ =>
    let existingMax := GetMax (vls f) in
    if spatialLayer =? Spatial existingMax then (false, existingMax, f)
    else
      let f := with_vls f (SetMaxSpatial (vls f) spatialLayer) in
      (true, GetMax (vls f), f)
  end.

Definition SetMaxTemporalLayer (f : Fwd) (temporalLayer : Z)
  : bool * VideoLayer * Fwd :=
  match kind f with
  | RTPCodecTypeAudio => (false, InvalidLayer, f)
  | _ =>
    let existingMax := GetMax (vls f) in
    if temporalLayer =? Temporal existingMax then (false, existingMax, f)
    else
      let f := with_vls f (SetMaxTemporal (vls f) temporalLayer) in
      (true, GetMax (vls f), f)
  end.

Definition GetMaxSubscribedSpatial (f : Fwd) : Z :=
  let layer := InvalidLayerSpatial in (* covers muted case *)
  if negb (muted f) then
    let layer := Spatial (GetMax (vls f)) in
    (* If current is higher, mark the current layer as max subscribed layer *)
    if layer <? Spatial (GetCurrent (vls f))
    then Spatial (GetCurrent (vls f))
    else layer
  else layer.

Definition GetCurrentSpatialAndTSOffset (f : Fwd) : Z * Z :=
  match kind f with
  | RTPCodecTypeAudio => (0, GetPinnedTSOffset (rtpMunger f))
  | _ => (Spatial (GetCurrent (vls f)), GetPinnedTSOffset (rtpMunger f))
  end.

(** *** Publisher mute and resync *)

Definition PubMute (f : Fwd) (pubMuted' : bool) : bool * Fwd :=
  if Bool.eqb (pubMuted f) pubMuted' then (false, f)
  else
    let f := with_pubMuted f pubMuted' in
    (* resync when pub muted so that sequence numbers do not jump on unmute *)
    let f := if pubMuted' then resyncLocked f else f in
    (true, f).

Definition Resync (f : Fwd) : Fwd := resyncLocked f.

Definition CheckSync (f : Fwd) : bool * Z := SelectorCheckSync (vls f).

(** *** State handed over on a migration *)

Definition GetState (f : Fwd) : ForwarderState CodecState :=
  if negb (started f) then
    mkForwarderState false 0 0 0 0 (mkRTPMungerState 0 0) nilState
  else
    mkForwarderState (started f) (referenceLayerSpatial f) (preStartTime f)
      (extFirstTS f) (refTSOffset f) (GetLast (rtpMunger f))
      (CodecGetState (codecMunger f)).

Definition SeedState (f : Fwd) (state : ForwarderState CodecState) : Fwd :=
  if negb (Started state) then f
  else
    let f := with_rtpMunger f (SeedLast (rtpMunger f) (RTP state)) in
    let f := with_codecMunger f (CodecSeedState (codecMunger f) (Codec state)) in
    let f := with_started f true in
    let f := with_referenceLayerSpatial f (ReferenceLayerSpatial state) in
    let f := with_preStartTime f (PreStartTime state) in
    let f := with_extFirstTS f (ExtFirstTS state) in
    with_refTSOffset f (RefTSOffset state).

(** *** Commit of a cooperative allocation *)

Definition ProvisionalAllocateCommit (f : Fwd)
  : result (VideoAllocation.t * Fwd) :=
  p <- the_provisional f ;;
  let brs := VideoAllocationProvisional.bitrates p in
  let allocatedLayer := VideoAllocationProvisional.allocatedLayer p in
  let optimal (_ : unit) :=
    getOptimalBandwidthNeeded (VideoAllocationProvisional.muted p)
      (VideoAllocationProvisional.pubMuted p)
      (Spatial (VideoAllocationProvisional.maxSeenLayer p)) brs
      (VideoAllocationProvisional.maxLayer p) in
  let existing (_ : unit) :=
    getBandwidthNeeded brs (GetTarget (vls f))
      (VideoAllocation.BandwidthRequested (lastAllocation f)) in
  optimalBandwidthNeeded <- optimal tt ;;
  existing0 <- existing tt ;;
  distance <- getDistanceToDesired (VideoAllocationProvisional.muted p)
                (VideoAllocationProvisional.pubMuted p)
                (VideoAllocationProvisional.maxSeenLayer p)
                (VideoAllocationProvisional.availableLayers p) brs
                allocatedLayer (VideoAllocationProvisional.maxLayer p) ;;
  let alloc :=
    VideoAllocation.mk VideoPauseReasonNone false 0 (int64 (0 - existing0))
      optimalBandwidthNeeded brs allocatedLayer (Spatial allocatedLayer)
      (VideoAllocationProvisional.maxLayer p) distance in
  '(alloc, f) <-
    (if VideoAllocationProvisional.muted p then
       Ok (VideoAllocation.with_PauseReason alloc VideoPauseReasonMuted, f)
     else if VideoAllocationProvisional.pubMuted p then
       Ok (VideoAllocation.with_PauseReason alloc VideoPauseReasonPubMuted, f)
     else if optimalBandwidthNeeded =? 0 then
       if IsValid allocatedLayer then
         (* overshoot *)
         b <- at_layer brs allocatedLayer ;;
         let alloc := VideoAllocation.with_BandwidthRequested alloc b in
         existing1 <- existing tt ;;
         Ok (VideoAllocation.with_BandwidthDelta alloc
               (int64 (VideoAllocation.BandwidthRequested alloc - existing1)),
             f)
       else
         let alloc :=
           VideoAllocation.with_PauseReason alloc VideoPauseReasonFeedDry in
         (* leave target at current for opportunistic forwarding *)
         if IsValid (VideoAllocationProvisional.currentLayer p)
            && (Spatial (VideoAllocationProvisional.currentLayer p)
                <=? Spatial (VideoAllocationProvisional.maxLayer p))
         then
           let f :=
             set_allocatedLayer f p
               (VideoAllocationProvisional.currentLayer p) in
           let alloc :=
             VideoAllocation.with_TargetLayer alloc
               (VideoAllocationProvisional.currentLayer p) in
           Ok (VideoAllocation.with_RequestLayerSpatial alloc
                 (Spatial (VideoAllocation.TargetLayer alloc)), f)
         else Ok (alloc, f)
     else
       alloc <-
         (if IsValid allocatedLayer
          then b <- at_layer brs allocatedLayer ;;
               Ok (VideoAllocation.with_BandwidthRequested alloc b)
          else Ok alloc) ;;
       existing1 <- existing tt ;;
       let alloc :=
         VideoAllocation.with_BandwidthDelta alloc
           (int64 (VideoAllocation.BandwidthRequested alloc - existing1)) in
       if GreaterThan allocatedLayer (VideoAllocationProvisional.maxLayer p)
       then
         (* could be greater than optimal if overshooting *)
         Ok (VideoAllocation.with_IsDeficient alloc false, f)
       else
         optimalAgain <- optimal tt ;;
         if VideoAllocation.BandwidthRequested alloc >=? optimalAgain
         then Ok (VideoAllocation.with_IsDeficient alloc false, f)
         else
           let alloc := VideoAllocation.with_IsDeficient alloc true in
           if negb (IsValid allocatedLayer)
           then Ok (VideoAllocation.with_PauseReason alloc
                      VideoPauseReasonBandwidth, f)
           else Ok (alloc, f)) ;;
  Ok (updateAllocation f alloc).

(** *** Preview of the next higher layer *)

(** The closure [findNextHigher] of [GetNextHigherTransition]. *)
Definition findNextHigher (brs : Bitrates) (targetLayer : VideoLayer)
  (alreadyAllocated : Z)
  (minSpatial maxSpatial minTemporal maxTemporal : Z)
  : result (bool * VideoTransition.t * bool) :=
  found <-
    for_first (range_up minSpatial maxSpatial) (fun s =>
      for_first (range_up minTemporal maxTemporal) (fun t =>
        bandwidthRequested <- at_ brs s t ;;
        (* traverse till finding a layer requiring more bits *)
        if (bandwidthRequested =? 0)
           || (bandwidthRequested <? alreadyAllocated)
        then Ok None
        else
          Ok (Some (true,
                    VideoTransition.mk targetLayer (mkLayer s t)
                      (int64 (bandwidthRequested - alreadyAllocated)),
                    true)))) ;;
  match found with
  | Some r => Ok r
  | None => Ok (false, VideoTransition.mk (mkLayer 0 0) (mkLayer 0 0) 0, false)
  end.

Definition GetNextHigherTransition (f : Fwd) (brs : Bitrates)
  (allowOvershoot : bool) : result (VideoTransition.t * bool) :=
  let none := (VideoTransition.mk (mkLayer 0 0) (mkLayer 0 0) 0, false) in
  match kind f with
  | RTPCodecTypeAudio => Ok none
  | _ =>
    (* if not deficient, nothing to do *)
    if negb (isDeficientLocked f) then Ok none
    else
      (* if targets are still pending, don't increase *)
      let targetLayer := GetTarget (vls f) in
      if IsValid targetLayer
         && negb (VideoLayer_eqb targetLayer (GetCurrent (vls f)))
      then Ok none
      else
        alreadyAllocated <-
          (if IsValid targetLayer then at_layer brs targetLayer else Ok 0) ;;
        let findNextHigher := findNextHigher brs targetLayer alreadyAllocated in
        (* try moving temporal layer up in currently streaming spatial layer *)
        let maxLayer := GetMax (vls f) in
        '(done, transition, isAvailable) <-
          (if IsValid targetLayer
           then findNextHigher (Spatial targetLayer) (Spatial targetLayer)
                               (Temporal targetLayer + 1) (Temporal maxLayer)
           else Ok (false, fst none, false)) ;;
        if done then Ok (transition, isAvailable)
        else
          (* try moving spatial layer up if temporal layer move up is not
             available *)
          '(done, transition, isAvailable) <-
            findNextHigher (Spatial targetLayer + 1) (Spatial maxLayer)
                           0 (Temporal maxLayer) ;;
          if done then Ok (transition, isAvailable)
          else
            '(done, transition, isAvailable) <-
              (if allowOvershoot && IsOvershootOkay (vls f) && IsValid maxLayer
               then findNextHigher (Spatial maxLayer + 1) DefaultMaxLayerSpatial
                                   0 DefaultMaxLayerTemporal
               else Ok (false, fst none, false)) ;;
            if done then Ok (transition, isAvailable)
            else Ok none
  end.

(** *** Pause *)

Definition Pause (f : Fwd) (availableLayers : list Z) (brs : Bitrates)
  : result (VideoAllocation.t * Fwd) :=
  let maxLayer := GetMax (vls f) in
  let maxSeenLayer := GetMaxSeen (vls f) in
  optimalBandwidthNeeded <-
    getOptimalBandwidthNeeded (muted f) (pubMuted f) (Spatial maxSeenLayer)
      brs maxLayer ;;
  existing <- getBandwidthNeeded brs (GetTarget (vls f))
                (VideoAllocation.BandwidthRequested (lastAllocation f)) ;;
  distance <- getDistanceToDesired (muted f) (pubMuted f) maxSeenLayer
                availableLayers brs InvalidLayer maxLayer ;;
  let alloc :=
    VideoAllocation.mk VideoPauseReasonNone false 0 (int64 (0 - existing))
      optimalBandwidthNeeded brs InvalidLayer InvalidLayerSpatial maxLayer
      distance in
  let alloc :=
    if muted f then
      VideoAllocation.with_PauseReason alloc VideoPauseReasonMuted
    else if pubMuted f then
      VideoAllocation.with_PauseReason alloc VideoPauseReasonPubMuted
    else if optimalBandwidthNeeded =? 0 then
      VideoAllocation.with_PauseReason alloc VideoPauseReasonFeedDry
    else
      (* pausing due to lack of bandwidth *)
      VideoAllocation.with_PauseReason
        (VideoAllocation.with_IsDeficient alloc true)
        VideoPauseReasonBandwidth in
  Ok (updateAllocation f alloc).

(** *** RTX filtering *)

(** [FilterRTX]: the NACKs to serve and, per spatial layer, whether RTX is
    disallowed (the array [[DefaultMaxLayerSpatial + 1]bool]). *)
Definition FilterRTX (f : Fwd) (nacks : list Z) : list Z * list bool :=
  let filtered :=
    if negb FlagFilterRTX then nacks
    else MungerFilterRTX (rtpMunger f) nacks in
  let disallowedLayers :=
    if FlagFilterRTXLayers then
      let currentLayer := GetCurrent (vls f) in
      let targetLayer := GetTarget (vls f) in
      map (fun layer =>
             isDeficientLocked f
             && ((Spatial targetLayer <? Spatial currentLayer)
                 || (layer >? Spatial currentLayer)))
          (range_up 0 DefaultMaxLayerSpatial)
    else map (fun _ => false) (range_up 0 DefaultMaxLayerSpatial) in
  (filtered, disallowedLayers).

(** *** Codec header *)

Definition TranslateCodecHeader (f : Fwd) (extPkt : ExtPacket)
  (tpr : TranslationParamsRTP)
  : bool * Z * Z * option codec_error * Fwd :=
  (* codec specific forwarding check and any needed packet munging *)
  let '(tl, isSwitching, sel) := SelectTemporal (vls f) extPkt in
  let f := with_vls f sel in
  let '(sizes, cod) :=
    UpdateAndGet (codecMunger f) extPkt
      (match snOrdering tpr with
       | SequenceNumberOrderingOutOfOrder => true | _ => false end)
      (match snOrdering tpr with
       | SequenceNumberOrderingGap => true | _ => false end)
      tl in
  let f := with_codecMunger f cod in
  match sizes with
  | inr ErrFilteredVP8TemporalLayer =>
    (* filtered temporal layer, update sequence number offset to prevent
       holes *)
    let f := with_rtpMunger f (PacketDropped (rtpMunger f) extPkt) in
    (false, 0, 0, None, maybeRollback f isSwitching)
  | inr ErrOutOfOrderVP8PictureIdCacheMiss =>
    (false, 0, 0, None, maybeRollback f isSwitching)
  | inr (ErrCodec e) =>
    (false, 0, 0, Some (ErrCodec e), maybeRollback f isSwitching)
  | inl (inputSize, outputSize) => (true, inputSize, outputSize, None, f)
  end.

(** *** Padding and blank frames *)

(** [maybeStart]; [now] is what [time.Now()] reads, [r14] and [r30] what
    [rand.Intn(1<<14)] and [rand.Intn(1<<30)] draw. *)
Definition maybeStart (f : Fwd) (now : Time) (r14 r30 : Z) : Fwd :=
  if started f then f
  else
    let f := with_started f true in
    let f := with_preStartTime f now in
    (* a random number in third quartile of sequence number space *)
    let sequenceNumber :=
      wrap_unsigned 16 (wrap_unsigned 16 r14 + wrap_unsigned 16 (2 ^ 15)) in
    (* a random number in third quartile of timestamp space *)
    let timestamp := uint32 (uint32 r30 + uint32 (2 ^ 31)) in
    let extPkt :=
      mkExtPacket 0 sequenceNumber timestamp (uint64 sequenceNumber)
        (uint64 timestamp) in
    let f := with_rtpMunger f (SetLastSnTs (rtpMunger f) extPkt) in
    with_extFirstTS f (uint64 timestamp).

Definition GetSnTsForPadding (f : Fwd) (num : Z) (forceMarker : bool)
  (now : Time) (r14 r30 : Z) : (list SnTs + error) * Fwd :=
  let f := maybeStart f now r14 r30 in
  (* when a stream is paused, force a frame marker *)
  let forceMarker :=
    if negb (IsValid (GetTarget (vls f))) then true else forceMarker in
  let '(snts, m) :=
    UpdateAndGetPaddingSnTs (rtpMunger f) num 0 0 forceMarker 0 in
  (snts, with_rtpMunger f m).

(** [expected] is what [getExpectedRTPTimestamp] is asked at the
    [time.Now()] read after [maybeStart]. *)
Definition GetSnTsForBlankFrames (f : Fwd) (frameRate numPackets : Z)
  (now expected : Time) (r14 r30 : Z) : (list SnTs + error) * bool * Fwd :=
  let f := maybeStart f now r14 r30 in
  let frameEndNeeded := negb (IsOnFrameBoundary (rtpMunger f)) in
  let numPackets := if frameEndNeeded then numPackets + 1 else numPackets in
  let extLastTS := ExtLastTS (GetLast (rtpMunger f)) in
  let extExpectedTS := extLastTS in
  let extExpectedTS :=
    match getExpectedRTPTimestamp f with
    | Some callback =>
      match callback expected with
      | inl tsExt => tsExt
      | inr _ => extExpectedTS
      end
    | None => extExpectedTS
    end in
  let extExpectedTS :=
    if int64 (extExpectedTS - extLastTS) <=? 0
    then uint64 (extLastTS + 1)
    else extExpectedTS in
  let '(snts, m) :=
    UpdateAndGetPaddingSnTs (rtpMunger f) numPackets (ClockRate (codec f))
      frameRate frameEndNeeded extExpectedTS in
  (snts, frameEndNeeded, with_rtpMunger f m).

Definition GetPadding (f : Fwd) (frameEndNeeded : bool) : (Z + error) * Fwd :=
  let '(size, cod) :=
    UpdateAndGetPadding (codecMunger f) (negb frameEndNeeded) in
  (size, with_codecMunger f cod).

End ForwarderRest.

(** What the forwarder relies on when it reads back a layer it has just
    written to the selector.  The selectors are not among the sources:
    the properties that need these equations take them as a hypothesis. *)
Class VideoLayerSelectorLaws (Sel : Type) {selector : VideoLayerSelector Sel}
  : Prop := {
  GetTarget_SetTarget :
    forall (s : Sel) l, GetTarget (SetTarget s l) = l;
  GetTarget_SetRequestSpatial :
    forall (s : Sel) r, GetTarget (SetRequestSpatial s r) = GetTarget s;
  GetTarget_SetCurrent :
    forall (s : Sel) l, GetTarget (SetCurrent s l) = GetTarget s;
  GetCurrent_SetCurrent :
    forall (s : Sel) l, GetCurrent (SetCurrent s l) = l
}.
Arguments VideoLayerSelectorLaws Sel {selector}.

(** The same for the state handed over on a migration. *)
Class SeedLaws (Mun Cod : Type) {munger : RTPMungerOps Mun}
  {mungerMore : RTPMungerMore Mun} {codecsMore : CodecMungerMore Cod}
  : Prop := {
  GetLast_SeedLast :
    forall (m : Mun) st, GetLast (SeedLast m st) = st;
  CodecGetState_CodecSeedState :
    forall (c : Cod) st, CodecGetState (CodecSeedState c st) = st
}.
Arguments SeedLaws Mun Cod {munger mungerMore codecsMore}.

(** The scripted collaborators, with the further methods. *)
Module ScriptedRest.

#[export] Instance selectorMore : VideoLayerSelectorMore Scripted.Selector := {|
  SetMaxSpatial s l :=
    mkSelector (mkLayer l (Temporal (max s))) (maxSeen s) (target s)
      (current s) (requestSpatial s) (overshootOkay s) (script s)
      (rollbacks s);
  SetMaxTemporal s l :=
    mkSelector (mkLayer (Spatial (max s)) l) (maxSeen s) (target s)
      (current s) (requestSpatial s) (overshootOkay s) (script s)
      (rollbacks s);
  SetMaxSeenSpatial s l :=
    mkSelector (max s) (mkLayer l (Temporal (maxSeen s))) (target s)
      (current s) (requestSpatial s) (overshootOkay s) (script s)
      (rollbacks s);
  SetMaxSeenTemporal s l :=
    mkSelector (max s) (mkLayer (Spatial (maxSeen s)) l) (target s)
      (current s) (requestSpatial s) (overshootOkay s) (script s)
      (rollbacks s);
  SelectorCheckSync s :=
    (VideoLayer_eqb (target s) (current s), Spatial (target s));
  SelectTemporal s _ :=
    match script s with
    | r :: rest =>
      (Temporal (target s), IsSwitching r,
       mkSelector (max s) (maxSeen s) (target s) (current s)
         (requestSpatial s) (overshootOkay s) rest (rollbacks s))
    | [] => (Temporal (target s), false, s)
    end
|}.

#[export] Instance selectorLaws : VideoLayerSelectorLaws Scripted.Selector.
Proof. split; reflexivity. Qed.

(** Padding slots after the last sequence number, all at [extTS]. *)
#[export] Instance mungerMore : RTPMungerMore Scripted.Munger := {|
  SeedLast m st := mkMunger st (calls m);
  GetPinnedTSOffset _ := 0;
  MungerFilterRTX _ nacks := nacks;
  IsOnFrameBoundary m := Z.even (ExtLastSN (last m));
  UpdateAndGetPaddingSnTs m num _ _ _ extTS :=
    (inl (map (fun i => mkSnTs (ExtLastSN (last m) + i) extTS)
              (range_up 1 num)),
     mkMunger (mkRTPMungerState (ExtLastSN (last m) + num) extTS) (calls m))
|}.

(** A codec munger that filters the packets above temporal layer [tl],
    misses the cache on an out-of-order packet and knows no payload
    with a sequence number of zero. *)
#[export] Instance codecsMore : CodecMungerMore Scripted.Codec := {|
  CodecState := Scripted.Codec;
  nilState := [];
  CodecGetState c := c;
  CodecSeedState _ st := st;
  UpdateAndGet c extPkt isOutOfOrder _ tl :=
    if SequenceNumber extPkt =? 0
    then (inr (ErrCodec (errors_New "not a VP8 payload")), c)
    else if isOutOfOrder then (inr ErrOutOfOrderVP8PictureIdCacheMiss, c)
    else if tl <? SequenceNumber extPkt mod 4
    then (inr ErrFilteredVP8TemporalLayer, c)
    else (inl (6, 6), c ++ [CallUpdateOffsets extPkt]);
  UpdateAndGetPadding c _ := (inl 1, c)
|}.

#[export] Instance seedLaws : SeedLaws Scripted.Munger Scripted.Codec.
Proof. split; reflexivity. Qed.

End ScriptedRest.
Import ScriptedRest.

(** Further forwarders for the properties of the rest of the forwarder. *)
Module ScenarioRest.

(** A forwarder that has not seen a packet yet. *)
Definition unstarted : Scripted.Fwd :=
  with_started Scenario.fresh false.

(** A forwarder whose kind was never determined. *)
Definition unknownKind : Scripted.Fwd :=
  mkForwarder (mkCodec "" 0) RTPCodecTypeUnknown None None
    false false F64.zero false 0 0 0 InvalidLayerSpatial 0 None
    VideoAllocationDefault
    (Scripted.mkMunger (mkRTPMungerState 0 0) [])
    (Scripted.layers InvalidLayer InvalidLayer InvalidLayer InvalidLayer) [].

(** Streaming (1,3) on SSRC 1111 with the target reached. *)
Definition forwarding (script : list VideoLayerSelectorResult)
  : Scripted.Fwd :=
  mkForwarder (mkCodec "video/VP8" 90000) RTPCodecTypeVideo
    (Some (fun ts _ _ => inl ts)) None
    false false F64.zero true 0 0 1111 0 0 None VideoAllocationDefault
    (Scripted.mkMunger (mkRTPMungerState 500 1000000) [])
    (Scripted.mkSelector Scenario.L23 Scenario.L23 (mkLayer 1 3) (mkLayer 1 3)
       1 false script 0)
    [].

(** A maximum of (1,3) below what is published, nothing committed. *)
Definition underLowMax : Scripted.Fwd :=
  ProvisionalAllocatePrepare
    (Scripted.video
       (Scripted.layers (mkLayer 1 3) Scenario.L23 (mkLayer 1 1)
          (mkLayer 1 1)) 0)
    [0; 1; 2] Scenario.fullBitrates.

End ScenarioRest.

(* ------------------------------------------------------------------ *)
(** * Properties *)

Ltac break_match_hyp H :=
  match type of H with
  | context [match ?x with _ => _ end] => destruct x eqn:?
  | context [if ?x then _ else _] => destruct x eqn:?
  end.

(** ** Machine integers *)

Lemma signed_successor (h l : Z) :
  1 < h -> ((l + 1) mod (2 * h) - l + h) mod (2 * h) - h = 1.
Proof.
  intros H.
  replace ((l + 1) mod (2 * h) - l + h)
    with ((l + 1) mod (2 * h) + (h - l)) by lia.
  rewrite Zplus_mod_idemp_l.
  replace (l + 1 + (h - l)) with (1 + h) by lia.
  rewrite Z.mod_small by lia. lia.
Qed.

Lemma unsigned_successor (m l : Z) :
  1 < m -> ((l + 1) mod m - l) mod m = 1.
Proof.
  intros H. rewrite Zminus_mod_idemp_l.
  replace (l + 1 - l) with 1 by lia.
  apply Z.mod_small. lia.
Qed.

Lemma signed_bounds (h z : Z) :
  0 < h -> - h <= (z + h) mod (2 * h) - h < h.
Proof.
  intros H. pose proof (Z.mod_pos_bound (z + h) (2 * h) ltac:(lia)). lia.
Qed.

Lemma signed_small (h z : Z) :
  - h <= z < h -> (z + h) mod (2 * h) - h = z.
Proof.
  intros H. rewrite Z.mod_small by lia. lia.
Qed.

Lemma int64_of_successor (l : Z) : int64 (uint64 (l + 1) - l) = 1.
Proof. apply (@signed_successor (2 ^ 63) l). reflexivity. Qed.

Lemma uint64_of_successor (l : Z) : uint64 (uint64 (l + 1) - l) = 1.
Proof. apply (@unsigned_successor (2 ^ 64) l). reflexivity. Qed.

Lemma int64_bounds (z : Z) : - 2 ^ 63 <= int64 z < 2 ^ 63.
Proof. apply (@signed_bounds (2 ^ 63) z). reflexivity. Qed.

Lemma int64_small (z : Z) : - 2 ^ 63 <= z < 2 ^ 63 -> int64 z = z.
Proof. apply (@signed_small (2 ^ 63) z). Qed.

(** ** Floating-point comparisons *)

Lemma SFleb_not_gt (a b : spec_float) : SFleb a b = true -> SFltb b a = false.
Proof.
  unfold SFleb, SFltb.
  destruct a as [sa|sa| |sa ma ea], b as [sb|sb| |sb mb eb]; simpl;
    try destruct sa; try destruct sb; simpl; try congruence;
    rewrite (Z.compare_antisym eb ea);
    destruct (eb ?= ea) eqn:E; simpl; try congruence;
    pose proof (Pos.compare_cont_antisym ma mb Eq) as A; simpl in A;
    destruct (Pos.compare_cont Eq ma mb), (Pos.compare_cont Eq mb ma);
    simpl in *; congruence.
Qed.

(** ** Loops *)

Lemma for_first_found {I R : Type} (xs : list I)
  (body : I -> result (option R)) (v : R) :
  for_first xs body = Ok (Some v) ->
  exists x, In x xs /\ body x = Ok (Some v).
Proof.
  induction xs as [|x xs IH]; simpl; [discriminate|].
  destruct (body x) as [[w|]|] eqn:E; simpl; intros H.
  - inversion H; subst. exists x. auto.
  - destruct (IH H) as (y & Hy & By). exists y. auto.
  - discriminate.
Qed.

Lemma for_first_all_none {I R : Type} (xs : list I)
  (body : I -> result (option R)) :
  (forall x, In x xs -> body x = Ok None) -> for_first xs body = Ok None.
Proof.
  induction xs as [|x xs IH]; simpl; intros H; [reflexivity|].
  rewrite (H x) by auto. simpl. apply IH. auto.
Qed.

Lemma for_first_none {I R : Type} (xs : list I)
  (body : I -> result (option R)) :
  for_first xs body = Ok None -> forall x, In x xs -> body x = Ok None.
Proof.
  induction xs as [|x xs IH]; simpl; intros H y Hy; [contradiction|].
  destruct (body x) as [[w|]|] eqn:E; simpl in H; try discriminate.
  destruct Hy as [<-|Hy]; auto.
Qed.

Lemma for_loop_invariant {I A : Type} (P : A -> Prop) (xs : list I)
  (body : I -> A -> result (step A)) :
  (forall x a r, In x xs -> P a -> body x a = Ok r ->
                 P (match r with Next a' | Break a' => a' end)) ->
  forall a a', P a -> for_loop xs body a = Ok a' -> P a'.
Proof.
  induction xs as [|x xs IH]; simpl; intros Hbody a a' Pa H.
  - inversion H; subst. exact Pa.
  - destruct (body x a) as [r|] eqn:E; simpl in H; [|discriminate].
    pose proof (Hbody x a r (or_introl eq_refl) Pa E) as Pr.
    destruct r as [a1|a1].
    + apply (IH (fun y b s Hy => Hbody y b s (or_intror Hy)) a1 a' Pr H).
    + inversion H; subst. exact Pr.
Qed.

Lemma In_range_up (lo hi x : Z) : In x (range_up lo hi) -> lo <= x <= hi.
Proof.
  unfold range_up. rewrite in_map_iff. intros (k & <- & Hk).
  apply in_seq in Hk. lia.
Qed.

Lemma In_range_down (hi lo x : Z) : In x (range_down hi lo) -> lo <= x <= hi.
Proof.
  unfold range_down. rewrite in_map_iff. intros (k & <- & Hk).
  apply in_seq in Hk. lia.
Qed.

Lemma range_down_empty (hi lo : Z) : hi < lo -> range_down hi lo = [].
Proof.
  intros H. unfold range_down.
  replace (Z.to_nat (hi - lo + 1)) with 0%nat by lia. reflexivity.
Qed.

Lemma range_up_empty (lo hi : Z) : hi < lo -> range_up lo hi = [].
Proof.
  intros H. unfold range_up.
  replace (Z.to_nat (hi - lo + 1)) with 0%nat by lia. reflexivity.
Qed.

(** ** Conversions between floats and integers *)

Lemma to_int64_Max_zero (x : F64.t) (v : Z) :
  F64.to_int 64 (F64.Max (F64.of_int 0) x) = Ok v -> 0 <= v < 2 ^ 63.
Proof.
  unfold F64.to_int.
  destruct (F64.trunc (F64.Max (F64.of_int 0) x)) as [z|] eqn:T; [|discriminate].
  destruct ((- 2 ^ (64 - 1) <=? z) && (z <? 2 ^ (64 - 1))) eqn:B; [|discriminate].
  intros H. inversion H; subst v; clear H.
  apply andb_true_iff in B. destruct B as [_ B]. apply Z.ltb_lt in B.
  change (2 ^ (64 - 1)) with (2 ^ 63) in B.
  split; [|exact B].
  change (F64.of_int 0) with (S754_zero false) in T.
  destruct x as [s|s| |s m e]; simpl in T.
  - destruct s; inversion T; lia.
  - destruct s; inversion T; lia.
  - discriminate.
  - unfold F64.gtb, SFltb in T. simpl in T.
    destruct s; simpl in T; inversion T; subst z; [lia|].
    apply Z.shiftl_nonneg. lia.
Qed.

Lemma for_first_ext {I R : Type} (xs : list I)
  (body body' : I -> result (option R)) :
  (forall x, body x = body' x) -> for_first xs body = for_first xs body'.
Proof.
  intros H. induction xs as [|x xs IH]; simpl; [reflexivity|].
  rewrite H, IH. reflexivity.
Qed.

Lemma for_first_app {I R : Type} (xs ys : list I)
  (body : I -> result (option R)) :
  for_first (xs ++ ys) body =
    (r <- for_first xs body ;;
     match r with
     | Some v => Ok (Some v)
     | None => for_first ys body
     end).
Proof.
  induction xs as [|x xs IH]; simpl; [reflexivity|].
  destruct (body x) as [[v|]|]; simpl; auto.
Qed.

Lemma for_first_map {I J R : Type} (g : I -> J) (xs : list I)
  (body : J -> result (option R)) :
  for_first (map g xs) body = for_first xs (fun x => body (g x)).
Proof.
  induction xs as [|x xs IH]; simpl; [reflexivity|].
  rewrite IH. reflexivity.
Qed.

(** Two nested search loops visit the pairs of indices in the order of the
    flattened list of pairs. *)
Lemma for_first_nested {I J R : Type} (xs : list I) (ys : list J)
  (body : I -> J -> result (option R)) :
  for_first xs (fun x => for_first ys (fun y => body x y)) =
  for_first (flat_map (fun x => map (fun y => (x, y)) ys) xs)
            (fun '(x, y) => body x y).
Proof.
  induction xs as [|x xs IH]; simpl; [reflexivity|].
  rewrite for_first_app, for_first_map, IH. reflexivity.
Qed.

(** A search that skips the zero cells and decides on the first cell that is
    not zero is decided by the first candidate alone. *)
Lemma for_first_decides_on_first_candidate {R : Type} (brs : Bitrates)
  (decide : Z -> Z -> Z -> result R) (cells : list (Z * Z)) :
  for_first cells (fun '(s, t) =>
    b <- at_ brs s t ;;
    if b =? 0 then Ok None else r <- decide s t b ;; Ok (Some r)) =
  (c <- first_candidate brs cells ;;
   match c with
   | None => Ok None
   | Some (s, t, b) => r <- decide s t b ;; Ok (Some r)
   end).
Proof.
  induction cells as [|[s t] cells IH]; simpl; [reflexivity|].
  destruct (at_ brs s t) as [b|]; simpl; [|reflexivity].
  destruct (b =? 0); simpl.
  - exact IH.
  - destruct (decide s t b); reflexivity.
Qed.

(** ** Bitrate matrix bounds *)

Lemma in_bounds_elim (s t : Z) :
  in_bounds s t = true ->
  0 <= s <= DefaultMaxLayerSpatial /\ 0 <= t <= DefaultMaxLayerTemporal.
Proof.
  unfold in_bounds, len_spatial, len_temporal. intros H.
  repeat (apply andb_true_iff in H; destruct H as [H ?]).
  repeat match goal with
         | H : (_ <=? _) = true |- _ => apply Z.leb_le in H
         | H : (_ <? _) = true |- _ => apply Z.ltb_lt in H
         end.
  lia.
Qed.

(** The search stops at the first index whose body answers; the indices
    before it found nothing. *)
Lemma for_first_found_split {I R : Type} (xs : list I)
  (body : I -> result (option R)) (v : R) :
  for_first xs body = Ok (Some v) ->
  exists pre x post,
    xs = pre ++ x :: post
    /\ (forall y, In y pre -> body y = Ok None)
    /\ body x = Ok (Some v).
Proof.
  induction xs as [|x xs IH]; simpl; [discriminate|].
  destruct (body x) as [[w|]|] eqn:E; simpl; intros H.
  - inversion H; subst. exists [], x, xs. simpl. repeat split; tauto.
  - destruct (IH H) as (pre & y & post & -> & Hpre & Hy).
    exists (x :: pre), y, post. simpl. repeat split; auto.
    intros z [<-|Hz]; auto.
  - discriminate.
Qed.

Lemma descending_after (hi : Z) (n a : nat) (pre post : list Z) (x : Z) :
  map (fun k => hi - Z.of_nat k) (seq a n) = pre ++ x :: post ->
  forall y, In y post -> y < x.
Proof.
  revert n a. induction pre as [|p pre IH]; intros n a H y Hy.
  - destruct n as [|n]; simpl in H; [discriminate|].
    inversion H; subst. apply in_map_iff in Hy.
    destruct Hy as (k & <- & Hk). apply in_seq in Hk. lia.
  - destruct n as [|n]; simpl in H; [discriminate|].
    inversion H; subst. eapply IH; eauto.
Qed.

Lemma In_range_down_intro (hi lo x : Z) :
  lo <= x <= hi -> In x (range_down hi lo).
Proof.
  intros H. unfold range_down. apply in_map_iff.
  exists (Z.to_nat (hi - x)). split; [lia|]. apply in_seq. lia.
Qed.

(** In a descending loop that stops at [x], every index above [x] was
    visited before. *)
Lemma range_down_before (hi lo : Z) (pre post : list Z) (x y : Z) :
  range_down hi lo = pre ++ x :: post ->
  lo <= y <= hi -> x < y -> In y pre.
Proof.
  intros H Hy Hxy.
  pose proof (In_range_down_intro Hy) as Iy. rewrite H in Iy.
  apply in_app_or in Iy. destruct Iy as [Iy|[Iy|Iy]]; [exact Iy|lia|].
  unfold range_down in H. eapply descending_after in H; [|exact Iy]. lia.
Qed.

Section ForwarderProperties.
Context {Sel Mun Cod : Type}.
Context {SelOps : VideoLayerSelector Sel}.
Context {MunOps : RTPMungerOps Mun}.
Context {CodOps : CodecMungerOps Cod}.

Local Notation "'Fwd'" := (Forwarder Sel Mun Cod).

(** ** Mute *)

(** C10. A forwarder that is not muted declines [Mute(true, false)]: the
    call returns false and the forwarder is left exactly as it was, so the
    muted flag stays false and nothing is resynchronised. *)
Theorem Mute_declined_when_not_subscribe_mutable (f : Fwd) :
  muted f = false -> Mute f true false = (false, f).
Proof.
  intros Hm. unfold Mute. rewrite Hm. reflexivity.
Qed.

(** ** Source switch *)

Lemma guardNextTimestamp_after_last (l n : Z) :
  0 < int64 (guardNextTimestamp l n - l).
Proof.
  unfold guardNextTimestamp.
  destruct (int64 (n - l) <=? 0) eqn:E.
  - rewrite int64_of_successor. lia.
  - apply Z.leb_gt in E. exact E.
Qed.

Lemma expectedTimestamp_frame (f f1 : Fwd) sat since e r e' :
  expectedTimestamp f sat since e r = (e', f1) ->
  rtpMunger f1 = rtpMunger f /\ vls f1 = vls f /\ lastSSRC f1 = lastSSRC f
  /\ codec f1 = codec f /\ codecMunger f1 = codecMunger f
  /\ started f1 = started f.
Proof.
  unfold expectedTimestamp. intros H.
  repeat break_match_hyp H; inversion H; subst; simpl; auto 10.
Qed.

Lemma switchCandidates_frame (f f1 : Fwd) pkt layer sat since r :
  switchCandidates f pkt layer sat since = (r, f1) ->
  rtpMunger f1 = rtpMunger f /\ vls f1 = vls f /\ lastSSRC f1 = lastSSRC f
  /\ codec f1 = codec f /\ codecMunger f1 = codecMunger f
  /\ started f1 = started f.
Proof.
  unfold switchCandidates. intros H.
  destruct (referenceLayerSpatial f =? InvalidLayerSpatial);
    (destruct (referenceTimestamp _ _ _ _ _) in H;
     [ destruct (expectedTimestamp _ _ _ _ _) as [e' f2] eqn:E in H;
       apply expectedTimestamp_frame in E;
       inversion H; subst; simpl in E; exact E
     | inversion H; subst; simpl; auto 10 ]).
Qed.

Lemma chooseNextTimestamp_frame (f f1 : Fwd) l r e c :
  chooseNextTimestamp f l r e = (c, f1) ->
  rtpMunger f1 = rtpMunger f /\ vls f1 = vls f /\ lastSSRC f1 = lastSSRC f
  /\ codec f1 = codec f /\ codecMunger f1 = codecMunger f
  /\ started f1 = started f.
Proof.
  unfold chooseNextTimestamp. intros H.
  repeat break_match_hyp H; inversion H; subst; simpl; auto 10.
Qed.

Lemma switchCandidates_last (f f1 : Fwd) pkt layer sat since l r e :
  switchCandidates f pkt layer sat since = (inl (l, r, e), f1) ->
  l = ExtLastTS (GetLast (rtpMunger f)).
Proof.
  unfold switchCandidates. intros H.
  destruct (referenceLayerSpatial f =? InvalidLayerSpatial);
    (destruct (referenceTimestamp _ _ _ _ _) in H;
     [ destruct (expectedTimestamp _ _ _ _ _) as [e' f2] in H;
       inversion H; subst; reflexivity
     | discriminate ]).
Qed.

(** C1. Whenever [processSourceSwitch] succeeds on a started forwarder, the
    output timestamp it selects lies strictly after the last forwarded one
    as a signed 64-bit difference: the candidate of the decision rule is
    kept when it is after [extLastTS] and replaced by [extLastTS + 1] when
    it is not, and the RTP munger receives that positive jump. *)
Theorem processSourceSwitch_next_after_last
  (f f' : Fwd) (pkt : ExtPacket) (layer : Z) (sat : Time) (since : Z) :
  started f = true ->
  processSourceSwitch f pkt layer sat since = (None, f') ->
  exists (ts : SwitchTimestamps) (f0 f1 : Fwd) (candidate : Z),
    switchCandidates f pkt layer sat since
    = (inl (extLastTS ts, extRefTS ts, extExpectedTS ts), f0)
    /\ chooseNextTimestamp f0 (extLastTS ts) (extRefTS ts) (extExpectedTS ts)
       = (inl candidate, f1)
    /\ nextTimestampOnSwitch f pkt layer sat since = (inl ts, f1)
    /\ extLastTS ts = ExtLastTS (GetLast (rtpMunger f))
    /\ 0 < int64 (extNextTS ts - extLastTS ts)
    /\ (int64 (candidate - extLastTS ts) <= 0 ->
        extNextTS ts = uint64 (extLastTS ts + 1))
    /\ (0 < int64 (candidate - extLastTS ts) -> extNextTS ts = candidate)
    /\ rtpMunger f' =
       UpdateSnTsOffsets (rtpMunger f) pkt 1
         (uint64 (extNextTS ts - extLastTS ts)).
Proof.
  intros Hs H. unfold processSourceSwitch in H. rewrite Hs in H. simpl in H.
  destruct (nextTimestampOnSwitch f pkt layer sat since) as [[ts|err] f1] eqn:N;
    [|discriminate].
  inversion H; subst f'; clear H.
  unfold nextTimestampOnSwitch in N.
  destruct (switchCandidates f pkt layer sat since) as [[[[l r] e]|err] f2] eqn:C;
    [|discriminate].
  destruct (chooseNextTimestamp f2 l r e) as [[n|err] f3] eqn:D; [|discriminate].
  inversion N; subst ts f3; clear N.
  pose proof (switchCandidates_frame _ _ _ _ _ C) as (M2 & _).
  pose proof (chooseNextTimestamp_frame _ _ _ _ D) as (M3 & _).
  pose proof (switchCandidates_last _ _ _ _ _ C) as L.
  exists (mkSwitchTimestamps l r e (guardNextTimestamp l n)), f2, f1, n. simpl.
  split; [reflexivity|]. split; [exact D|]. split; [reflexivity|].
  split; [exact L|].
  split; [apply guardNextTimestamp_after_last|].
  split; [|split].
  - intros Hle. unfold guardNextTimestamp.
    apply Z.leb_le in Hle. rewrite Hle. reflexivity.
  - intros Hlt. unfold guardNextTimestamp.
    apply Z.leb_gt in Hlt. rewrite Hlt. reflexivity.
  - rewrite M3, M2. reflexivity.
Qed.

(** C2. On a layer switch ([lastSSRC <> 0], new SSRC) of a started forwarder
    whose reference timestamp resolves, let diff1 be
    [(extRefTS - extLastTS) / clockRate].  If diff1 is negative and
    |diff1| exceeds 0.05 s, [processSourceSwitch] fails with "switch point
    too far behind", the common path marks the packet dropped and returns,
    and the RTP munger and [lastSSRC] are as before (no call of
    UpdateSnTsOffsets).  If diff1 is negative and |diff1| is at most
    0.05 s, the switch succeeds with [extNextTS = extLastTS + 1]: the
    munger receives the offsets update with a timestamp jump of 1. *)
Theorem layer_switch_behind_threshold
  (f f1 : Fwd) (pkt : ExtPacket) (layer : Z) (sat : Time) (since : Z)
  (tp : TranslationParams.t) (l r e : Z) :
  started f = true ->
  lastSSRC f <> 0 ->
  lastSSRC f <> SSRC pkt ->
  switchCandidates f pkt layer sat since = (inl (l, r, e), f1) ->
  let diff1 := diff_seconds f1 r l in
  F64.ltb diff1 F64.zero = true ->
  (F64.gtb (F64.Abs diff1) LayerSwitchBehindThresholdSeconds = true ->
     processSourceSwitch f pkt layer sat since
       = (Some (errors_New "switch point too far behind"), f1)
     /\ getTranslationParamsCommon f pkt layer tp sat since
        = (TranslationParams.with_shouldDrop tp true, None, f1)
     /\ rtpMunger f1 = rtpMunger f
     /\ lastSSRC f1 = lastSSRC f)
  /\ (F64.leb (F64.Abs diff1) LayerSwitchBehindThresholdSeconds = true ->
     nextTimestampOnSwitch f pkt layer sat since
       = (inl (mkSwitchTimestamps l r e (uint64 (l + 1))), f1)
     /\ exists f2,
          processSourceSwitch f pkt layer sat since = (None, f2)
          /\ rtpMunger f2 = UpdateSnTsOffsets (rtpMunger f) pkt 1 1).
Proof.
  intros Hs H0 Hne C diff1 Hneg.
  pose proof (switchCandidates_frame _ _ _ _ _ C) as (M & _ & L & _).
  assert (Hl : (lastSSRC f1 =? 0) = false) by (rewrite L; apply Z.eqb_neq; exact H0).
  split.
  - intros Hfar.
    assert (P : processSourceSwitch f pkt layer sat since
                = (Some (errors_New "switch point too far behind"), f1)).
    { unfold processSourceSwitch. rewrite Hs. simpl.
      unfold nextTimestampOnSwitch. rewrite C.
      unfold chooseNextTimestamp. rewrite Hl.
      fold diff1. rewrite Hneg, Hfar. reflexivity. }
    repeat split; auto.
    unfold getTranslationParamsCommon.
    assert (Hq : (lastSSRC f =? SSRC pkt) = false) by (apply Z.eqb_neq; exact Hne).
    rewrite Hq, P. reflexivity.
  - intros Hnear.
    assert (Hnot : F64.gtb (F64.Abs diff1) LayerSwitchBehindThresholdSeconds = false)
      by (apply SFleb_not_gt; exact Hnear).
    assert (N : nextTimestampOnSwitch f pkt layer sat since
                = (inl (mkSwitchTimestamps l r e (uint64 (l + 1))), f1)).
    { unfold nextTimestampOnSwitch. rewrite C.
      unfold chooseNextTimestamp. rewrite Hl.
      fold diff1. rewrite Hneg, Hnot.
      unfold guardNextTimestamp. rewrite int64_of_successor. reflexivity. }
    split; [exact N|].
    unfold processSourceSwitch. rewrite Hs. simpl. rewrite N.
    eexists. split; [reflexivity|]. simpl.
    rewrite uint64_of_successor, M. reflexivity.
Qed.

(** ** Cooperative allocation *)

(** C8 (as the code has it). A probe of [ProvisionalAllocate] is refused,
    whatever is committed and whatever [allowPause] says, when the
    workspace is muted or publisher-muted, nothing has been published,
    the maximum layer is invalid, or the layer is above the maximum
    without permitted overshoot.  Past these guards, with
    [allowPause = false], a layer whose bitrate is non-zero but which
    does not fit is committed (success, with the extra bits as
    consumption) exactly when no layer is committed yet or the probed
    layer is not above the provisionally allocated one; otherwise the
    probe fails and the workspace is as before. *)
Theorem ProvisionalAllocate_without_pause
  (f : Fwd) (p : VideoAllocationProvisional.t) (capacity : Z)
  (layer : VideoLayer) (allowOvershoot : bool) :
  provisional f = Some p ->
  let refused :=
    VideoAllocationProvisional.muted p
    || VideoAllocationProvisional.pubMuted p
    || (Spatial (VideoAllocationProvisional.maxSeenLayer p)
        =? InvalidLayerSpatial)
    || negb (IsValid (VideoAllocationProvisional.maxLayer p))
    || ((negb allowOvershoot || negb (IsOvershootOkay (vls f)))
        && GreaterThan layer (VideoAllocationProvisional.maxLayer p)) in
  (refused = true ->
   forall allowPause,
     ProvisionalAllocate f capacity layer allowPause allowOvershoot
     = Ok (false, 0, f))
  /\ (refused = false ->
      forall requiredBitrate alreadyAllocatedBitrate : Z,
        at_layer (VideoAllocationProvisional.bitrates p) layer
        = Ok requiredBitrate ->
        requiredBitrate <> 0 ->
        (if IsValid (VideoAllocationProvisional.allocatedLayer p)
         then at_layer (VideoAllocationProvisional.bitrates p)
                (VideoAllocationProvisional.allocatedLayer p)
         else Ok 0) = Ok alreadyAllocatedBitrate ->
        negb (GreaterThan layer (VideoAllocationProvisional.maxLayer p))
        && (requiredBitrate
            <=? int64 (capacity + alreadyAllocatedBitrate)) = false ->
        ProvisionalAllocate f capacity layer false allowOvershoot =
          if negb (IsValid (VideoAllocationProvisional.allocatedLayer p))
             || negb (GreaterThan layer
                        (VideoAllocationProvisional.allocatedLayer p))
          then Ok (true, int64 (requiredBitrate - alreadyAllocatedBitrate),
                   set_allocatedLayer f p layer)
          else Ok (false, 0, f)).
Proof.
  intros Hp refused. split.
  - intros R allowPause.
    unfold ProvisionalAllocate, the_provisional. rewrite Hp.
    cbv beta iota delta [bind]. fold refused. rewrite R. reflexivity.
  - intros R requiredBitrate alreadyAllocatedBitrate Hreq Hnz Halr Hfit.
    unfold ProvisionalAllocate, the_provisional. rewrite Hp.
    cbv beta iota delta [bind]. fold refused. rewrite R.
    rewrite Hreq.
    apply Z.eqb_neq in Hnz. rewrite Hnz.
    rewrite Halr. rewrite Hfit. reflexivity.
Qed.

(** ** Translation pipeline *)

Lemma processSourceSwitch_failure_frame (f f1 : Fwd) pkt layer sat since err :
  processSourceSwitch f pkt layer sat since = (Some err, f1) ->
  rtpMunger f1 = rtpMunger f /\ vls f1 = vls f /\ lastSSRC f1 = lastSSRC f.
Proof.
  unfold processSourceSwitch, nextTimestampOnSwitch. intros H.
  destruct (started f); simpl in H; [|discriminate].
  destruct (switchCandidates f pkt layer sat since) as [[[[l r] e]|err'] f2] eqn:C.
  - apply switchCandidates_frame in C. destruct C as (M2 & V2 & L2 & _).
    destruct (chooseNextTimestamp f2 l r e) as [[n|err''] f3] eqn:D;
      [discriminate|].
    apply chooseNextTimestamp_frame in D. destruct D as (M3 & V3 & L3 & _).
    inversion H; subst. repeat split; congruence.
  - apply switchCandidates_frame in C. destruct C as (M2 & V2 & L2 & _).
    inversion H; subst. auto.
Qed.

(** C9 (as the code has it). On the video path, when the packet is selected,
    the downgrade guard does not apply, the SSRC has changed and the
    source-switch reconciler fails, [GetTranslationParams] drops the packet
    without an error, leaves the RTP munger and [lastSSRC] as they were, and
    rolls the selector back exactly when the selection was a switch:
    only a selection that is not switching keeps the state [Select] left. *)
Theorem reconciler_failure_rolls_back_switch
  (f f1 : Fwd) (pkt : ExtPacket) (layer : Z) (sat : Time) (since : Z)
  (result : VideoLayerSelectorResult) (sel : Sel) (err : error) :
  muted f = false ->
  pubMuted f = false ->
  kind f = RTPCodecTypeVideo ->
  IsValid (GetTarget (vls f)) = true ->
  Select (vls f) pkt layer = (result, sel) ->
  IsSelected result = true ->
  FlagPauseOnDowngrade && isDeficientLocked f
  && (Spatial (GetTarget sel) <? Spatial (GetCurrent sel)) = false ->
  lastSSRC f <> SSRC pkt ->
  processSourceSwitch (with_vls f sel) pkt layer sat since = (Some err, f1) ->
  exists (tp : TranslationParams.t) (f' : Fwd),
    GetTranslationParams f pkt layer sat since = (tp, None, f')
    /\ TranslationParams.shouldDrop tp = true
    /\ vls f' = (if IsSwitching result then Rollback sel else sel)
    /\ rtpMunger f' = rtpMunger f
    /\ lastSSRC f' = lastSSRC f.
Proof.
  intros Hm Hpm Hk Ht Hsel Hs Hguard Hne P.
  pose proof (processSourceSwitch_failure_frame _ _ _ _ _ P) as (M & V & L).
  simpl in M, V, L.
  unfold GetTranslationParams. rewrite Hm, Hpm, Hk. simpl.
  unfold getTranslationParamsVideo. rewrite Ht, Hsel. simpl.
  rewrite Hs. simpl.
  unfold isDeficientLocked in *. simpl. simpl in Hguard. rewrite Hguard.
  unfold getTranslationParamsCommon. simpl.
  apply Z.eqb_neq in Hne. rewrite Hne. simpl. rewrite P. simpl.
  eexists. eexists. split; [reflexivity|]. simpl.
  unfold maybeRollback.
  destruct (IsSwitching result); simpl; rewrite ?V; auto.
Qed.

(** ** Cooperative transition *)

Lemma first_nonzero_layer_found (brs : Bitrates) (spatials temporals : list Z)
  (l : VideoLayer) (b : Z) :
  first_nonzero_layer brs spatials temporals = Ok (Some (l, b)) ->
  In (Spatial l) spatials /\ In (Temporal l) temporals
  /\ at_layer brs l = Ok b /\ b <> 0.
Proof.
  unfold first_nonzero_layer. intros H.
  apply for_first_found in H. destruct H as (s & Hs & H).
  apply for_first_found in H. destruct H as (t & Ht & H).
  destruct (at_ brs s t) as [c|] eqn:E; simpl in H; [|discriminate].
  destruct (c =? 0) eqn:Z0; simpl in H; [discriminate|].
  inversion H; subst. simpl. unfold at_layer. simpl.
  apply Z.eqb_neq in Z0. auto.
Qed.

(** The layer the cooperative transition calls maximal is the highest
    layer under the maximum with a non-zero bitrate: every layer under the
    maximum that is greater has a bitrate of zero. *)
Lemma maximal_layer_is_highest (brs : Bitrates) (maxLayer l : VideoLayer)
  (b : Z) :
  first_nonzero_layer brs (range_down (Spatial maxLayer) 0)
    (range_down (Temporal maxLayer) 0) = Ok (Some (l, b)) ->
  forall s t,
    0 <= s <= Spatial maxLayer -> 0 <= t <= Temporal maxLayer ->
    GreaterThan (mkLayer s t) l = true ->
    at_ brs s t = Ok 0.
Proof.
  unfold first_nonzero_layer. intros H s t Hs Ht G.
  assert (Cell : forall i j,
             (b0 <- at_ brs i j ;;
              if negb (b0 =? 0) then Ok (Some (mkLayer i j, b0)) else Ok None)
             = Ok None -> at_ brs i j = Ok 0).
  { intros i j. destruct (at_ brs i j) as [c|]; simpl; [|discriminate].
    destruct (c =? 0) eqn:E; simpl; [|discriminate].
    apply Z.eqb_eq in E. subst. reflexivity. }
  apply for_first_found_split in H.
  destruct H as (pre & x & post & Rs & Hpre & Hx).
  apply for_first_found_split in Hx.
  destruct Hx as (pre' & y & post' & Rt & Hpre' & Hy).
  assert (L : l = mkLayer x y).
  { destruct (at_ brs x y) as [c|]; simpl in Hy; [|discriminate].
    destruct (negb (c =? 0)); inversion Hy; reflexivity. }
  subst l. unfold GreaterThan in G. simpl in G.
  apply orb_true_iff in G. destruct G as [G|G].
  - apply Z.gtb_lt in G.
    pose proof (range_down_before _ _ Rs Hs G) as Is.
    apply Hpre in Is.
    apply Cell. apply (for_first_none _ _ Is).
    apply In_range_down_intro. exact Ht.
  - apply andb_true_iff in G. destruct G as [G1 G2].
    apply Z.eqb_eq in G1. apply Z.gtb_lt in G2. subst s.
    apply Cell. apply Hpre'.
    apply (range_down_before _ _ Rt Ht G2).
Qed.

(** C3 (as the code has it). On a muted or publisher-muted workspace the
    cooperative transition goes to the invalid layer and gives back what
    the target needed.  Otherwise, with a valid target that is not above
    the maximal layer (the highest layer under the maximum with a non-zero
    bitrate): when the bitrate of the target is non-zero the transition
    holds the target, [To = From] with no bandwidth change; when it is
    zero the transition falls back to the current layer of the workspace,
    for the bitrate of that layer (none when it is invalid) less the
    bandwidth last requested.  In each case [To] is the layer committed
    to the workspace. *)
Theorem cooperative_transition_holds_streaming_target
  (f : Fwd) (p : VideoAllocationProvisional.t) (allowOvershoot : bool) :
  provisional f = Some p ->
  let brs := VideoAllocationProvisional.bitrates p in
  let currentLayer := VideoAllocationProvisional.currentLayer p in
  let out (tr : VideoTransition.t) (l : VideoLayer) :=
    Ok (tr, VideoAllocationProvisional.availableLayers p, brs,
        set_allocatedLayer f p l) in
  (VideoAllocationProvisional.muted p
   || VideoAllocationProvisional.pubMuted p = true ->
   forall existing,
     getBandwidthNeeded brs (GetTarget (vls f))
       (VideoAllocation.BandwidthRequested (lastAllocation f)) = Ok existing ->
     ProvisionalAllocateGetCooperativeTransition f allowOvershoot
     = out (VideoTransition.mk (GetTarget (vls f)) InvalidLayer
              (int64 (- existing))) InvalidLayer)
  /\ (VideoAllocationProvisional.muted p
      || VideoAllocationProvisional.pubMuted p = false ->
      IsValid (GetTarget (vls f)) = true ->
      forall (maximalLayer : VideoLayer) (maximalBandwidthRequired b : Z),
        first_nonzero_layer brs
          (range_down (Spatial (VideoAllocationProvisional.maxLayer p)) 0)
          (range_down (Temporal (VideoAllocationProvisional.maxLayer p)) 0)
        = Ok (Some (maximalLayer, maximalBandwidthRequired)) ->
        GreaterThan (GetTarget (vls f)) maximalLayer = false ->
        at_layer brs (GetTarget (vls f)) = Ok b ->
        (b <> 0 ->
         ProvisionalAllocateGetCooperativeTransition f allowOvershoot
         = out (VideoTransition.mk (GetTarget (vls f)) (GetTarget (vls f)) 0)
               (GetTarget (vls f)))
        /\ (b = 0 ->
            forall currentBitrate,
              (if IsValid currentLayer then at_layer brs currentLayer
               else Ok 0) = Ok currentBitrate ->
              ProvisionalAllocateGetCooperativeTransition f allowOvershoot
              = out (VideoTransition.mk (GetTarget (vls f)) currentLayer
                       (int64 (currentBitrate
                               - VideoAllocation.BandwidthRequested
                                   (lastAllocation f))))
                    currentLayer)).
Proof.
  intros Hp brs currentLayer out. split.
  - intros Hm existing Hex.
    unfold ProvisionalAllocateGetCooperativeTransition, the_provisional.
    rewrite Hp. cbv beta iota zeta delta [bind]. rewrite Hm.
    fold brs. rewrite Hex. reflexivity.
  - intros Hm Hv maximalLayer maximalBandwidthRequired b Hmax Hgt Hb.
    pose proof (first_nonzero_layer_found _ _ _ Hmax) as (Is & It & _ & _).
    apply In_range_down in Is. apply In_range_down in It.
    assert (Vm : IsValid maximalLayer = true).
    { unfold IsValid. apply andb_true_iff. split; apply Z.leb_le; lia. }
    split.
    + intros Hnz.
      unfold ProvisionalAllocateGetCooperativeTransition, the_provisional.
      rewrite Hp. simpl. rewrite Hm. simpl.
      rewrite Hv. fold brs. rewrite Hmax. simpl. rewrite Vm, Hgt. simpl.
      rewrite Hb. simpl.
      apply Z.eqb_neq in Hnz. rewrite Hnz. reflexivity.
    + intros Hz currentBitrate Hcur. subst b.
      unfold ProvisionalAllocateGetCooperativeTransition, the_provisional.
      rewrite Hp. simpl. rewrite Hm. simpl.
      rewrite Hv. fold brs. rewrite Hmax. simpl. rewrite Vm, Hgt. simpl.
      rewrite Hb. simpl.
      fold currentLayer.
      unfold getBandwidthNeeded. rewrite Hv, Hb. simpl.
      destruct (IsValid currentLayer); simpl.
      * rewrite Hcur. reflexivity.
      * injection Hcur as <-. reflexivity.
Qed.

(** ** Weighted transition *)

Lemma weigh_candidate_ok (brs : Bitrates) (targetLayer : VideoLayer)
  (reachable existing s t : Z) (acc acc' : best) :
  best_ok targetLayer acc ->
  0 <= s <= Spatial targetLayer ->
  0 <= t <= Temporal targetLayer ->
  weigh_candidate brs targetLayer reachable existing s t acc = Ok acc' ->
  best_ok targetLayer acc'.
Proof.
  intros Hacc Hs Ht. unfold weigh_candidate.
  destruct acc as [[bl bd] bv].
  destruct (at_ brs s t) as [b|]; simpl; [|discriminate].
  destruct (F64.to_int 64 _) as [d|] eqn:D; simpl; [|discriminate].
  apply to_int64_Max_zero in D.
  match goal with |- context [if ?c then _ else _] => destruct c end;
    intros H; inversion H; subst; [|exact Hacc].
  unfold best_ok. simpl. split; [right; lia|exact D].
Qed.

Lemma weighted_search_ok (brs : Bitrates) (targetLayer : VideoLayer)
  (reachable existing : Z) (acc : best) :
  weighted_search brs targetLayer reachable existing = Ok acc ->
  best_ok targetLayer acc.
Proof.
  unfold weighted_search.
  apply (for_loop_invariant (best_ok targetLayer)).
  - intros s a r Hs Pa Hr.
    destruct (for_loop _ _ a) as [a1|] eqn:Inner; simpl in Hr; [|discriminate].
    inversion Hr; subst r; clear Hr.
    apply In_range_up in Hs.
    revert Inner. apply (for_loop_invariant (best_ok targetLayer)); [|exact Pa].
    intros t a2 r Ht Pa2 Hr.
    apply In_range_up in Ht.
    destruct ((s =? Spatial targetLayer) && (t =? Temporal targetLayer)).
    + inversion Hr; subst. exact Pa2.
    + destruct (weigh_candidate _ _ _ _ _ _ a2) as [a3|] eqn:W;
        simpl in Hr; [|discriminate].
      inversion Hr; subst r.
      eapply weigh_candidate_ok; eauto.
  - unfold best_ok. simpl. split; [left; reflexivity|lia].
Qed.

Lemma getBandwidthNeeded_bounds (brs : Bitrates) (layer : VideoLayer)
  (fallback existing : Z) :
  (forall s t, in_bounds s t = true -> cell brs s t < 2 ^ 63) ->
  0 <= fallback < 2 ^ 63 ->
  getBandwidthNeeded brs layer fallback = Ok existing ->
  0 <= existing < 2 ^ 63.
Proof.
  intros Hc Hf. unfold getBandwidthNeeded, at_layer, at_.
  destruct (IsValid layer); [|intros H; inversion H; subst; exact Hf].
  destruct (in_bounds _ _) eqn:B; simpl; [|discriminate].
  destruct (cell brs (Spatial layer) (Temporal layer) >? 0) eqn:G;
    intros H; inversion H; subst; [|exact Hf].
  apply Z.gtb_lt in G. specialize (Hc _ _ B). lia.
Qed.

Lemma int64_opposite_nonpos (z : Z) : 0 <= z < 2 ^ 63 -> int64 (- z) <= 0.
Proof. intros H. rewrite int64_small; lia. Qed.

(** C4 (as the code has it). For int64 bitrates and a non-negative last
    requested bandwidth, whatever [ProvisionalAllocateGetBestWeightedTransition]
    returns starts at the existing target and never asks for more bandwidth
    ([BandwidthDelta <= 0]).  When the workspace is muted, or some layer
    under the maximum has a non-zero bitrate, the destination is at or
    below the existing target on both axes.  When the feed is dry (not
    muted, no non-zero bitrate under the maximum) the destination is the
    current layer of the workspace instead, whatever the target. *)
Theorem best_weighted_transition_gives_back
  (f f' : Fwd) (p : VideoAllocationProvisional.t) (tr : VideoTransition.t)
  (al : list Z) (brs' : Bitrates) :
  provisional f = Some p ->
  (forall s t, in_bounds s t = true ->
               cell (VideoAllocationProvisional.bitrates p) s t < 2 ^ 63) ->
  0 <= VideoAllocation.BandwidthRequested (lastAllocation f) < 2 ^ 63 ->
  -1 <= Spatial (GetTarget (vls f)) ->
  -1 <= Temporal (GetTarget (vls f)) ->
  ProvisionalAllocateGetBestWeightedTransition f = Ok (tr, al, brs', f') ->
  VideoTransition.From tr = GetTarget (vls f)
  /\ VideoTransition.BandwidthDelta tr <= 0
  /\ (VideoAllocationProvisional.muted p
      || VideoAllocationProvisional.pubMuted p = true
      \/ (exists t,
            maxReachableLayerTemporal (VideoAllocationProvisional.bitrates p)
              (VideoAllocationProvisional.maxLayer p) = Ok (Some t)) ->
      Spatial (VideoTransition.To tr) <= Spatial (VideoTransition.From tr)
      /\ Temporal (VideoTransition.To tr) <= Temporal (VideoTransition.From tr))
  /\ (VideoAllocationProvisional.muted p
      || VideoAllocationProvisional.pubMuted p = false ->
      maxReachableLayerTemporal (VideoAllocationProvisional.bitrates p)
        (VideoAllocationProvisional.maxLayer p) = Ok None ->
      VideoTransition.To tr = VideoAllocationProvisional.currentLayer p).
Proof.
  intros Hp Hc Hf Hs Ht.
  unfold ProvisionalAllocateGetBestWeightedTransition, the_provisional.
  rewrite Hp. simpl.
  destruct (VideoAllocationProvisional.muted p
            || VideoAllocationProvisional.pubMuted p) eqn:M.
  - destruct (getBandwidthNeeded _ _ _) as [e|] eqn:E; simpl; [|discriminate].
    apply getBandwidthNeeded_bounds in E; auto.
    intros H; inversion H; subst; simpl.
    repeat split; try (apply int64_opposite_nonpos; exact E);
      try assumption; try discriminate.
  - destruct (maxReachableLayerTemporal _ _) as [[mt|]|] eqn:R; simpl;
      [| |discriminate].
    + destruct (getBandwidthNeeded _ _ _) as [e|] eqn:E; simpl; [|discriminate].
      destruct (weighted_search _ _ _ _) as [[[bl bd] bv]|] eqn:W; simpl;
        [|discriminate].
      apply weighted_search_ok in W. destruct W as [Wl Wd].
      intros H; inversion H; subst; simpl.
      repeat split; try discriminate.
      * apply int64_opposite_nonpos. exact Wd.
      * destruct Wl as [->|Wl]; simpl; [assumption|lia].
      * destruct Wl as [->|Wl]; simpl; [assumption|lia].
    + destruct (getBandwidthNeeded _ _ _) as [e|] eqn:E; simpl; [|discriminate].
      apply getBandwidthNeeded_bounds in E; auto.
      intros H; inversion H; subst; simpl.
      split; [reflexivity|].
      split; [apply int64_opposite_nonpos; exact E|].
      split; [|reflexivity].
      intros [D|[t D]]; discriminate.
Qed.

(** ** Optimal allocation *)

Lemma IsValid_false (l : VideoLayer) :
  IsValid l = false -> Spatial l < 0 \/ Temporal l < 0.
Proof.
  unfold IsValid. intros H. apply andb_false_iff in H.
  destruct H as [H|H]; apply Z.leb_gt in H; auto.
Qed.

Lemma getOptimalBandwidthNeeded_without_max (m pm : bool) (seen : Z)
  (brs : Bitrates) (maxLayer : VideoLayer) :
  IsValid maxLayer = false \/ seen = InvalidLayerSpatial ->
  getOptimalBandwidthNeeded m pm seen brs maxLayer = Ok 0.
Proof.
  intros H. unfold getOptimalBandwidthNeeded.
  destruct (m || pm || (seen =? InvalidLayerSpatial)) eqn:G; [reflexivity|].
  destruct H as [H|H].
  - apply IsValid_false in H. destruct H as [H|H].
    + rewrite range_down_empty by lia. reflexivity.
    + rewrite for_first_all_none; [reflexivity|].
      intros i _. rewrite range_down_empty by lia. reflexivity.
  - subst seen. rewrite Z.eqb_refl, orb_true_r in G. discriminate.
Qed.

Lemma lastAllocation_resyncLocked (f : Fwd) :
  lastAllocation (resyncLocked f) = lastAllocation f.
Proof. unfold resyncLocked. simpl. destruct (pubMuted f); reflexivity. Qed.

Lemma lastAllocation_setTargetLayer (f : Fwd) (l : VideoLayer) (r : Z) :
  lastAllocation (setTargetLayer f l r) = lastAllocation f.
Proof. unfold setTargetLayer. destruct (IsValid l); reflexivity. Qed.

Lemma updateAllocation_returns (f : Fwd) (alloc : VideoAllocation.t) :
  fst (updateAllocation f alloc) =
    if IsValid (VideoAllocation.TargetLayer alloc)
       && String.eqb (ToLower (MimeType (codec f))) "video/h264"
    then VideoAllocation.with_TargetLayer alloc
           (mkLayer (Spatial (VideoAllocation.TargetLayer alloc)) 0)
    else alloc.
Proof.
  unfold updateAllocation. simpl.
  match goal with |- context [if negb ?c then _ else _] => destruct c end;
    simpl; rewrite ?lastAllocation_resyncLocked, lastAllocation_setTargetLayer;
    reflexivity.
Qed.

Lemma getBandwidthNeeded_defined (brs : Bitrates) (layer : VideoLayer)
  (fallback : Z) :
  (IsValid layer = true -> in_bounds (Spatial layer) (Temporal layer) = true) ->
  exists existing, getBandwidthNeeded brs layer fallback = Ok existing.
Proof.
  intros H. unfold getBandwidthNeeded, at_layer, at_.
  destruct (IsValid layer); [|eauto].
  rewrite H by reflexivity. simpl.
  destruct (_ >? 0); eauto.
Qed.

(** C5 (as the code has it). On a video forwarder whose maximum layer is
    invalid or whose maximum seen spatial layer is invalid, [AllocateOptimal]
    returns an allocation with an invalid target layer, no bandwidth
    requested, and the pause reason FeedDry: the optimal bandwidth needed
    is 0 there, which sets FeedDry before the branch that leaves the target
    alone.  (The existing target, when valid, is taken to index the bitrate
    matrix within bounds.) *)
Theorem AllocateOptimal_without_max_is_feed_dry
  (f : Fwd) (availableLayers : list Z) (brs : Bitrates) (allowOvershoot : bool) :
  kind f = RTPCodecTypeVideo ->
  IsValid (GetMax (vls f)) = false
  \/ Spatial (GetMaxSeen (vls f)) = InvalidLayerSpatial ->
  (IsValid (GetTarget (vls f)) = true ->
   in_bounds (Spatial (GetTarget (vls f))) (Temporal (GetTarget (vls f))) = true) ->
  exists (alloc : VideoAllocation.t) (f' : Fwd),
    AllocateOptimal f availableLayers brs allowOvershoot = Ok (alloc, f')
    /\ VideoAllocation.TargetLayer alloc = InvalidLayer
    /\ VideoAllocation.PauseReason alloc = VideoPauseReasonFeedDry
    /\ VideoAllocation.BandwidthRequested alloc = 0.
Proof.
  intros Hk Hmax Ht.
  unfold AllocateOptimal. rewrite Hk.
  rewrite (getOptimalBandwidthNeeded_without_max _ _ _ _ Hmax).
  cbn [bind].
  assert (G : negb (IsValid (GetMax (vls f)))
              || (Spatial (GetMaxSeen (vls f)) =? InvalidLayerSpatial) = true).
  { destruct Hmax as [H|H].
    - rewrite H. reflexivity.
    - rewrite H, Z.eqb_refl. apply orb_true_r. }
  rewrite G. cbn [bind].
  destruct (getBandwidthNeeded_defined brs (GetTarget (vls f))
              (VideoAllocation.BandwidthRequested (lastAllocation f)) Ht)
    as (existing & E).
  simpl. rewrite E. cbn [bind].
  assert (D : getDistanceToDesired (muted f) (pubMuted f) (GetMaxSeen (vls f))
                availableLayers brs InvalidLayer (GetMax (vls f)) = Ok F64.zero).
  { unfold getDistanceToDesired.
    assert (Q : muted f || pubMuted f || negb (IsValid (GetMaxSeen (vls f)))
                || negb (IsValid (GetMax (vls f))) = true).
    { destruct Hmax as [H|H].
      - rewrite H. apply orb_true_r.
      - unfold IsValid at 1. rewrite H. simpl.
        rewrite orb_true_r. reflexivity. }
    rewrite Q. reflexivity. }
  rewrite D. cbn [bind].
  match goal with
  | |- exists a f', Ok (updateAllocation ?g ?x) = _ /\ _ =>
      exists (fst (updateAllocation g x)), (snd (updateAllocation g x))
  end.
  split; [rewrite <- surjective_pairing; reflexivity|].
  rewrite updateAllocation_returns. simpl. auto.
Qed.

Lemma in_bounds_intro (s t : Z) :
  0 <= s <= DefaultMaxLayerSpatial -> 0 <= t <= DefaultMaxLayerTemporal ->
  in_bounds s t = true.
Proof.
  unfold in_bounds, len_spatial, len_temporal. intros Hs Ht.
  repeat (apply andb_true_iff; split);
    try apply Z.leb_le; try apply Z.ltb_lt; lia.
Qed.

Lemma at_zero (brs : Bitrates) (s t : Z) :
  zero_bitrates brs ->
  0 <= s <= DefaultMaxLayerSpatial -> 0 <= t <= DefaultMaxLayerTemporal ->
  at_ brs s t = Ok 0.
Proof.
  intros Hz Hs Ht. unfold at_.
  rewrite (in_bounds_intro Hs Ht). rewrite Hz; [reflexivity|].
  apply in_bounds_intro; assumption.
Qed.

Lemma getOptimalBandwidthNeeded_zero_bitrates (m pm : bool) (seen : Z)
  (brs : Bitrates) (maxLayer : VideoLayer) :
  zero_bitrates brs ->
  Spatial maxLayer <= DefaultMaxLayerSpatial ->
  Temporal maxLayer <= DefaultMaxLayerTemporal ->
  getOptimalBandwidthNeeded m pm seen brs maxLayer = Ok 0.
Proof.
  intros Hz Hs Ht. unfold getOptimalBandwidthNeeded.
  destruct (m || pm || (seen =? InvalidLayerSpatial)); [reflexivity|].
  rewrite for_first_all_none; [reflexivity|].
  intros i Hi. apply In_range_down in Hi.
  apply for_first_all_none. intros j Hj. apply In_range_down in Hj.
  rewrite (at_zero Hz) by lia. reflexivity.
Qed.

Lemma available_fold_floor (T : Z) (al : list Z) (sp0 tp0 sp tp : Z) :
  fold_left (fun '(sp, tp) layer =>
               if layer >? sp then (layer, T) else (sp, tp)) al (sp0, tp0)
  = (sp, tp) ->
  sp0 <= sp.
Proof.
  revert sp0 tp0. induction al as [|a al IH]; simpl; intros sp0 tp0 H.
  - inversion H; lia.
  - destruct (a >? sp0) eqn:G.
    + apply IH in H. apply Z.gtb_lt in G. lia.
    + apply IH in H. exact H.
Qed.

Lemma getDistanceToDesired_zero_bitrates (brs : Bitrates)
  (availableLayers : list Z) (targetLayer : VideoLayer) :
  zero_bitrates brs ->
  exists d,
    getDistanceToDesired false false (mkLayer 2 3) availableLayers brs
      targetLayer (mkLayer 2 3) = Ok d.
Proof.
  intros Hz. unfold getDistanceToDesired.
  change (false || false || negb (IsValid (mkLayer 2 3))
          || negb (IsValid (mkLayer 2 3))) with false.
  cbv iota.
  rewrite for_first_all_none.
  2:{ intros s Hs. apply In_range_down in Hs.
      apply for_first_all_none. intros t Ht. apply In_range_down in Ht.
      unfold len_spatial, len_temporal, DefaultMaxLayerSpatial,
        DefaultMaxLayerTemporal in *.
      rewrite (at_zero Hz) by (unfold DefaultMaxLayerSpatial,
                                 DefaultMaxLayerTemporal; lia).
      reflexivity. }
  cbn [bind].
  destruct (fold_left _ availableLayers _) as [mas mat] eqn:F.
  apply available_fold_floor in F.
  unfold InvalidLayerSpatial in F.
  cbn [Spatial Temporal].
  set (adj1 := if mas <? 2 then mkLayer mas 3 else mkLayer 2 3).
  set (adj2 := if 2 <? Spatial adj1 then mkLayer 2 (Temporal adj1) else adj1).
  assert (B : -1 <= Spatial adj2 <= 2).
  { subst adj2 adj1. destruct (mas <? 2) eqn:G; simpl.
    - apply Z.ltb_lt in G.
      destruct (2 <? mas) eqn:G2; simpl; lia.
    - simpl. lia. }
  destruct (negb (Spatial adj2 =? InvalidLayerSpatial)) eqn:NI.
  - rewrite for_first_all_none.
    2:{ intros t Ht. apply In_range_down in Ht.
        apply negb_true_iff, Z.eqb_neq in NI.
        unfold InvalidLayerSpatial, len_temporal, DefaultMaxLayerTemporal in *.
        rewrite (at_zero Hz) by (unfold DefaultMaxLayerSpatial,
                                   DefaultMaxLayerTemporal; lia).
        reflexivity. }
    cbn [bind]. eauto.
  - cbn [bind]. eauto.
Qed.

Lemma request_fold_floor (limit : Z) (al : list Z) (req0 high0 req high : Z) :
  fold_left (fun '(req, highest) al =>
               let req :=
                 if (al >? req) && (al <=? limit) then al else req in
               let highest := if al >? highest then al else highest in
               (req, highest)) al (req0, high0)
  = (req, high) ->
  req0 <= req /\ high0 <= high.
Proof.
  revert req0 high0. induction al as [|a al IH]; simpl; intros req0 high0 H.
  - inversion H; lia.
  - apply IH in H.
    destruct ((a >? req0) && (a <=? limit)) eqn:G1;
      destruct (a >? high0) eqn:G2;
      try (apply andb_true_iff in G1; destruct G1 as [G1 _]);
      try apply Z.gtb_lt in G1; try apply Z.gtb_lt in G2; lia.
Qed.

(** C6 (as the code has it). With MaxLayer = (2,3), MaxSeen = (2,3), neither
    mute set and an all-zero bitrate matrix, [AllocateOptimal] on a video
    forwarder returns PauseReason = FeedDry and BandwidthRequested = 0, but
    the target layer it returns is valid: the allocation latches on
    opportunistically, and with an invalid current layer the target is
    (2,3), or (2,0) for H.264.  (The existing target, when valid, is taken
    to index the bitrate matrix within bounds.) *)
Theorem AllocateOptimal_feed_dry_latches
  (f : Fwd) (availableLayers : list Z) (brs : Bitrates) (allowOvershoot : bool) :
  kind f = RTPCodecTypeVideo ->
  GetMax (vls f) = mkLayer 2 3 ->
  GetMaxSeen (vls f) = mkLayer 2 3 ->
  muted f = false ->
  pubMuted f = false ->
  zero_bitrates brs ->
  (IsValid (GetTarget (vls f)) = true ->
   in_bounds (Spatial (GetTarget (vls f))) (Temporal (GetTarget (vls f))) = true) ->
  exists (alloc : VideoAllocation.t) (f' : Fwd),
    AllocateOptimal f availableLayers brs allowOvershoot = Ok (alloc, f')
    /\ VideoAllocation.PauseReason alloc = VideoPauseReasonFeedDry
    /\ VideoAllocation.BandwidthRequested alloc = 0
    /\ IsValid (VideoAllocation.TargetLayer alloc) = true
    /\ (IsValid (GetCurrent (vls f)) = false ->
        VideoAllocation.TargetLayer alloc =
          mkLayer 2 (if String.eqb (ToLower (MimeType (codec f))) "video/h264"
                     then 0 else 3)).
Proof.
  intros Hk Hmax Hseen Hm Hpm Hz Ht.
  unfold AllocateOptimal. rewrite Hk, Hmax, Hseen, Hm, Hpm.
  rewrite getOptimalBandwidthNeeded_zero_bitrates;
    [ | exact Hz | simpl; unfold DefaultMaxLayerSpatial; lia
      | simpl; unfold DefaultMaxLayerTemporal; lia ].
  cbn [bind Spatial Temporal].
  change (negb (IsValid (mkLayer 2 3)) || (2 =? InvalidLayerSpatial)) with false.
  change (F64.to_int 32 (F64.Min (F64.of_int 2) (F64.of_int 2))) with (Ok 2).
  cbv iota. cbn [bind].
  destruct (fold_left _ availableLayers _) as [req high] eqn:F.
  apply request_fold_floor in F. destruct F as [Freq Fhigh].
  unfold InvalidLayerSpatial in Freq, Fhigh.
  destruct (getBandwidthNeeded_defined brs (GetTarget (vls f))
              (VideoAllocation.BandwidthRequested (lastAllocation f)) Ht)
    as (existing & E).
  set (req' := if (req =? InvalidLayerSpatial)
                  && negb (high =? InvalidLayerSpatial)
                  && allowOvershoot && IsOvershootOkay (vls f)
               then high else req).
  assert (Rq : -1 <= req') by (subst req'; destruct (_ && _); lia).
  destruct (IsValid (GetCurrent (vls f))) eqn:Vc.
  - assert (Sc : 0 <= Spatial (GetCurrent (vls f))).
    { unfold IsValid in Vc. apply andb_true_iff in Vc.
      destruct Vc as [Vc _]. apply Z.leb_le in Vc. exact Vc. }
    destruct (((req' =? GetRequestSpatial (vls f))
               && (Spatial (GetCurrent (vls f)) =? GetRequestSpatial (vls f)))
              || (req' =? InvalidLayerSpatial)) eqn:Lock.
    + cbn [bind]. simpl VideoAllocation.TargetLayer.
      assert (V : IsValid (mkLayer (Spatial (GetCurrent (vls f))) 3) = true).
      { unfold IsValid. simpl. apply andb_true_iff. split; [|reflexivity].
        apply Z.leb_le. exact Sc. }
      repeat (progress (simpl; rewrite ?V)). rewrite E. cbn [bind].
      destruct (getDistanceToDesired_zero_bitrates availableLayers
                  (mkLayer (Spatial (GetCurrent (vls f))) 3) Hz) as (d & D).
      rewrite D. cbn [bind].
      match goal with
      | |- exists a f', Ok (updateAllocation ?g ?x) = _ /\ _ =>
          exists (fst (updateAllocation g x)), (snd (updateAllocation g x))
      end.
      split; [rewrite <- surjective_pairing; reflexivity|].
      rewrite updateAllocation_returns. simpl.
      rewrite V. simpl.
      destruct (String.eqb _ _); simpl; repeat split; try discriminate;
        unfold IsValid; simpl; apply andb_true_iff; split;
        try reflexivity; apply Z.leb_le; exact Sc.
    + apply orb_false_iff in Lock. destruct Lock as [_ Lock].
      apply Z.eqb_neq in Lock. unfold InvalidLayerSpatial in Lock.
      assert (V : IsValid (mkLayer req' 3) = true).
      { unfold IsValid. simpl. apply andb_true_iff. split; [|reflexivity].
        apply Z.leb_le. lia. }
      cbn [bind]. repeat (progress (simpl; rewrite ?V)). rewrite E. cbn [bind].
      destruct (getDistanceToDesired_zero_bitrates availableLayers
                  (mkLayer req' 3) Hz) as (d & D).
      rewrite D. cbn [bind].
      match goal with
      | |- exists a f', Ok (updateAllocation ?g ?x) = _ /\ _ =>
          exists (fst (updateAllocation g x)), (snd (updateAllocation g x))
      end.
      split; [rewrite <- surjective_pairing; reflexivity|].
      rewrite updateAllocation_returns. simpl.
      rewrite V. simpl.
      destruct (String.eqb _ _); simpl; repeat split; try discriminate;
        unfold IsValid; simpl; apply andb_true_iff; split;
        try reflexivity; apply Z.leb_le; lia.
  - assert (L : F64.to_int 32
                  (F64.Min (F64.of_int 2)
                     (F64.of_int
                        (if allowOvershoot && IsOvershootOkay (vls f) && (2 >? 2)
                         then 2 else 2))) = Ok 2).
    { destruct (allowOvershoot && IsOvershootOkay (vls f) && (2 >? 2));
        reflexivity. }
    rewrite L. cbn [bind].
    destruct (getDistanceToDesired_zero_bitrates availableLayers
                (mkLayer 2 3) Hz) as (d & D).
    destruct (req' =? InvalidLayerSpatial); cbn [bind]; simpl;
      rewrite E; cbn [bind]; rewrite D; cbn [bind];
      match goal with
      | |- exists a f', Ok (updateAllocation ?g ?x) = _ /\ _ =>
          exists (fst (updateAllocation g x)), (snd (updateAllocation g x))
      end;
      (split; [rewrite <- surjective_pairing; reflexivity|]);
      rewrite updateAllocation_returns; simpl;
      destruct (String.eqb _ _); simpl; repeat split; reflexivity.
Qed.

(** ** Next higher allocation *)

Lemma doAllocation_first_candidate
  (f : Fwd) (capacity : Z) (availableLayers : list Z) (brs : Bitrates)
  (allowOvershoot : bool) (maxLayer maxSeenLayer : VideoLayer)
  (optimal already minSpatial maxSpatial minTemporal maxTemporal : Z) :
  doAllocation f capacity availableLayers brs allowOvershoot maxLayer
    maxSeenLayer optimal already minSpatial maxSpatial minTemporal maxTemporal
  = (c <- first_candidate brs
            (scan_order minSpatial maxSpatial minTemporal maxTemporal) ;;
     match c with
     | None => Ok (false, VideoAllocation.zero_value, false, f)
     | Some (s, t, b) =>
       if (negb allowOvershoot || negb (IsOvershootOkay (vls f)))
          && (int64 (b - already) >? capacity)
       then Ok (true, lastAllocation f, false, f)
       else boostTo f availableLayers brs maxLayer maxSeenLayer optimal
              already s t b
     end).
Proof.
  unfold doAllocation, scan_order.
  rewrite for_first_nested.
  rewrite (for_first_ext _ _
             (fun '(s, t) =>
                b <- at_ brs s t ;;
                if b =? 0 then Ok None
                else r <- (if (negb allowOvershoot
                               || negb (IsOvershootOkay (vls f)))
                              && (int64 (b - already) >? capacity)
                           then Ok (true, lastAllocation f, false, f)
                           else boostTo f availableLayers brs maxLayer
                                  maxSeenLayer optimal already s t b) ;;
                     Ok (Some r))).
  - rewrite for_first_decides_on_first_candidate.
    destruct (first_candidate brs _) as [[[[s t] b]|]|]; simpl; try reflexivity.
    destruct (_ && _); simpl; [reflexivity|].
    destruct (boostTo _ _ _ _ _ _ _ _ _ _); reflexivity.
  - intros [s t]. destruct (at_ brs s t) as [b|]; simpl; [|reflexivity].
    destruct (b =? 0); [reflexivity|].
    destruct (_ && _); reflexivity.
Qed.

Lemma updateAllocation_lastAllocation (f : Fwd) (alloc : VideoAllocation.t) :
  lastAllocation (snd (updateAllocation f alloc))
  = fst (updateAllocation f alloc).
Proof.
  unfold updateAllocation.
  destruct (IsValid (VideoAllocation.TargetLayer alloc)
            && String.eqb (ToLower (MimeType (codec f))) "video/h264");
    match goal with
    | |- context [if ?c then resyncLocked ?g else _] => destruct c
    end; reflexivity.
Qed.

Lemma first_candidate_found (brs : Bitrates) (cells : list (Z * Z))
  (s t b : Z) :
  first_candidate brs cells = Ok (Some (s, t, b)) ->
  In (s, t) cells /\ at_ brs s t = Ok b /\ b <> 0.
Proof.
  induction cells as [|[s' t'] rest IH]; simpl; [discriminate|].
  destruct (at_ brs s' t') as [b'|] eqn:B; simpl; [|discriminate].
  destruct (b' =? 0) eqn:E.
  - intros H. destruct (IH H) as (I & A & N). auto.
  - intros H. injection H as -> -> ->. apply Z.eqb_neq in E. auto.
Qed.

(** C7. Each search pass of [AllocateNextHigher] is decided by its first
    candidate, the first cell in scan order with a non-zero bitrate.  On a
    deficient video forwarder whose target is not pending, take the first
    candidate of the temporal pass, with none there of the spatial pass,
    and with none there either, under permitted overshoot and a valid
    maximum, of the overshoot pass.  If it does not fit,
    [AllocateNextHigher] returns the last allocation with
    boosted = false and an unchanged forwarder, whatever the later cells
    hold.  If it fits, or overshoot is permitted, it is taken:
    [AllocateNextHigher] returns boosted = true with the allocation that
    targets this layer (temporal index 0 for H.264), requests its bitrate
    and is committed with [updateAllocation].  With no candidate in any
    pass nothing changes. *)
Theorem AllocateNextHigher_halts_on_first_misfit
  (f : Fwd) (capacity : Z) (availableLayers : list Z) (brs : Bitrates)
  (allowOvershoot : bool) (optimal already : Z) :
  let targetLayer := GetTarget (vls f) in
  let maxLayer := GetMax (vls f) in
  let temporal_pass :=
    scan_order (Spatial targetLayer) (Spatial targetLayer)
               (Temporal targetLayer + 1) (Temporal maxLayer) in
  let spatial_pass :=
    scan_order (Spatial targetLayer + 1) (Spatial maxLayer)
               0 (Temporal maxLayer) in
  let overshoot_pass :=
    scan_order (Spatial maxLayer + 1) DefaultMaxLayerSpatial
               0 DefaultMaxLayerTemporal in
  let misfit (b : Z) :=
    (negb allowOvershoot || negb (IsOvershootOkay (vls f)))
    && (int64 (b - already) >? capacity) in
  let no_temporal :=
    IsValid targetLayer = false
    \/ first_candidate brs temporal_pass = Ok None in
  (forall minSpatial maxSpatial minTemporal maxTemporal : Z,
     doAllocation f capacity availableLayers brs allowOvershoot maxLayer
       (GetMaxSeen (vls f)) optimal already
       minSpatial maxSpatial minTemporal maxTemporal
     = (c <- first_candidate brs
               (scan_order minSpatial maxSpatial minTemporal maxTemporal) ;;
        match c with
        | None => Ok (false, VideoAllocation.zero_value, false, f)
        | Some (s, t, b) =>
          if misfit b
          then Ok (true, lastAllocation f, false, f)
          else boostTo f availableLayers brs maxLayer (GetMaxSeen (vls f))
                 optimal already s t b
        end))
  /\ (kind f = RTPCodecTypeVideo ->
      isDeficientLocked f = true ->
      IsValid targetLayer && negb (VideoLayer_eqb targetLayer (GetCurrent (vls f)))
      = false ->
      getOptimalBandwidthNeeded (muted f) (pubMuted f)
        (Spatial (GetMaxSeen (vls f))) brs maxLayer = Ok optimal ->
      (if IsValid targetLayer then at_layer brs targetLayer else Ok 0)
      = Ok already ->
      (forall s t b : Z,
         (IsValid targetLayer = true
          /\ first_candidate brs temporal_pass = Ok (Some (s, t, b)))
         \/ (no_temporal
             /\ first_candidate brs spatial_pass = Ok (Some (s, t, b)))
         \/ (no_temporal
             /\ first_candidate brs spatial_pass = Ok None
             /\ allowOvershoot && IsOvershootOkay (vls f)
                && IsValid maxLayer = true
             /\ first_candidate brs overshoot_pass = Ok (Some (s, t, b))) ->
         (misfit b = true ->
          AllocateNextHigher f capacity availableLayers brs allowOvershoot
          = Ok (lastAllocation f, false, f))
         /\ (misfit b = false ->
             forall distance,
               getDistanceToDesired (muted f) (pubMuted f)
                 (GetMaxSeen (vls f)) availableLayers brs (mkLayer s t)
                 maxLayer = Ok distance ->
               exists (alloc : VideoAllocation.t) (f' : Fwd),
                 AllocateNextHigher f capacity availableLayers brs
                   allowOvershoot = Ok (alloc, true, f')
                 /\ updateAllocation f
                      (VideoAllocation.mk VideoPauseReasonNone
                         (negb (GreaterThan (mkLayer s t) maxLayer
                                || (b >=? optimal)))
                         b (int64 (b - already)) optimal brs (mkLayer s t) s
                         maxLayer distance) = (alloc, f')
                 /\ VideoAllocation.TargetLayer alloc
                    = mkLayer s
                        (if String.eqb (ToLower (MimeType (codec f)))
                              "video/h264" then 0 else t)
                 /\ VideoAllocation.RequestLayerSpatial alloc = s
                 /\ VideoAllocation.BandwidthRequested alloc = b
                 /\ b <> 0
                 /\ VideoAllocation.BandwidthDelta alloc
                    = int64 (b - already)
                 /\ VideoAllocation.PauseReason alloc = VideoPauseReasonNone
                 /\ lastAllocation f' = alloc))
      /\ (no_temporal ->
          first_candidate brs spatial_pass = Ok None ->
          allowOvershoot && IsOvershootOkay (vls f) && IsValid maxLayer
          = false
          \/ first_candidate brs overshoot_pass = Ok None ->
          AllocateNextHigher f capacity availableLayers brs allowOvershoot
          = Ok (lastAllocation f, false, f))).
Proof.
  intros targetLayer maxLayer temporal_pass spatial_pass overshoot_pass
    misfit no_temporal.
  split.
  - intros. apply doAllocation_first_candidate.
  - intros Hk Hd Hpend Hopt Halr.
    assert (E : AllocateNextHigher f capacity availableLayers brs
                  allowOvershoot
                = ('(done, allocation, boosted, f1) <-
                     (if IsValid targetLayer
                      then doAllocation f capacity availableLayers brs
                             allowOvershoot maxLayer (GetMaxSeen (vls f))
                             optimal already
                             (Spatial targetLayer) (Spatial targetLayer)
                             (Temporal targetLayer + 1) (Temporal maxLayer)
                      else Ok (false, VideoAllocation.zero_value, false, f)) ;;
                   if done then Ok (allocation, boosted, f1)
                   else
                     '(done, allocation, boosted, f2) <-
                       doAllocation f capacity availableLayers brs
                         allowOvershoot maxLayer (GetMaxSeen (vls f))
                         optimal already
                         (Spatial targetLayer + 1) (Spatial maxLayer)
                         0 (Temporal maxLayer) ;;
                     if done then Ok (allocation, boosted, f2)
                     else
                       '(done, allocation, boosted, f3) <-
                         (if allowOvershoot && IsOvershootOkay (vls f)
                             && IsValid maxLayer
                          then doAllocation f capacity availableLayers brs
                                 allowOvershoot maxLayer (GetMaxSeen (vls f))
                                 optimal already
                                 (Spatial maxLayer + 1) DefaultMaxLayerSpatial
                                 0 DefaultMaxLayerTemporal
                          else Ok (false, VideoAllocation.zero_value, false,
                                   f)) ;;
                       if done then Ok (allocation, boosted, f3)
                       else Ok (lastAllocation f, false, f))).
    { unfold AllocateNextHigher. rewrite Hk, Hd. simpl negb. cbv iota.
      fold targetLayer. rewrite Hpend.
      fold maxLayer. rewrite Hopt. cbn [bind]. rewrite Halr. cbn [bind].
      reflexivity. }
    rewrite E. clear E.
    rewrite !doAllocation_first_candidate.
    fold temporal_pass spatial_pass overshoot_pass.
    assert (P1 : no_temporal ->
                 (if IsValid targetLayer
                  then c <- first_candidate brs temporal_pass ;;
                       match c with
                       | None =>
                         Ok (false, VideoAllocation.zero_value, false, f)
                       | Some (s, t, b) =>
                         if (negb allowOvershoot
                             || negb (IsOvershootOkay (vls f)))
                            && (int64 (b - already) >? capacity)
                         then Ok (true, lastAllocation f, false, f)
                         else boostTo f availableLayers brs maxLayer
                                (GetMaxSeen (vls f)) optimal already s t b
                       end
                  else Ok (false, VideoAllocation.zero_value, false, f))
                 = Ok (false, VideoAllocation.zero_value, false, f)).
    { intros [H1|H1].
      - rewrite H1. reflexivity.
      - rewrite H1. destruct (IsValid targetLayer); reflexivity. }
    assert (Taken : forall s t b distance,
              at_ brs s t = Ok b -> b <> 0 ->
              getDistanceToDesired (muted f) (pubMuted f)
                (GetMaxSeen (vls f)) availableLayers brs (mkLayer s t)
                maxLayer = Ok distance ->
              exists (alloc : VideoAllocation.t) (f' : Fwd),
                boostTo f availableLayers brs maxLayer (GetMaxSeen (vls f))
                  optimal already s t b = Ok (true, alloc, true, f')
                /\ updateAllocation f
                     (VideoAllocation.mk VideoPauseReasonNone
                        (negb (GreaterThan (mkLayer s t) maxLayer
                               || (b >=? optimal)))
                        b (int64 (b - already)) optimal brs (mkLayer s t) s
                        maxLayer distance) = (alloc, f')
                /\ VideoAllocation.TargetLayer alloc
                   = mkLayer s
                       (if String.eqb (ToLower (MimeType (codec f)))
                             "video/h264" then 0 else t)
                /\ VideoAllocation.RequestLayerSpatial alloc = s
                /\ VideoAllocation.BandwidthRequested alloc = b
                /\ b <> 0
                /\ VideoAllocation.BandwidthDelta alloc = int64 (b - already)
                /\ VideoAllocation.PauseReason alloc = VideoPauseReasonNone
                /\ lastAllocation f' = alloc).
    { intros s t b distance B NZ D.
      set (a0 := VideoAllocation.mk VideoPauseReasonNone
                   (negb (GreaterThan (mkLayer s t) maxLayer
                          || (b >=? optimal)))
                   b (int64 (b - already)) optimal brs (mkLayer s t) s
                   maxLayer distance).
      assert (Bo : boostTo f availableLayers brs maxLayer
                     (GetMaxSeen (vls f)) optimal already s t b
                   = (let '(a, f') := updateAllocation f a0 in
                      Ok (true, a, true, f'))).
      { unfold boostTo. rewrite D. cbn [bind]. unfold a0.
        destruct (GreaterThan (mkLayer s t) maxLayer || (b >=? optimal));
          reflexivity. }
      pose proof (updateAllocation_returns f a0) as Ret.
      pose proof (updateAllocation_lastAllocation f a0) as Last.
      destruct (updateAllocation f a0) as [alloc f'] eqn:U.
      simpl in Ret, Last.
      exists alloc, f'.
      split; [exact Bo|]. split; [reflexivity|].
      assert (V : IsValid (mkLayer s t) = true).
      { unfold at_ in B. destruct (in_bounds s t) eqn:I; [|discriminate B].
        apply in_bounds_elim in I. unfold IsValid. simpl. lia. }
      rewrite V in Ret. simpl in Ret. rewrite Ret.
      destruct (String.eqb (ToLower (MimeType (codec f))) "video/h264");
        simpl; repeat split; try assumption; try reflexivity;
        rewrite <- Ret; exact Last. }
    split.
    + intros s t b Hcases.
      assert (C : at_ brs s t = Ok b /\ b <> 0).
      { destruct Hcases as [[_ H]|[[_ H]|(_ & _ & _ & H)]];
          apply first_candidate_found in H; tauto. }
      destruct C as [B NZ].
      assert (R : forall r,
                ('(done, allocation, boosted, f1) <-
                   (if IsValid targetLayer
                    then c <- first_candidate brs temporal_pass ;;
                         match c with
                         | None =>
                           Ok (false, VideoAllocation.zero_value, false, f)
                         | Some (s, t, b) =>
                           if (negb allowOvershoot
                               || negb (IsOvershootOkay (vls f)))
                              && (int64 (b - already) >? capacity)
                           then Ok (true, lastAllocation f, false, f)
                           else boostTo f availableLayers brs maxLayer
                                  (GetMaxSeen (vls f)) optimal already s t b
                         end
                    else Ok (false, VideoAllocation.zero_value, false, f)) ;;
                 if done then Ok (allocation, boosted, f1)
                 else
                   '(done, allocation, boosted, f2) <-
                     (c <- first_candidate brs spatial_pass ;;
                      match c with
                      | None =>
                        Ok (false, VideoAllocation.zero_value, false, f)
                      | Some (s, t, b) =>
                        if (negb allowOvershoot
                            || negb (IsOvershootOkay (vls f)))
                           && (int64 (b - already) >? capacity)
                        then Ok (true, lastAllocation f, false, f)
                        else boostTo f availableLayers brs maxLayer
                               (GetMaxSeen (vls f)) optimal already s t b
                      end) ;;
                   if done then Ok (allocation, boosted, f2)
                   else
                     '(done, allocation, boosted, f3) <-
                       (if allowOvershoot && IsOvershootOkay (vls f)
                           && IsValid maxLayer
                        then c <- first_candidate brs overshoot_pass ;;
                             match c with
                             | None =>
                               Ok (false, VideoAllocation.zero_value, false,
                                   f)
                             | Some (s, t, b) =>
                               if (negb allowOvershoot
                                   || negb (IsOvershootOkay (vls f)))
                                  && (int64 (b - already) >? capacity)
                               then Ok (true, lastAllocation f, false, f)
                               else boostTo f availableLayers brs maxLayer
                                      (GetMaxSeen (vls f)) optimal already
                                      s t b
                             end
                        else Ok (false, VideoAllocation.zero_value, false,
                                 f)) ;;
                     if done then Ok (allocation, boosted, f3)
                     else Ok (lastAllocation f, false, f))
                = ('(done, allocation, boosted, f1) <-
                     (if misfit b
                      then Ok (true, lastAllocation f, false, f)
                      else boostTo f availableLayers brs maxLayer
                             (GetMaxSeen (vls f)) optimal already s t b) ;;
                   if done then Ok (allocation, boosted, f1) else r)).
      { intros r.
        destruct Hcases as [[Hv H1]|[[Hn H2]|(Hn & H2 & Ho & H3)]].
        - rewrite Hv, H1. cbn [bind]. fold (misfit b).
          destruct (misfit b); [reflexivity|].
          destruct (boostTo _ _ _ _ _ _ _ _ _ _) as [[[[d a] bo] g]|] eqn:Bo;
            [|reflexivity].
          cbn [bind]. unfold boostTo in Bo.
          destruct (getDistanceToDesired _ _ _ _ _ _ _); cbn [bind] in Bo;
            [|discriminate Bo].
          match type of Bo with
          | context [updateAllocation f ?x] =>
            destruct (updateAllocation f x)
          end.
          injection Bo as <- _ _ _. reflexivity.
        - rewrite (P1 Hn). cbn [bind]. cbv iota. rewrite H2. cbn [bind].
          fold (misfit b).
          destruct (misfit b); [reflexivity|].
          destruct (boostTo _ _ _ _ _ _ _ _ _ _) as [[[[d a] bo] g]|] eqn:Bo;
            [|reflexivity].
          cbn [bind]. unfold boostTo in Bo.
          destruct (getDistanceToDesired _ _ _ _ _ _ _); cbn [bind] in Bo;
            [|discriminate Bo].
          match type of Bo with
          | context [updateAllocation f ?x] =>
            destruct (updateAllocation f x)
          end.
          injection Bo as <- _ _ _. reflexivity.
        - rewrite (P1 Hn). cbn [bind]. cbv iota. rewrite H2. cbn [bind].
          cbv iota. rewrite Ho, H3. cbn [bind]. fold (misfit b).
          destruct (misfit b); [reflexivity|].
          destruct (boostTo _ _ _ _ _ _ _ _ _ _) as [[[[d a] bo] g]|] eqn:Bo;
            [|reflexivity].
          cbn [bind]. unfold boostTo in Bo.
          destruct (getDistanceToDesired _ _ _ _ _ _ _); cbn [bind] in Bo;
            [|discriminate Bo].
          match type of Bo with
          | context [updateAllocation f ?x] =>
            destruct (updateAllocation f x)
          end.
          injection Bo as <- _ _ _. reflexivity. }
      split.
      * intros Hmis. rewrite (R (Ok (lastAllocation f, false, f))).
        rewrite Hmis. reflexivity.
      * intros Hfit distance D.
        destruct (Taken s t b distance B NZ D)
          as (alloc & f' & Bo & U & T1 & T2 & T3 & T4 & T5 & T6 & T7).
        exists alloc, f'.
        split; [|repeat split; assumption].
        rewrite (R (Ok (lastAllocation f, false, f))).
        rewrite Hfit, Bo. reflexivity.
    + intros Hn H2 Ho.
      rewrite (P1 Hn). cbn [bind]. cbv iota. rewrite H2. cbn [bind].
      cbv iota.
      destruct Ho as [Ho|Ho].
      * rewrite Ho. reflexivity.
      * rewrite Ho.
        destruct (allowOvershoot && IsOvershootOkay (vls f)
                  && IsValid maxLayer); reflexivity.
Qed.

End ForwarderProperties.

(* ------------------------------------------------------------------ *)
(** * The properties on the scenarios *)

Section Scenarios.
Import Scenario.

(** The forwarder of S1/S2 is not muted and declines the mute. *)
Lemma Mute_declined_witness : Mute fresh true false = (false, fresh).
Proof.
  apply Mute_declined_when_not_subscribe_mutable. reflexivity.
Defined.

(** A resume with neither callback: the candidate is the last timestamp
    itself and the guard moves it one tick on. *)
Lemma processSourceSwitch_witness :
  exists ts : SwitchTimestamps,
    fst (nextTimestampOnSwitch fresh (packet 2222 5000) 0 0 0) = inl ts
    /\ extLastTS ts = 0
    /\ extNextTS ts = 1
    /\ 0 < int64 (extNextTS ts - extLastTS ts).
Proof.
  destruct (processSourceSwitch_next_after_last fresh
              (f' := snd (processSourceSwitch fresh (packet 2222 5000) 0 0 0))
              (packet 2222 5000) 0 0 0 eq_refl eq_refl)
    as (ts & f0 & f1 & candidate & _ & _ & N & L & P & _).
  exists ts. rewrite N. simpl.
  assert (E : ts = mkSwitchTimestamps 0 0 0 1).
  { vm_compute in N. inversion N. reflexivity. }
  subst ts. repeat split; reflexivity.
Defined.

(** S6 and its neighbour: a reference 80 ms behind fails the switch and
    leaves the munger alone; a reference 40 ms behind is bumped to
    [extLastTS + 1]. *)
Lemma layer_switch_behind_threshold_witness :
  (processSourceSwitch (switching []) (packet 2222 992800) 1 0 0
   = (Some (errors_New "switch point too far behind"), switching [])
   /\ getTranslationParamsCommon (switching []) (packet 2222 992800) 1
        TranslationParams.zero_value 0 0
      = (TranslationParams.with_shouldDrop TranslationParams.zero_value true,
         None, switching []))
  /\ nextTimestampOnSwitch (switching []) (packet 2222 996400) 1 0 0
     = (inl (mkSwitchTimestamps 1000000 996400 1000000 1000001), switching []).
Proof.
  split.
  - destruct (layer_switch_behind_threshold (switching [])
                (f1 := switching []) (packet 2222 992800) 1 0 0
                TranslationParams.zero_value
                (l := 1000000) (r := 992800) (e := 1000000)
                eq_refl ltac:(discriminate) ltac:(discriminate)
                eq_refl eq_refl) as [Far _].
    destruct (Far eq_refl) as (P & T & _). split; assumption.
  - destruct (layer_switch_behind_threshold (switching [])
                (f1 := switching []) (packet 2222 996400) 1 0 0
                TranslationParams.zero_value
                (l := 1000000) (r := 996400) (e := 1000000)
                eq_refl ltac:(discriminate) ltac:(discriminate)
                eq_refl eq_refl) as [_ Near].
    destruct (Near eq_refl) as (N & _). exact N.
Defined.

(** A probe of (2,3) that needs 340000 with 1000 available and (1,1)
    committed is refused; with nothing committed it is taken. *)
Lemma ProvisionalAllocate_without_pause_witness :
  ProvisionalAllocate committed 1000 L23 false false = Ok (false, 0, committed)
  /\ ProvisionalAllocate streaming 1000 L23 false false
     = Ok (true, 340000,
           set_allocatedLayer streaming
             (VideoAllocationProvisional.mk false false L23 [0; 1; 2]
                fullBitrates L23 (mkLayer 1 1) InvalidLayer) L23).
Proof.
  split.
  - destruct (ProvisionalAllocate_without_pause committed
                (p := VideoAllocationProvisional.mk false false L23 [0; 1; 2]
                        fullBitrates L23 (mkLayer 1 1) (mkLayer 1 1))
                1000 L23 false ltac:(reflexivity)) as [_ A].
    apply (A ltac:(reflexivity) 340000 220000);
      try reflexivity; discriminate.
  - destruct (ProvisionalAllocate_without_pause streaming
                (p := VideoAllocationProvisional.mk false false L23 [0; 1; 2]
                        fullBitrates L23 (mkLayer 1 1) InvalidLayer)
                1000 L23 false ltac:(reflexivity)) as [_ A].
    apply (A ltac:(reflexivity) 340000 0);
      try reflexivity; discriminate.
Defined.

(** C8 fails as stated.  With nothing committed and pausing not allowed,
    a probe of (2,3), whose bitrate of 340000 does not fit the 1000
    available, is refused on a muted workspace and, without overshoot,
    under a maximum layer of (1,3). *)
Lemma ProvisionalAllocate_without_pause_counterexample :
  at_layer fullBitrates L23 = Ok 340000
  /\ (340000 <=? int64 (1000 + 0)) = false
  /\ (provisional mutedStreaming
      = Some (VideoAllocationProvisional.mk true false L23 [0; 1; 2]
                fullBitrates L23 (mkLayer 1 1) InvalidLayer)
      /\ ProvisionalAllocate mutedStreaming 1000 L23 false false
         = Ok (false, 0, mutedStreaming))
  /\ (provisional ScenarioRest.underLowMax
      = Some (VideoAllocationProvisional.mk false false L23 [0; 1; 2]
                fullBitrates (mkLayer 1 3) (mkLayer 1 1) InvalidLayer)
      /\ ProvisionalAllocate ScenarioRest.underLowMax 1000 L23 false false
         = Ok (false, 0, ScenarioRest.underLowMax)).
Proof.
  repeat split.
Qed.

(** The three cases: streaming (1,1) under a maximal layer of (2,3) is
    held; the same on a muted workspace goes to no layer and gives back
    the 220000 of (1,1); a target (1,1) that has no bitrate falls back to
    the current layer (2,3). *)
Lemma cooperative_transition_witness :
  ProvisionalAllocateGetCooperativeTransition streaming false
  = Ok (VideoTransition.mk (mkLayer 1 1) (mkLayer 1 1) 0, [0; 1; 2],
        fullBitrates,
        set_allocatedLayer streaming
          (VideoAllocationProvisional.mk false false L23 [0; 1; 2]
             fullBitrates L23 (mkLayer 1 1) InvalidLayer) (mkLayer 1 1))
  /\ ProvisionalAllocateGetCooperativeTransition mutedStreaming false
     = Ok (VideoTransition.mk (mkLayer 1 1) InvalidLayer (-220000),
           [0; 1; 2], fullBitrates,
           set_allocatedLayer mutedStreaming
             (VideoAllocationProvisional.mk true false L23 [0; 1; 2]
                fullBitrates L23 (mkLayer 1 1) InvalidLayer) InvalidLayer)
  /\ ProvisionalAllocateGetCooperativeTransition targetNotStreaming false
     = Ok (VideoTransition.mk (mkLayer 1 1) L23 900000,
           [0; 1; 2], topOnlyBitrates,
           set_allocatedLayer targetNotStreaming
             (VideoAllocationProvisional.mk false false L23 [0; 1; 2]
                topOnlyBitrates L23 L23 InvalidLayer) L23).
Proof.
  split; [|split].
  - destruct (cooperative_transition_holds_streaming_target streaming
                (p := VideoAllocationProvisional.mk false false L23 [0; 1; 2]
                        fullBitrates L23 (mkLayer 1 1) InvalidLayer)
                false ltac:(reflexivity)) as [_ B].
    destruct (B ltac:(reflexivity) ltac:(reflexivity) L23 340000 220000
                ltac:(reflexivity) ltac:(reflexivity) ltac:(reflexivity))
      as [Hold _].
    apply Hold. discriminate.
  - destruct (cooperative_transition_holds_streaming_target mutedStreaming
                (p := VideoAllocationProvisional.mk true false L23 [0; 1; 2]
                        fullBitrates L23 (mkLayer 1 1) InvalidLayer)
                false ltac:(reflexivity)) as [A _].
    apply (A ltac:(reflexivity) 220000 ltac:(reflexivity)).
  - destruct (cooperative_transition_holds_streaming_target
                targetNotStreaming
                (p := VideoAllocationProvisional.mk false false L23 [0; 1; 2]
                        topOnlyBitrates L23 L23 InvalidLayer)
                false ltac:(reflexivity)) as [_ B].
    destruct (B ltac:(reflexivity) ltac:(reflexivity) L23 900000 0
                ltac:(reflexivity) ltac:(reflexivity) ltac:(reflexivity))
      as [_ Fall].
    apply (Fall ltac:(reflexivity) 900000 ltac:(reflexivity)).
Defined.

(** C3 fails as stated.  With a valid target (1,1) that is not above the
    maximal layer (2,3) but has no bitrate of its own, the transition goes
    to the current layer (2,3), an upgrade that asks for 900000 more; and
    with the workspace muted it goes to the invalid layer. *)
Lemma cooperative_transition_counterexample :
  (IsValid (GetTarget (vls targetNotStreaming)) = true
   /\ first_nonzero_layer topOnlyBitrates (range_down 2 0) (range_down 3 0)
      = Ok (Some (L23, 900000))
   /\ GreaterThan (GetTarget (vls targetNotStreaming)) L23 = false
   /\ exists tr al brs f',
        ProvisionalAllocateGetCooperativeTransition targetNotStreaming false
        = Ok (tr, al, brs, f')
        /\ VideoTransition.From tr = mkLayer 1 1
        /\ VideoTransition.To tr = L23
        /\ VideoTransition.BandwidthDelta tr = 900000
        /\ VideoTransition.To tr <> VideoTransition.From tr)
  /\ (IsValid (GetTarget (vls mutedStreaming)) = true
      /\ first_nonzero_layer fullBitrates (range_down 2 0) (range_down 3 0)
         = Ok (Some (L23, 340000))
      /\ GreaterThan (GetTarget (vls mutedStreaming)) L23 = false
      /\ exists tr al brs f',
           ProvisionalAllocateGetCooperativeTransition mutedStreaming false
           = Ok (tr, al, brs, f')
           /\ VideoTransition.To tr = InvalidLayer
           /\ VideoTransition.To tr <> VideoTransition.From tr).
Proof.
  split; (split; [reflexivity|]); (split; [reflexivity|]);
    (split; [reflexivity|]);
    do 4 eexists; (split; [vm_compute; reflexivity|]); simpl;
    repeat split; discriminate.
Qed.

(** S4: the sacrifice from (2,3) that pays best is (0,3). *)
Lemma best_weighted_transition_witness :
  exists tr al brs f',
    ProvisionalAllocateGetBestWeightedTransition sacrificing
    = Ok (tr, al, brs, f')
    /\ VideoTransition.From tr = L23
    /\ VideoTransition.To tr = mkLayer 0 3
    /\ VideoTransition.BandwidthDelta tr <= 0
    /\ Spatial (VideoTransition.To tr) <= Spatial (VideoTransition.From tr)
    /\ Temporal (VideoTransition.To tr) <= Temporal (VideoTransition.From tr).
Proof.
  assert (R : exists tr al brs f',
             ProvisionalAllocateGetBestWeightedTransition sacrificing
             = Ok (tr, al, brs, f') /\ VideoTransition.To tr = mkLayer 0 3).
  { do 4 eexists. split; [vm_compute; reflexivity|reflexivity]. }
  destruct R as (tr & al & brs & f' & R & T).
  exists tr, al, brs, f'.
  destruct (best_weighted_transition_gives_back sacrificing
              (p := VideoAllocationProvisional.mk false false L23 [0; 1; 2]
                      fullBitrates L23 L23 InvalidLayer)
              eq_refl
              ltac:(intros s t B; apply in_bounds_elim in B;
                    unfold DefaultMaxLayerSpatial, DefaultMaxLayerTemporal in B;
                    change (100000 * (s + 1) + 10000 * (t + 1) < 2 ^ 63); lia)
              ltac:(change (0 <= 0 < 2 ^ 63); lia)
              ltac:(change (-1 <= 2); lia) ltac:(change (-1 <= 3); lia) R)
    as (F & D & Down & _).
  destruct (Down (or_intror (ex_intro _ 3 eq_refl))) as (Ds & Dt).
  repeat split; assumption.
Defined.

(** C4 fails as stated.  With the target already moved down to (0,0), the
    current layer still (2,3) and the feed dry, the transition goes to
    the current layer, above the target on both axes. *)
Lemma best_weighted_transition_counterexample :
  exists tr al brs f',
    ProvisionalAllocateGetBestWeightedTransition dryWhileSwitchingDown
    = Ok (tr, al, brs, f')
    /\ VideoTransition.From tr = mkLayer 0 0
    /\ VideoTransition.To tr = L23
    /\ ~ (Spatial (VideoTransition.To tr) <= Spatial (VideoTransition.From tr)
          /\ Temporal (VideoTransition.To tr)
             <= Temporal (VideoTransition.From tr)).
Proof.
  do 4 eexists. split; [vm_compute; reflexivity|]. simpl.
  repeat split. intros [H _]. apply H. reflexivity.
Qed.

(** Without a maximum layer, and without a published layer: the target
    stays invalid and the pause reason is FeedDry. *)
Lemma AllocateOptimal_without_max_witness :
  (exists alloc f',
     AllocateOptimal withoutMax [0; 1; 2] fullBitrates false = Ok (alloc, f')
     /\ VideoAllocation.TargetLayer alloc = InvalidLayer
     /\ VideoAllocation.PauseReason alloc = VideoPauseReasonFeedDry
     /\ VideoAllocation.BandwidthRequested alloc = 0)
  /\ (exists alloc f',
        AllocateOptimal withoutMaxSeen [0; 1; 2] fullBitrates false
        = Ok (alloc, f')
        /\ VideoAllocation.TargetLayer alloc = InvalidLayer
        /\ VideoAllocation.PauseReason alloc = VideoPauseReasonFeedDry
        /\ VideoAllocation.BandwidthRequested alloc = 0).
Proof.
  split.
  - apply (AllocateOptimal_without_max_is_feed_dry withoutMax [0; 1; 2]
             fullBitrates false eq_refl ltac:(left; reflexivity)).
    discriminate.
  - apply (AllocateOptimal_without_max_is_feed_dry withoutMaxSeen [0; 1; 2]
             fullBitrates false eq_refl ltac:(right; reflexivity)).
    discriminate.
Defined.

(** C5 fails as stated.  With an invalid maximum layer, and likewise with
    nothing published, the allocation returned has a pause reason,
    FeedDry, not None. *)
Lemma AllocateOptimal_without_max_counterexample :
  IsValid (GetMax (vls withoutMax)) = false
  /\ Spatial (GetMaxSeen (vls withoutMaxSeen)) = InvalidLayerSpatial
  /\ (exists alloc f',
        AllocateOptimal withoutMax [0; 1; 2] fullBitrates false = Ok (alloc, f')
        /\ VideoAllocation.PauseReason alloc = VideoPauseReasonFeedDry
        /\ VideoAllocation.PauseReason alloc <> VideoPauseReasonNone)
  /\ (exists alloc f',
        AllocateOptimal withoutMaxSeen [0; 1; 2] fullBitrates false
        = Ok (alloc, f')
        /\ VideoAllocation.PauseReason alloc = VideoPauseReasonFeedDry
        /\ VideoAllocation.PauseReason alloc <> VideoPauseReasonNone).
Proof.
  split; [reflexivity|]. split; [reflexivity|].
  split; do 2 eexists; (split; [vm_compute; reflexivity|]); simpl;
    (split; [reflexivity|discriminate]).
Qed.

(** S2: feed dry on a fresh forwarder. *)
Lemma AllocateOptimal_feed_dry_witness :
  exists alloc f',
    AllocateOptimal fresh [0; 1; 2] zeroBitrates false = Ok (alloc, f')
    /\ VideoAllocation.PauseReason alloc = VideoPauseReasonFeedDry
    /\ VideoAllocation.BandwidthRequested alloc = 0
    /\ VideoAllocation.TargetLayer alloc = L23.
Proof.
  destruct (AllocateOptimal_feed_dry_latches fresh [0; 1; 2]
              (brs := zeroBitrates) false
              ltac:(reflexivity) ltac:(reflexivity) ltac:(reflexivity) ltac:(reflexivity) ltac:(reflexivity)
              (fun s t _ => eq_refl) ltac:(discriminate))
    as (alloc & f' & R & P & B & V & T).
  exists alloc, f'. repeat split; try assumption.
  apply T. reflexivity.
Defined.

(** C6 fails as stated.  In S2 the target layer returned is (2,3), a valid
    layer, and it is the selector's target afterwards. *)
Lemma AllocateOptimal_feed_dry_counterexample :
  exists alloc f',
    AllocateOptimal fresh [0; 1; 2] zeroBitrates false = Ok (alloc, f')
    /\ VideoAllocation.TargetLayer alloc = L23
    /\ IsValid (VideoAllocation.TargetLayer alloc) = true
    /\ VideoAllocation.TargetLayer alloc <> InvalidLayer
    /\ GetTarget (vls f') = L23.
Proof.
  do 2 eexists. split; [vm_compute; reflexivity|]. simpl.
  repeat split. discriminate.
Qed.

(** Deficient at (0,0) with 100000 to spare: (0,1) needs 800000 more and
    does not fit, and the search stops there although (1,0) needs only
    50000 more.  With 1000000 to spare (0,1) is taken. *)
Lemma AllocateNextHigher_witness :
  AllocateNextHigher deficient 100000 [0; 1; 2] unorderedBitrates false
  = Ok (lastAllocation deficient, false, deficient)
  /\ first_candidate unorderedBitrates (scan_order 0 0 1 3)
     = Ok (Some (0, 1, 900000))
  /\ at_ unorderedBitrates 1 0 = Ok 150000
  /\ int64 (150000 - 100000) <= 100000
  /\ exists alloc f',
       AllocateNextHigher deficient 1000000 [0; 1; 2] unorderedBitrates false
       = Ok (alloc, true, f')
       /\ VideoAllocation.TargetLayer alloc = mkLayer 0 1
       /\ VideoAllocation.BandwidthRequested alloc = 900000
       /\ lastAllocation f' = alloc.
Proof.
  split; [|split; [reflexivity|split; [reflexivity|split; [discriminate|]]]].
  - destruct (AllocateNextHigher_halts_on_first_misfit deficient 100000
                [0; 1; 2] unorderedBitrates false 150000 100000) as [_ H].
    destruct (H ltac:(reflexivity) ltac:(reflexivity) ltac:(reflexivity)
                ltac:(reflexivity) ltac:(reflexivity)) as [F _].
    destruct (F 0 1 900000 ltac:(left; split; reflexivity)) as [Mis _].
    apply Mis. reflexivity.
  - destruct (AllocateNextHigher_halts_on_first_misfit deficient 1000000
                [0; 1; 2] unorderedBitrates false 150000 100000) as [_ H].
    destruct (H ltac:(reflexivity) ltac:(reflexivity) ltac:(reflexivity)
                ltac:(reflexivity) ltac:(reflexivity)) as [F _].
    destruct (F 0 1 900000 ltac:(left; split; reflexivity)) as [_ Fit].
    edestruct Fit as (alloc & f' & A & _ & T & _ & B & _ & _ & _ & L);
      [reflexivity | vm_compute; reflexivity |].
    exists alloc, f'. repeat split; assumption.
Defined.

(** No sender report for the new layer, on a switching selection and on a
    selection that is not switching. *)
Lemma reconciler_failure_witness :
  (exists tp f',
     GetTranslationParams (unresolved [switchSelected]) (packet 2222 992800)
       1 0 0 = (tp, None, f')
     /\ TranslationParams.shouldDrop tp = true
     /\ Scripted.rollbacks (vls f') = 1%nat)
  /\ (exists tp f',
        GetTranslationParams (unresolved [plainSelected]) (packet 2222 992800)
          1 0 0 = (tp, None, f')
        /\ TranslationParams.shouldDrop tp = true
        /\ Scripted.rollbacks (vls f') = 0%nat).
Proof.
  split.
  - destruct (reconciler_failure_rolls_back_switch
                (unresolved [switchSelected])
                (f1 := with_vls (unresolved [switchSelected])
                         (snd (Select (vls (unresolved [switchSelected]))
                                 (packet 2222 992800) 1)))
                (packet 2222 992800) 1 0 0
                (result := switchSelected)
                (err := errors_New "no sender report")
                ltac:(reflexivity) ltac:(reflexivity) ltac:(reflexivity) ltac:(reflexivity) ltac:(reflexivity) ltac:(reflexivity) ltac:(reflexivity)
                ltac:(discriminate) ltac:(reflexivity))
      as (tp & f' & R & D & V & _).
    exists tp, f'. repeat split; try assumption.
    rewrite V. reflexivity.
  - destruct (reconciler_failure_rolls_back_switch
                (unresolved [plainSelected])
                (f1 := with_vls (unresolved [plainSelected])
                         (snd (Select (vls (unresolved [plainSelected]))
                                 (packet 2222 992800) 1)))
                (packet 2222 992800) 1 0 0
                (result := plainSelected)
                (err := errors_New "no sender report")
                ltac:(reflexivity) ltac:(reflexivity) ltac:(reflexivity) ltac:(reflexivity) ltac:(reflexivity) ltac:(reflexivity) ltac:(reflexivity)
                ltac:(discriminate) ltac:(reflexivity))
      as (tp & f' & R & D & V & _).
    exists tp, f'. repeat split; try assumption.
    rewrite V. reflexivity.
Defined.

(** C9 fails as stated.  When the selection is a switch and the reconciler
    fails, for want of a sender report or because the switch point is too
    far behind, the packet is dropped and the selector is rolled back: its
    state is no longer the one [Select] left. *)
Lemma reconciler_failure_counterexample :
  (let f := unresolved [switchSelected] in
   let pkt := packet 2222 992800 in
   let selected := snd (Select (vls f) pkt 1) in
   fst (processSourceSwitch (with_vls f selected) pkt 1 0 0)
   = Some (errors_New "no sender report")
   /\ exists tp f',
        GetTranslationParams f pkt 1 0 0 = (tp, None, f')
        /\ TranslationParams.shouldDrop tp = true
        /\ vls f' = Rollback selected
        /\ vls f' <> selected)
  /\ (let f := switching [switchSelected] in
      let pkt := packet 2222 992800 in
      let selected := snd (Select (vls f) pkt 1) in
      fst (processSourceSwitch (with_vls f selected) pkt 1 0 0)
      = Some (errors_New "switch point too far behind")
      /\ exists tp f',
           GetTranslationParams f pkt 1 0 0 = (tp, None, f')
           /\ TranslationParams.shouldDrop tp = true
           /\ vls f' = Rollback selected
           /\ vls f' <> selected).
Proof.
  split; cbv zeta; (split; [reflexivity|]);
    do 2 eexists; (split; [vm_compute; reflexivity|]); simpl;
    repeat split; discriminate.
Qed.

(** ** The boundary scenarios of the specification, run on the model *)

(** S1: three simulcast layers, every bitrate known, nothing current. *)
Example S1_optimal_with_three_layers :
  exists alloc f',
    AllocateOptimal fresh [0; 1; 2] fullBitrates false = Ok (alloc, f')
    /\ VideoAllocation.TargetLayer alloc = L23
    /\ VideoAllocation.BandwidthRequested alloc = cell fullBitrates 2 3
    /\ VideoAllocation.PauseReason alloc = VideoPauseReasonNone
    /\ VideoAllocation.IsDeficient alloc = false.
Proof.
  do 2 eexists. split; [vm_compute; reflexivity|]. repeat split.
Qed.

(** S5: resume one second after a publisher mute: the expected timestamp
    is used, the reference being more than 0.2 s behind it. *)
Example S5_resume_after_pub_mute :
  let f : Scripted.Fwd :=
    mkForwarder (mkCodec "video/VP8" 90000) RTPCodecTypeVideo
      (Some (fun ts _ _ => inl ts)) (Some (fun _ => inl 1090000))
      false false ResumeBehindThresholdSeconds true 0 0 0 0 0 None
      VideoAllocationDefault
      (Scripted.mkMunger (mkRTPMungerState 500 900000) [])
      (Scripted.layers L23 L23 L23 InvalidLayer) [] in
  fst (nextTimestampOnSwitch f (packet 2222 1000000) 0 0 0)
  = inl (mkSwitchTimestamps 900000 1000000 1090000 1090000).
Proof. vm_compute. reflexivity. Qed.

(** S7: an H.264 forwarder is held to temporal layer 0. *)
Example S7_h264_temporal_clamp :
  let f : Scripted.Fwd :=
    mkForwarder (mkCodec "video/H264" 90000) RTPCodecTypeVideo None None
      false false F64.zero true 0 0 0 InvalidLayerSpatial 0 None
      VideoAllocationDefault
      (Scripted.mkMunger (mkRTPMungerState 0 0) [])
      (Scripted.layers L23 L23 InvalidLayer InvalidLayer) [] in
  exists alloc f',
    AllocateOptimal f [0; 1; 2] fullBitrates false = Ok (alloc, f')
    /\ VideoAllocation.TargetLayer alloc = mkLayer 2 0.
Proof.
  cbv zeta. do 2 eexists. split; [vm_compute; reflexivity|]. reflexivity.
Qed.

End Scenarios.

(* ------------------------------------------------------------------ *)
(** * Properties of the rest of the forwarder *)

(** Closes the conjunctions of equations and equivalences that the case
    analyses below end in. *)
Ltac settle :=
  repeat split; intros;
  repeat match goal with H : _ /\ _ |- _ => destruct H end;
  try congruence; try discriminate; try tauto.

Section AllocationProperties.
Context {Sel Mun Cod : Type}.
Context {selector : VideoLayerSelector Sel}.
Context {munger : RTPMungerOps Mun}.
Context {codecs : CodecMungerOps Cod}.

Local Notation "'Fwd'" := (Forwarder Sel Mun Cod).

(** ** What [updateAllocation] leaves behind *)

Lemma updateAllocation_frame (f : Fwd) (alloc : VideoAllocation.t) :
  let f' := snd (updateAllocation f alloc) in
  muted f' = muted f /\ pubMuted f' = pubMuted f /\ kind f' = kind f
  /\ codec f' = codec f /\ started f' = started f
  /\ rtpMunger f' = rtpMunger f /\ codecMunger f' = codecMunger f
  /\ provisional f' = provisional f.
Proof.
  unfold updateAllocation, resyncLocked, setTargetLayer.
  repeat match goal with
         | |- context [if ?c then _ else _] => destruct c; simpl
         end; repeat split; reflexivity.
Qed.

(** The allocation that comes out differs from the one that goes in at
    most in the temporal index of its target. *)
Lemma updateAllocation_keeps (f : Fwd) (alloc : VideoAllocation.t) :
  let a := fst (updateAllocation f alloc) in
  VideoAllocation.PauseReason a = VideoAllocation.PauseReason alloc
  /\ VideoAllocation.IsDeficient a = VideoAllocation.IsDeficient alloc
  /\ VideoAllocation.BandwidthRequested a
     = VideoAllocation.BandwidthRequested alloc
  /\ VideoAllocation.BandwidthDelta a = VideoAllocation.BandwidthDelta alloc
  /\ VideoAllocation.BandwidthNeeded a = VideoAllocation.BandwidthNeeded alloc
  /\ VideoAllocation.RequestLayerSpatial a
     = VideoAllocation.RequestLayerSpatial alloc
  /\ VideoAllocation.MaxLayer a = VideoAllocation.MaxLayer alloc
  /\ Spatial (VideoAllocation.TargetLayer a)
     = Spatial (VideoAllocation.TargetLayer alloc)
  /\ IsValid (VideoAllocation.TargetLayer a)
     = IsValid (VideoAllocation.TargetLayer alloc)
  /\ (IsValid (VideoAllocation.TargetLayer alloc) = false ->
      VideoAllocation.TargetLayer a = VideoAllocation.TargetLayer alloc).
Proof.
  intros a. subst a. rewrite updateAllocation_returns.
  destruct (IsValid (VideoAllocation.TargetLayer alloc)) eqn:V; simpl.
  - destruct (String.eqb _ _); simpl; repeat split; try reflexivity;
      try discriminate; try assumption.
    unfold IsValid in *. simpl.
    apply andb_true_iff in V. destruct V as [V _]. rewrite V. reflexivity.
  - repeat split; try reflexivity; assumption.
Qed.

Lemma getOptimalBandwidthNeeded_muted (m pm : bool) (seen : Z)
  (brs : Bitrates) (maxLayer : VideoLayer) :
  m || pm = true ->
  getOptimalBandwidthNeeded m pm seen brs maxLayer = Ok 0.
Proof.
  intros H. unfold getOptimalBandwidthNeeded. rewrite H. reflexivity.
Qed.

(** X1. [Pause] always names a reason: the allocation has no target and
    requests nothing; the reason is Muted exactly when the subscriber
    muted, PubMuted exactly when only the publisher did, Bandwidth exactly
    when some bandwidth is needed, FeedDry exactly when neither is muted
    and none is needed; the
    stream is deficient exactly when the reason is Bandwidth; and the
    allocation returned is the one recorded as the last allocation. *)
Theorem Pause_names_its_reason
  (f f' : Fwd) (availableLayers : list Z) (brs : Bitrates)
  (alloc : VideoAllocation.t) :
  Pause f availableLayers brs = Ok (alloc, f') ->
  VideoAllocation.TargetLayer alloc = InvalidLayer
  /\ VideoAllocation.RequestLayerSpatial alloc = InvalidLayerSpatial
  /\ VideoAllocation.BandwidthRequested alloc = 0
  /\ VideoAllocation.PauseReason alloc <> VideoPauseReasonNone
  /\ (VideoAllocation.PauseReason alloc = VideoPauseReasonMuted
      <-> muted f = true)
  /\ (VideoAllocation.PauseReason alloc = VideoPauseReasonPubMuted
      <-> muted f = false /\ pubMuted f = true)
  /\ (VideoAllocation.PauseReason alloc = VideoPauseReasonBandwidth
      <-> VideoAllocation.BandwidthNeeded alloc <> 0)
  /\ (VideoAllocation.PauseReason alloc = VideoPauseReasonFeedDry
      <-> muted f = false /\ pubMuted f = false
          /\ VideoAllocation.BandwidthNeeded alloc = 0)
  /\ (VideoAllocation.IsDeficient alloc = true
      <-> VideoAllocation.PauseReason alloc = VideoPauseReasonBandwidth)
  /\ lastAllocation f' = alloc.
Proof.
  unfold Pause. intros H.
  destruct (getOptimalBandwidthNeeded (muted f) (pubMuted f)
              (Spatial (GetMaxSeen (vls f))) brs (GetMax (vls f)))
    as [optimal|] eqn:O; [|discriminate H].
  simpl in H.
  destruct (getBandwidthNeeded brs (GetTarget (vls f))
              (VideoAllocation.BandwidthRequested (lastAllocation f)))
    as [existing|]; [|discriminate H].
  simpl in H.
  destruct (getDistanceToDesired (muted f) (pubMuted f) (GetMaxSeen (vls f))
              availableLayers brs InvalidLayer (GetMax (vls f)))
    as [distance|]; [|discriminate H].
  simpl in H.
  match type of H with
  | Ok (updateAllocation f ?a) = _ =>
    pose proof (updateAllocation_keeps f a) as K;
    pose proof (updateAllocation_lastAllocation f a) as L;
    destruct (updateAllocation f a) as [a' g] eqn:U
  end.
  injection H as -> ->. simpl in K, L.
  destruct K as (K1 & K2 & K3 & K4 & K5 & K6 & K7 & K8 & K9 & K10).
  assert (M : muted f || pubMuted f = true -> optimal = 0).
  { intros M. rewrite (getOptimalBandwidthNeeded_muted _ _ _ _ _ M) in O.
    congruence. }
  destruct (muted f) eqn:Mu; [|destruct (pubMuted f) eqn:Pm;
                                [|destruct (optimal =? 0) eqn:Z]];
    simpl in *; rewrite K1, K2, K3, K5, K6, K10 by reflexivity.
  - rewrite (M eq_refl). settle.
  - rewrite (M eq_refl). settle.
  - apply Z.eqb_eq in Z. subst optimal. settle.
  - apply Z.eqb_neq in Z. settle.
Qed.

(** The end of [AllocateOptimal], after the target has been chosen. *)
Lemma AllocateOptimal_tail
  (f f' : Fwd) (availableLayers : list Z) (brs : Bitrates) (optimal : Z)
  (a alloc : VideoAllocation.t) :
  VideoAllocation.IsDeficient a = false ->
  VideoAllocation.BandwidthRequested a = 0 ->
  VideoAllocation.BandwidthNeeded a = optimal ->
  VideoAllocation.MaxLayer a = GetMax (vls f) ->
  (VideoAllocation.PauseReason a = VideoPauseReasonNone <-> optimal <> 0) ->
  (let alloc :=
     if negb (IsValid (VideoAllocation.TargetLayer a))
     then VideoAllocation.with_RequestLayerSpatial
            (VideoAllocation.with_TargetLayer a InvalidLayer)
            InvalidLayerSpatial
     else a in
   let alloc :=
     if IsValid (VideoAllocation.TargetLayer alloc)
     then VideoAllocation.with_BandwidthRequested alloc optimal
     else alloc in
   existing <- getBandwidthNeeded brs (GetTarget (vls f))
                 (VideoAllocation.BandwidthRequested (lastAllocation f)) ;;
   let alloc :=
     VideoAllocation.with_BandwidthDelta alloc
       (int64 (VideoAllocation.BandwidthRequested alloc - existing)) in
   distance <- getDistanceToDesired (muted f) (pubMuted f)
                 (GetMaxSeen (vls f)) availableLayers brs
                 (VideoAllocation.TargetLayer alloc) (GetMax (vls f)) ;;
   let alloc := VideoAllocation.with_DistanceToDesired alloc distance in
   Ok (updateAllocation f alloc)) = Ok (alloc, f') ->
  VideoAllocation.IsDeficient alloc = false
  /\ optimal = VideoAllocation.BandwidthNeeded alloc
  /\ VideoAllocation.BandwidthRequested alloc
     = (if IsValid (VideoAllocation.TargetLayer alloc)
        then VideoAllocation.BandwidthNeeded alloc else 0)
  /\ (VideoAllocation.PauseReason alloc = VideoPauseReasonNone
      <-> VideoAllocation.BandwidthNeeded alloc <> 0)
  /\ (IsValid (VideoAllocation.TargetLayer alloc) = false ->
      VideoAllocation.TargetLayer alloc = InvalidLayer
      /\ VideoAllocation.RequestLayerSpatial alloc = InvalidLayerSpatial)
  /\ VideoAllocation.MaxLayer alloc = GetMax (vls f)
  /\ IsValid (VideoAllocation.TargetLayer alloc)
     = IsValid (VideoAllocation.TargetLayer a)
  /\ lastAllocation f' = alloc.
Proof.
  intros P1 P2 P3 P4 P5 T. cbv zeta in T.
  destruct (getBandwidthNeeded brs (GetTarget (vls f))
              (VideoAllocation.BandwidthRequested (lastAllocation f)))
    as [existing|]; [|discriminate T].
  simpl in T.
  match type of T with
  | bind ?d _ = _ => destruct d as [distance|]; [|discriminate T]
  end.
  simpl in T.
  match type of T with
  | Ok (updateAllocation f ?a0) = _ =>
    pose proof (updateAllocation_keeps f a0) as Kp;
    pose proof (updateAllocation_lastAllocation f a0) as L;
    destruct (updateAllocation f a0) as [a' g] eqn:U
  end.
  injection T as -> ->. simpl in L.
  destruct Kp as (K1 & K2 & K3 & K4 & K5 & K6 & K7 & K8 & K9 & K10).
  destruct a as [pr de br bd bn bs tl rl ml dd]. simpl in *.
  subst de br bn ml.
  destruct (IsValid tl) eqn:V; simpl in *.
  - rewrite V in *. simpl in *. rewrite K9, K1, K2, K3, K5, K7, ?V.
    settle.
  - change (IsValid InvalidLayer) with false in *. simpl in *.
    rewrite K9, K1, K2, K3, K5, K6, K7, (K10 eq_refl).
    settle.
Qed.

(** X2. [AllocateOptimal] on a video forwarder never reports a deficient
    stream; it requests exactly the optimal bandwidth when it sets a valid
    target and nothing otherwise; its pause reason is None exactly when
    some bandwidth is needed; and the allocation returned is recorded as
    the last allocation. *)
Theorem AllocateOptimal_bookkeeping
  (f f' : Fwd) (availableLayers : list Z) (brs : Bitrates)
  (allowOvershoot : bool) (alloc : VideoAllocation.t) :
  kind f <> RTPCodecTypeAudio ->
  AllocateOptimal f availableLayers brs allowOvershoot = Ok (alloc, f') ->
  VideoAllocation.IsDeficient alloc = false
  /\ getOptimalBandwidthNeeded (muted f) (pubMuted f)
       (Spatial (GetMaxSeen (vls f))) brs (GetMax (vls f))
     = Ok (VideoAllocation.BandwidthNeeded alloc)
  /\ VideoAllocation.BandwidthRequested alloc
     = (if IsValid (VideoAllocation.TargetLayer alloc)
        then VideoAllocation.BandwidthNeeded alloc else 0)
  /\ (VideoAllocation.PauseReason alloc = VideoPauseReasonNone
      <-> VideoAllocation.BandwidthNeeded alloc <> 0)
  /\ (IsValid (VideoAllocation.TargetLayer alloc) = false ->
      VideoAllocation.TargetLayer alloc = InvalidLayer
      /\ VideoAllocation.RequestLayerSpatial alloc = InvalidLayerSpatial)
  /\ VideoAllocation.MaxLayer alloc = GetMax (vls f)
  /\ lastAllocation f' = alloc.
Proof.
  intros K H. unfold AllocateOptimal in H.
  destruct (kind f); try (contradiction K; reflexivity).
  all: destruct (getOptimalBandwidthNeeded (muted f) (pubMuted f)
              (Spatial (GetMaxSeen (vls f))) brs (GetMax (vls f)))
    as [optimal|] eqn:O; [|discriminate H].
  all: assert (M : muted f || pubMuted f = true -> optimal = 0)
    by (intros M; rewrite (getOptimalBandwidthNeeded_muted _ _ _ _ _ M) in O;
        congruence).
  all: simpl in H.
  all: match type of H with
       | bind ?m _ = _ => destruct m as [a|] eqn:Mid; [|discriminate H]
       end.
  all: simpl in H.
  all: cut (VideoAllocation.IsDeficient a = false
            /\ VideoAllocation.BandwidthRequested a = 0
            /\ VideoAllocation.BandwidthNeeded a = optimal
            /\ VideoAllocation.MaxLayer a = GetMax (vls f)
            /\ (VideoAllocation.PauseReason a = VideoPauseReasonNone
                <-> optimal <> 0));
    [intros (P1 & P2 & P3 & P4 & P5);
     destruct (@AllocateOptimal_tail f f' availableLayers brs optimal a alloc
               P1 P2 P3 P4 P5 H)
       as (T1 & T2 & T3 & T4 & T5 & T6 & _ & T7);
     split; [exact T1|]; split; [rewrite <- T2; reflexivity|];
     split; [exact T3|]; split; [exact T4|]; split; [exact T5|];
     split; [exact T6 | exact T7]|].
  all: clear H.
  all: repeat (simpl in Mid; unfold bind in Mid; break_match_hyp Mid);
    try discriminate Mid.
  all: injection Mid as <-; simpl.
  all: repeat match goal with
              | E : match ?m with Ok _ => _ | Abort _ => _ end = Ok _ |- _ =>
                destruct m eqn:?; [simpl in E | discriminate E]
              | E : Ok _ = Ok _ |- _ => injection E as <-
              end; simpl.
  all: repeat match goal with
              | |- context [if ?c then _ else _] => destruct c eqn:?; simpl
              end.
  all: try specialize (M eq_refl).
  all: repeat match goal with
              | E : (_ =? _) = true |- _ => apply Z.eqb_eq in E
              | E : (_ =? _) = false |- _ => apply Z.eqb_neq in E
              end.
  all: settle.
Qed.
(** ** The sign of a converted layer index *)

Lemma of_int_sign (z : Z) :
  0 <= z ->
  match F64.of_int z with
  | S754_finite s _ _ | S754_infinity s => s = false
  | _ => True
  end.
Proof.
  intros Hz. destruct z as [|p|p]; [exact I| |lia].
  unfold F64.of_int, binary_normalize, binary_round.
  destruct (shl_align _ _ _) as [mz ez].
  unfold binary_round_aux.
  destruct (shr_fexp _ _ _ _ _) as [mrs' e'].
  destruct (shr_fexp _ _ _ _ _) as [mrs'' e''].
  destruct (shr_m mrs''); [exact I| |exact I].
  destruct (_ <=? _); reflexivity.
Qed.

Lemma to_int_Min_of_nonneg (bits a b v : Z) :
  0 <= a -> 0 <= b ->
  F64.to_int bits (F64.Min (F64.of_int a) (F64.of_int b)) = Ok v ->
  0 <= v.
Proof.
  intros Ha Hb.
  pose proof (of_int_sign Ha) as Sa. pose proof (of_int_sign Hb) as Sb.
  destruct (F64.of_int a) as [sa|sa| |sa ma ea];
    destruct (F64.of_int b) as [sb|sb| |sb mb eb];
    try subst sa; try subst sb;
    unfold F64.to_int, F64.Min;
    try destruct sa; try destruct sb;
    try match goal with
        | |- context [F64.ltb ?x ?y] => destruct (F64.ltb x y)
        end;
    simpl F64.trunc; cbv iota;
    try discriminate;
    match goal with
    | |- context [if ?c then _ else _] => destruct c
    end; intros H; inversion H; subst v;
    try lia; apply Z.shiftl_nonneg; lia.
Qed.

Lemma AllocateOptimal_tail_valid
  (f f' : Fwd) (availableLayers : list Z) (brs : Bitrates) (optimal : Z)
  (a alloc : VideoAllocation.t) :
  (let alloc :=
     if negb (IsValid (VideoAllocation.TargetLayer a))
     then VideoAllocation.with_RequestLayerSpatial
            (VideoAllocation.with_TargetLayer a InvalidLayer)
            InvalidLayerSpatial
     else a in
   let alloc :=
     if IsValid (VideoAllocation.TargetLayer alloc)
     then VideoAllocation.with_BandwidthRequested alloc optimal
     else alloc in
   existing <- getBandwidthNeeded brs (GetTarget (vls f))
                 (VideoAllocation.BandwidthRequested (lastAllocation f)) ;;
   let alloc :=
     VideoAllocation.with_BandwidthDelta alloc
       (int64 (VideoAllocation.BandwidthRequested alloc - existing)) in
   distance <- getDistanceToDesired (muted f) (pubMuted f)
                 (GetMaxSeen (vls f)) availableLayers brs
                 (VideoAllocation.TargetLayer alloc) (GetMax (vls f)) ;;
   let alloc := VideoAllocation.with_DistanceToDesired alloc distance in
   Ok (updateAllocation f alloc)) = Ok (alloc, f') ->
  IsValid (VideoAllocation.TargetLayer alloc)
  = IsValid (VideoAllocation.TargetLayer a).
Proof.
  intros T. cbv zeta in T.
  destruct (getBandwidthNeeded brs (GetTarget (vls f))
              (VideoAllocation.BandwidthRequested (lastAllocation f)))
    as [existing|]; [|discriminate T].
  simpl in T.
  match type of T with
  | bind ?d _ = _ => destruct d as [distance|]; [|discriminate T]
  end.
  simpl in T.
  match type of T with
  | Ok (updateAllocation f ?a0) = _ =>
    pose proof (updateAllocation_keeps f a0) as Kp;
    destruct (updateAllocation f a0) as [a' g] eqn:U
  end.
  injection T as -> ->.
  destruct Kp as (_ & _ & _ & _ & _ & _ & _ & _ & K9 & _). simpl in K9.
  rewrite K9. destruct a as [pr de br bd bn bs tl rl ml dd]. simpl.
  destruct (IsValid tl) eqn:V; simpl; rewrite ?V; simpl; rewrite ?V;
    reflexivity.
Qed.

(** X3. With layer indices that are never below -1, [AllocateOptimal] on a
    video forwarder sets a valid target exactly when the maximum layer is
    valid, something has been published, and neither side is muted:
    bitrates and available layers decide which layer, never whether. *)
Theorem AllocateOptimal_targets_whenever_subscribed
  (f f' : Fwd) (availableLayers : list Z) (brs : Bitrates)
  (allowOvershoot : bool) (alloc : VideoAllocation.t) :
  kind f <> RTPCodecTypeAudio ->
  -1 <= Spatial (GetMaxSeen (vls f)) ->
  -1 <= Temporal (GetMaxSeen (vls f)) ->
  AllocateOptimal f availableLayers brs allowOvershoot = Ok (alloc, f') ->
  (IsValid (VideoAllocation.TargetLayer alloc) = true
   <-> IsValid (GetMax (vls f)) = true
       /\ Spatial (GetMaxSeen (vls f)) <> InvalidLayerSpatial
       /\ muted f = false /\ pubMuted f = false).
Proof.
  intros K S1 S2 H. unfold AllocateOptimal in H.
  destruct (kind f); try (contradiction K; reflexivity).
  all: destruct (getOptimalBandwidthNeeded (muted f) (pubMuted f)
              (Spatial (GetMaxSeen (vls f))) brs (GetMax (vls f)))
    as [optimal|] eqn:O; [|discriminate H].
  all: simpl in H.
  all: match type of H with
       | bind ?m _ = _ => destruct m as [a|] eqn:Mid; [|discriminate H]
       end.
  all: simpl in H.
  all: rewrite (@AllocateOptimal_tail_valid f f' availableLayers brs optimal
                  a alloc H).
  all: clear H O.
  all: repeat (simpl in Mid; unfold bind in Mid; break_match_hyp Mid);
    try discriminate Mid.
  all: injection Mid as <-; simpl.
  all: repeat match goal with
              | E : match ?m with Ok _ => _ | Abort _ => _ end = Ok _ |- _ =>
                destruct m eqn:?; [simpl in E | discriminate E]
              | E : Ok _ = Ok _ |- _ => injection E as <-
              end; simpl.
  all: repeat match goal with
              | |- context [if ?c then _ else _] => destruct c eqn:?; simpl
              end.
  all: repeat match goal with
              | E : fold_left _ _ _ = _ |- _ =>
                apply request_fold_floor in E
              end.
  all: unfold IsValid, InvalidLayer, InvalidLayerSpatial,
         InvalidLayerTemporal in *; simpl in *.
  all: try lia.
  all: repeat match goal with
              | E : F64.to_int _ (F64.Min (F64.of_int (if ?c then _ else _)) _)
                    = Ok _ |- _ => destruct c eqn:?
              | E : F64.to_int _ (F64.Min _ (F64.of_int (if ?c then _ else _)))
                    = Ok _ |- _ => destruct c eqn:?
              end.
  all: repeat match goal with
              | E : F64.to_int _ (F64.Min _ _) = Ok ?v |- _ =>
                assert (0 <= v)
                  by (eapply to_int_Min_of_nonneg; [ | |exact E]; lia);
                clear E
              end.
  all: lia.
Qed.
(** ** [AllocateNextHigher] *)

(** How a pass of [doAllocation] can end. *)
Lemma doAllocation_outcomes
  (f f1 : Fwd) (capacity : Z) (availableLayers : list Z) (brs : Bitrates)
  (allowOvershoot : bool) (maxLayer maxSeenLayer : VideoLayer)
  (optimal already minSpatial maxSpatial minTemporal maxTemporal : Z)
  (done boosted : bool) (a : VideoAllocation.t) :
  doAllocation f capacity availableLayers brs allowOvershoot maxLayer
    maxSeenLayer optimal already minSpatial maxSpatial minTemporal maxTemporal
  = Ok (done, a, boosted, f1) ->
  (boosted = false /\ f1 = f /\ (done = true -> a = lastAllocation f))
  \/ (done = true /\ boosted = true
      /\ exists s t b,
           at_ brs s t = Ok b /\ b <> 0
           /\ minSpatial <= s <= maxSpatial
           /\ minTemporal <= t <= maxTemporal
           /\ (negb allowOvershoot || negb (IsOvershootOkay (vls f)))
              && (int64 (b - already) >? capacity) = false
           /\ boostTo f availableLayers brs maxLayer maxSeenLayer optimal
                already s t b = Ok (true, a, true, f1)).
Proof.
  unfold doAllocation. intros H.
  match type of H with
  | bind ?m _ = _ => destruct m as [[r|]|] eqn:F; simpl in H;
                     [| |discriminate H]
  end.
  - injection H as ->.
    apply for_first_found in F. destruct F as (s & Hs & F).
    apply for_first_found in F. destruct F as (t & Ht & F).
    apply In_range_up in Hs. apply In_range_up in Ht.
    destruct (at_ brs s t) as [b|] eqn:B; simpl in F; [|discriminate F].
    destruct (b =? 0) eqn:Z; [discriminate F|]. apply Z.eqb_neq in Z.
    destruct ((negb allowOvershoot || negb (IsOvershootOkay (vls f)))
              && (int64 (b - already) >? capacity)) eqn:M.
    + injection F as <- <- <- <-. left. repeat split; reflexivity.
    + destruct (boostTo f availableLayers brs maxLayer maxSeenLayer optimal
                  already s t b) as [r|] eqn:Bo; simpl in F; [|discriminate F].
      injection F as ->.
      assert (D : done = true /\ boosted = true).
      { unfold boostTo in Bo.
        destruct (getDistanceToDesired _ _ _ _ _ _ _); unfold bind in Bo;
          [|discriminate Bo].
        match type of Bo with
        | context [updateAllocation f ?x] => destruct (updateAllocation f x)
        end.
        injection Bo as <- _ <- _. split; reflexivity. }
      destruct D as [-> ->]. right.
      split; [reflexivity|]. split; [reflexivity|].
      exists s, t, b. repeat split; try assumption; try lia.
  - injection H as <- <- <- <-. left. repeat split. discriminate.
Qed.

(** What a boost commits. *)
Lemma boostTo_commits
  (f f1 : Fwd) (availableLayers : list Z) (brs : Bitrates)
  (maxLayer maxSeenLayer : VideoLayer) (optimal already s t b : Z)
  (a : VideoAllocation.t) :
  boostTo f availableLayers brs maxLayer maxSeenLayer optimal already s t b
  = Ok (true, a, true, f1) ->
  exists a0,
    updateAllocation f a0 = (a, f1)
    /\ VideoAllocation.PauseReason a0 = VideoPauseReasonNone
    /\ VideoAllocation.BandwidthRequested a0 = b
    /\ VideoAllocation.BandwidthDelta a0 = int64 (b - already)
    /\ VideoAllocation.BandwidthNeeded a0 = optimal
    /\ VideoAllocation.TargetLayer a0 = mkLayer s t
    /\ VideoAllocation.RequestLayerSpatial a0 = s
    /\ VideoAllocation.IsDeficient a0
       = negb (GreaterThan (mkLayer s t) maxLayer || (b >=? optimal)).
Proof.
  unfold boostTo. intros H.
  destruct (getDistanceToDesired _ _ _ _ _ _ _) as [d|]; unfold bind in H;
    [|discriminate H].
  match type of H with
  | context [updateAllocation f ?x] =>
    exists x; destruct (updateAllocation f x) as [a' f'] eqn:U
  end.
  injection H as -> ->.
  split; [reflexivity|].
  destruct (GreaterThan (mkLayer s t) maxLayer || (b >=? optimal));
    repeat split; reflexivity.
Qed.

(** X4. When [AllocateNextHigher] reports no boost, nothing has changed:
    the forwarder is as it was and the allocation returned is the last
    allocation. *)
Theorem AllocateNextHigher_without_boost_changes_nothing
  (f f' : Fwd) (capacity : Z) (availableLayers : list Z) (brs : Bitrates)
  (allowOvershoot : bool) (alloc : VideoAllocation.t) :
  AllocateNextHigher f capacity availableLayers brs allowOvershoot
  = Ok (alloc, false, f') ->
  f' = f /\ alloc = lastAllocation f.
Proof.
  unfold AllocateNextHigher. intros H.
  assert (O : forall mins maxs mint maxt optimal already d a b g,
            doAllocation f capacity availableLayers brs allowOvershoot
              (GetMax (vls f)) (GetMaxSeen (vls f)) optimal already
              mins maxs mint maxt = Ok (d, a, b, g) ->
            (b = false /\ g = f /\ (d = true -> a = lastAllocation f))
            \/ (d = true /\ b = true)).
  { intros. destruct (doAllocation_outcomes _ _ _ _ _ _ _ _ _ _ _ _ _ H0)
      as [L|(D & B & _)]; [left; exact L|right; split; assumption]. }
  assert (N : forall d a b g,
            Ok (false, VideoAllocation.zero_value, false, f)
            = Ok (d, a, b, g) ->
            (b = false /\ g = f /\ (d = true -> a = lastAllocation f))
            \/ (d = true /\ b = true)).
  { intros d a b g Q. injection Q as <- <- <- <-. left.
    repeat split. discriminate. }
  destruct (kind f).
  all: try (injection H as <- <-; split; reflexivity).
  all: destruct (negb (isDeficientLocked f));
    [injection H as <- <-; split; reflexivity|].
  all: destruct (IsValid (GetTarget (vls f))
                 && negb (VideoLayer_eqb (GetTarget (vls f))
                            (GetCurrent (vls f))));
    [injection H as <- <-; split; reflexivity|].
  all: destruct (getOptimalBandwidthNeeded _ _ _ _ _) as [optimal|];
    simpl in H; [|discriminate H].
  all: match type of H with
       | bind ?m _ = _ => destruct m as [already|]; simpl in H;
                          [|discriminate H]
       end.
  all: unfold bind in H.
  all: repeat
         (match type of H with
          | match ?r with Ok _ => _ | Abort _ => _ end = _ =>
            let R := fresh "R" in
            let d := fresh "d" in
            let a := fresh "a" in
            let b := fresh "b" in
            let g := fresh "g" in
            destruct r as [[[[d a] b] g]|] eqn:R; [|discriminate H];
            cbv beta iota delta [bind] in H;
            assert (b = false /\ g = f /\ (d = true -> a = lastAllocation f)
                    \/ (d = true /\ b = true))
              by (revert R;
                  repeat match goal with
                         | |- (if ?c then _ else _) = _ -> _ => destruct c
                         end; first [apply O | apply N]);
            clear R;
            destruct d;
            [injection H as <- -> <-;
             match goal with
             | Q : _ \/ _ |- _ =>
               destruct Q as [(_ & -> & Q)|(_ & Q)];
               [split; [reflexivity|apply Q; reflexivity]|discriminate Q]
             end|]
          end).
  all: injection H as <- <-; split; reflexivity.
Qed.
Lemma at_in_bounds (brs : Bitrates) (s t b : Z) :
  at_ brs s t = Ok b -> in_bounds s t = true /\ b = cell brs s t.
Proof.
  unfold at_. destruct (in_bounds s t); [|discriminate].
  intros H. injection H as <-. split; reflexivity.
Qed.

(** What a boost of [AllocateNextHigher] has found and committed. *)
Lemma AllocateNextHigher_boosted
  (f f' : Fwd) (capacity : Z) (availableLayers : list Z) (brs : Bitrates)
  (allowOvershoot : bool) (alloc : VideoAllocation.t) :
  AllocateNextHigher f capacity availableLayers brs allowOvershoot
  = Ok (alloc, true, f') ->
  isDeficientLocked f = true
  /\ exists s t b already a0,
       at_ brs s t = Ok b /\ b <> 0
       /\ (negb allowOvershoot || negb (IsOvershootOkay (vls f)))
          && (int64 (b - already) >? capacity) = false
       /\ updateAllocation f a0 = (alloc, f')
       /\ VideoAllocation.PauseReason a0 = VideoPauseReasonNone
       /\ VideoAllocation.BandwidthRequested a0 = b
       /\ VideoAllocation.BandwidthDelta a0 = int64 (b - already)
       /\ VideoAllocation.TargetLayer a0 = mkLayer s t
       /\ VideoAllocation.RequestLayerSpatial a0 = s.
Proof.
  unfold AllocateNextHigher. intros H.
  set (Facts := fun (a : VideoAllocation.t) (g : Fwd) =>
    exists s t b already a0,
      at_ brs s t = Ok b /\ b <> 0
      /\ (negb allowOvershoot || negb (IsOvershootOkay (vls f)))
         && (int64 (b - already) >? capacity) = false
      /\ updateAllocation f a0 = (a, g)
      /\ VideoAllocation.PauseReason a0 = VideoPauseReasonNone
      /\ VideoAllocation.BandwidthRequested a0 = b
      /\ VideoAllocation.BandwidthDelta a0 = int64 (b - already)
      /\ VideoAllocation.TargetLayer a0 = mkLayer s t
      /\ VideoAllocation.RequestLayerSpatial a0 = s).
  assert (O : forall mins maxs mint maxt optimal already d a b g,
            doAllocation f capacity availableLayers brs allowOvershoot
              (GetMax (vls f)) (GetMaxSeen (vls f)) optimal already
              mins maxs mint maxt = Ok (d, a, b, g) ->
            b = false \/ Facts a g).
  { intros mins maxs mint maxt optimal already d a b g D.
    destruct (doAllocation_outcomes _ _ _ _ _ _ _ _ _ _ _ _ _ D)
      as [(L & _)|(_ & _ & s & t & bw & B & NZ & _ & _ & Fit & Bo)];
      [left; exact L|right].
    apply boostTo_commits in Bo.
    destruct Bo as (a0 & U & A1 & A2 & A3 & _ & A5 & A6 & _).
    exists s, t, bw, already, a0. repeat split; assumption. }
  assert (N : forall d a b g,
            Ok (false, VideoAllocation.zero_value, false, f)
            = Ok (d, a, b, g) -> b = false \/ Facts a g).
  { intros d a b g Q. injection Q as <- <- <- <-. left. reflexivity. }
  destruct (kind f).
  all: try discriminate H.
  all: destruct (isDeficientLocked f); simpl in H; [|discriminate H].
  all: split; [reflexivity|].
  all: destruct (IsValid (GetTarget (vls f))
                 && negb (VideoLayer_eqb (GetTarget (vls f))
                            (GetCurrent (vls f))));
    [discriminate H|].
  all: destruct (getOptimalBandwidthNeeded _ _ _ _ _) as [optimal|];
    simpl in H; [|discriminate H].
  all: match type of H with
       | bind ?m _ = _ => destruct m as [already|]; simpl in H;
                          [|discriminate H]
       end.
  all: unfold bind in H.
  all: repeat
         (match type of H with
          | match ?r with Ok _ => _ | Abort _ => _ end = _ =>
            let R := fresh "R" in
            let d := fresh "d" in
            let a := fresh "a" in
            let b := fresh "b" in
            let g := fresh "g" in
            destruct r as [[[[d a] b] g]|] eqn:R; [|discriminate H];
            cbv beta iota delta [bind] in H;
            assert (b = false \/ Facts a g)
              by (revert R;
                  repeat match goal with
                         | |- (if ?c then _ else _) = _ -> _ => destruct c
                         end; first [apply O | apply N]);
            clear R;
            destruct d;
            [injection H as <- -> <-;
             match goal with
             | Q : _ \/ _ |- _ =>
               destruct Q as [Q|Q]; [discriminate Q|exact Q]
             end|]
          end).
  all: discriminate H.
Qed.

(** X5. When [AllocateNextHigher] reports a boost, the forwarder was
    deficient; the allocation returned is recorded as the last allocation,
    is not paused, has a valid target and requests the non-zero bitrate of
    a measured layer of the target's spatial layer; and unless overshoot
    is both allowed and permitted by the selector, the extra bandwidth it
    takes is within the available channel capacity. *)
Theorem AllocateNextHigher_boost_fits
  (f f' : Fwd) (capacity : Z) (availableLayers : list Z) (brs : Bitrates)
  (allowOvershoot : bool) (alloc : VideoAllocation.t) :
  AllocateNextHigher f capacity availableLayers brs allowOvershoot
  = Ok (alloc, true, f') ->
  isDeficientLocked f = true
  /\ lastAllocation f' = alloc
  /\ VideoAllocation.PauseReason alloc = VideoPauseReasonNone
  /\ IsValid (VideoAllocation.TargetLayer alloc) = true
  /\ VideoAllocation.BandwidthRequested alloc <> 0
  /\ (exists t,
        at_ brs (Spatial (VideoAllocation.TargetLayer alloc)) t
        = Ok (VideoAllocation.BandwidthRequested alloc))
  /\ (allowOvershoot && IsOvershootOkay (vls f) = false ->
      VideoAllocation.BandwidthDelta alloc <= capacity).
Proof.
  intros H. apply AllocateNextHigher_boosted in H.
  destruct H as (D & s & t & bw & already & a0 & B & NZ & Fit & U
                 & A1 & A2 & A3 & A5 & _).
  split; [exact D|].
  pose proof (updateAllocation_keeps f a0) as Kp.
  pose proof (updateAllocation_lastAllocation f a0) as L.
  rewrite U in Kp, L. simpl in Kp, L.
  destruct Kp as (K1 & _ & K3 & K4 & _ & _ & _ & K8 & K9 & _).
  destruct (at_in_bounds _ _ _ B) as [Bd _].
  apply in_bounds_elim in Bd.
  rewrite K1, K3, K4, K8, K9, A1, A2, A3, A5.
  split; [exact L|]. split; [reflexivity|].
  split; [unfold IsValid; simpl; lia|].
  split; [exact NZ|].
  split; [exists t; exact B|].
  intros Ov. destruct allowOvershoot; destruct (IsOvershootOkay (vls f));
    simpl in Fit, Ov; try discriminate Ov; lia.
Qed.
(** ** The cooperative allocation *)

(** X6. A probe of [ProvisionalAllocate] that is refused consumes nothing
    and leaves the forwarder as it was.  A probe that is accepted commits
    exactly the probed layer to the workspace, only when nothing is muted
    and the maximum is valid, only for a layer with a non-zero bitrate,
    and consumes that bitrate less the bitrate of the layer committed
    before; when pausing is allowed the layer is not above the maximum
    and fits the capacity offered. *)
Theorem ProvisionalAllocate_accounting
  (f f' : Fwd) (p : VideoAllocationProvisional.t) (capacity : Z)
  (layer : VideoLayer) (allowPause allowOvershoot ok : bool) (used : Z) :
  provisional f = Some p ->
  ProvisionalAllocate f capacity layer allowPause allowOvershoot
  = Ok (ok, used, f') ->
  (ok = false -> used = 0 /\ f' = f)
  /\ (ok = true ->
      f' = set_allocatedLayer f p layer
      /\ VideoAllocationProvisional.muted p = false
      /\ VideoAllocationProvisional.pubMuted p = false
      /\ IsValid (VideoAllocationProvisional.maxLayer p) = true
      /\ exists b already,
           at_layer (VideoAllocationProvisional.bitrates p) layer = Ok b
           /\ b <> 0
           /\ (if IsValid (VideoAllocationProvisional.allocatedLayer p)
               then at_layer (VideoAllocationProvisional.bitrates p)
                      (VideoAllocationProvisional.allocatedLayer p)
               else Ok 0) = Ok already
           /\ used = int64 (b - already)
           /\ (allowPause = true ->
               GreaterThan layer (VideoAllocationProvisional.maxLayer p)
               = false
               /\ b <= int64 (capacity + already))).
Proof.
  intros P H. unfold ProvisionalAllocate, the_provisional in H.
  rewrite P in H. cbv beta iota delta [bind] in H.
  destruct (VideoAllocationProvisional.muted p) eqn:M;
    [injection H as <- <- <-; split; [split; reflexivity|discriminate]|].
  destruct (VideoAllocationProvisional.pubMuted p) eqn:PM;
    [injection H as <- <- <-; split; [split; reflexivity|discriminate]|].
  destruct (Spatial (VideoAllocationProvisional.maxSeenLayer p)
            =? InvalidLayerSpatial);
    [injection H as <- <- <-; split; [split; reflexivity|discriminate]|].
  destruct (IsValid (VideoAllocationProvisional.maxLayer p)) eqn:V;
    [|injection H as <- <- <-; split; [split; reflexivity|discriminate]].
  simpl in H.
  destruct ((negb allowOvershoot || negb (IsOvershootOkay (vls f)))
            && GreaterThan layer (VideoAllocationProvisional.maxLayer p));
    [injection H as <- <- <-; split; [split; reflexivity|discriminate]|].
  destruct (at_layer (VideoAllocationProvisional.bitrates p) layer)
    as [b|] eqn:B; [|discriminate H].
  destruct (b =? 0) eqn:NZ;
    [injection H as <- <- <-; split; [split; reflexivity|discriminate]|].
  apply Z.eqb_neq in NZ.
  match type of H with
  | match ?m with Ok _ => _ | Abort _ => _ end = _ =>
    destruct m as [already|] eqn:A; [|discriminate H]
  end.
  destruct (negb (GreaterThan layer (VideoAllocationProvisional.maxLayer p))
            && (b <=? int64 (capacity + already))) eqn:Fit.
  - injection H as <- <- <-. split; [discriminate|]. intros _.
    repeat split. exists b, already. repeat split; try assumption.
    + destruct (GreaterThan _ _); [discriminate Fit|reflexivity].
    + lia.
  - destruct allowPause; simpl in H.
    + injection H as <- <- <-. split; [split; reflexivity|discriminate].
    + destruct (negb (IsValid (VideoAllocationProvisional.allocatedLayer p))
                || negb (GreaterThan layer
                           (VideoAllocationProvisional.allocatedLayer p))).
      * injection H as <- <- <-. split; [discriminate|]. intros _.
        repeat split. exists b, already. repeat split; try assumption.
        all: discriminate.
      * injection H as <- <- <-. split; [split; reflexivity|discriminate].
Qed.

(** X7. [ProvisionalAllocateCommit] records the allocation it returns and
    asks for the optimal bandwidth as [BandwidthNeeded].  It marks the
    stream deficient only when nothing is muted, some bandwidth is needed,
    the committed layer is not above the maximum and the bandwidth
    requested is short of the optimal; it gives Bandwidth as the pause
    reason exactly when the stream is deficient without a valid target;
    Muted and PubMuted follow the mute flags of the workspace; and a dry
    feed requests nothing. *)
Theorem ProvisionalAllocateCommit_deficiency
  (f f' : Fwd) (p : VideoAllocationProvisional.t)
  (alloc : VideoAllocation.t) :
  provisional f = Some p ->
  ProvisionalAllocateCommit f = Ok (alloc, f') ->
  lastAllocation f' = alloc
  /\ getOptimalBandwidthNeeded (VideoAllocationProvisional.muted p)
       (VideoAllocationProvisional.pubMuted p)
       (Spatial (VideoAllocationProvisional.maxSeenLayer p))
       (VideoAllocationProvisional.bitrates p)
       (VideoAllocationProvisional.maxLayer p)
     = Ok (VideoAllocation.BandwidthNeeded alloc)
  /\ (VideoAllocation.IsDeficient alloc = true ->
      VideoAllocationProvisional.muted p = false
      /\ VideoAllocationProvisional.pubMuted p = false
      /\ VideoAllocation.BandwidthNeeded alloc <> 0
      /\ VideoAllocation.BandwidthRequested alloc
         < VideoAllocation.BandwidthNeeded alloc
      /\ GreaterThan (VideoAllocationProvisional.allocatedLayer p)
           (VideoAllocationProvisional.maxLayer p) = false)
  /\ (VideoAllocation.PauseReason alloc = VideoPauseReasonBandwidth
      <-> VideoAllocation.IsDeficient alloc = true
          /\ IsValid (VideoAllocation.TargetLayer alloc) = false)
  /\ (VideoAllocation.PauseReason alloc = VideoPauseReasonMuted
      <-> VideoAllocationProvisional.muted p = true)
  /\ (VideoAllocation.PauseReason alloc = VideoPauseReasonPubMuted
      <-> VideoAllocationProvisional.muted p = false
          /\ VideoAllocationProvisional.pubMuted p = true)
  /\ (VideoAllocation.PauseReason alloc = VideoPauseReasonFeedDry ->
      VideoAllocation.BandwidthNeeded alloc = 0
      /\ VideoAllocation.BandwidthRequested alloc = 0
      /\ IsValid (VideoAllocationProvisional.allocatedLayer p) = false).
Proof.
  intros P H. unfold ProvisionalAllocateCommit, the_provisional in H.
  rewrite P in H. cbv beta iota delta [bind] in H.
  destruct (getOptimalBandwidthNeeded (VideoAllocationProvisional.muted p)
              (VideoAllocationProvisional.pubMuted p)
              (Spatial (VideoAllocationProvisional.maxSeenLayer p))
              (VideoAllocationProvisional.bitrates p)
              (VideoAllocationProvisional.maxLayer p))
    as [optimal|] eqn:O; [|discriminate H].
  assert (M : VideoAllocationProvisional.muted p
              || VideoAllocationProvisional.pubMuted p = true -> optimal = 0).
  { intros M. rewrite (getOptimalBandwidthNeeded_muted _ _ _ _ _ M) in O.
    congruence. }
  destruct (getBandwidthNeeded (VideoAllocationProvisional.bitrates p)
              (GetTarget (vls f))
              (VideoAllocation.BandwidthRequested (lastAllocation f)))
    as [existing|]; [|discriminate H].
  destruct (getDistanceToDesired _ _ _ _ _ _ _) as [distance|];
    [|discriminate H].
  match type of H with
  | match ?m with Ok _ => _ | Abort _ => _ end = _ =>
    destruct m as [[a g]|] eqn:Mid; [|discriminate H]
  end.
  pose proof (updateAllocation_keeps g a) as Kp.
  pose proof (updateAllocation_lastAllocation g a) as L.
  destruct (updateAllocation g a) as [a' g'] eqn:U.
  injection H as -> ->. simpl in Kp, L.
  destruct Kp as (K1 & K2 & K3 & K4 & K5 & K6 & K7 & K8 & K9 & K10).
  rewrite K1, K2, K3, K5, K9. clear K1 K2 K3 K4 K5 K6 K7 K8 K9 K10 U.
  split; [exact L|]. clear L.
  revert Mid.
  destruct (VideoAllocationProvisional.muted p) eqn:Mu;
    [|destruct (VideoAllocationProvisional.pubMuted p) eqn:Pm];
    try specialize (M eq_refl); try subst optimal.
  1, 2: intros Mid; injection Mid as <- <-; simpl; settle.
  destruct (optimal =? 0) eqn:Oz.
  - apply Z.eqb_eq in Oz. subst optimal.
    destruct (IsValid (VideoAllocationProvisional.allocatedLayer p)) eqn:V.
    + destruct (at_layer _ _) as [b|]; cbv beta iota delta [bind];
        [|discriminate].
      intros Mid; injection Mid as <- <-; simpl. rewrite V. settle.
    + destruct (IsValid (VideoAllocationProvisional.currentLayer p)
                && (Spatial (VideoAllocationProvisional.currentLayer p)
                    <=? Spatial (VideoAllocationProvisional.maxLayer p)));
        intros Mid; injection Mid as <- <-; simpl; settle.
  - apply Z.eqb_neq in Oz.
    destruct (IsValid (VideoAllocationProvisional.allocatedLayer p)) eqn:V.
    + destruct (at_layer _ _) as [b|]; cbv beta iota delta [bind];
        [|discriminate].
      simpl.
      destruct (GreaterThan (VideoAllocationProvisional.allocatedLayer p)
                  (VideoAllocationProvisional.maxLayer p)) eqn:G.
      * intros Mid; injection Mid as <- <-; simpl. rewrite V. settle.
      * destruct (b >=? optimal) eqn:Ge; simpl;
          intros Mid; injection Mid as <- <-; simpl; rewrite V; settle.
        lia.
    + cbv beta iota delta [bind]. simpl.
      destruct (GreaterThan (VideoAllocationProvisional.allocatedLayer p)
                  (VideoAllocationProvisional.maxLayer p)) eqn:G.
      * intros Mid; injection Mid as <- <-; simpl. rewrite V. settle.
      * destruct (0 >=? optimal) eqn:Ge; simpl;
          intros Mid; injection Mid as <- <-; simpl; rewrite V; settle.
        lia.
Qed.

(** What an accepted probe has checked. *)
Lemma ProvisionalAllocate_accepted
  (f f' : Fwd) (p : VideoAllocationProvisional.t) (capacity : Z)
  (layer : VideoLayer) (allowPause allowOvershoot : bool) (used : Z) :
  provisional f = Some p ->
  ProvisionalAllocate f capacity layer allowPause allowOvershoot
  = Ok (true, used, f') ->
  f' = set_allocatedLayer f p layer
  /\ VideoAllocationProvisional.muted p = false
  /\ VideoAllocationProvisional.pubMuted p = false
  /\ exists b,
       at_layer (VideoAllocationProvisional.bitrates p) layer = Ok b
       /\ b <> 0.
Proof.
  intros P H. unfold ProvisionalAllocate, the_provisional in H.
  rewrite P in H. cbv beta iota delta [bind] in H.
  destruct (VideoAllocationProvisional.muted p); [discriminate H|].
  destruct (VideoAllocationProvisional.pubMuted p); [discriminate H|].
  match type of H with
  | (if ?c then _ else _) = _ => destruct c; [discriminate H|]
  end.
  destruct (at_layer (VideoAllocationProvisional.bitrates p) layer)
    as [b|] eqn:B; [|discriminate H].
  destruct (b =? 0) eqn:NZ; [discriminate H|].
  apply Z.eqb_neq in NZ.
  assert (E : f' = set_allocatedLayer f p layer).
  { repeat match type of H with
           | match ?m with Ok _ => _ | Abort _ => _ end = _ =>
             destruct m; [|discriminate H]
           | (if ?c then _ else _) = _ => destruct c
           end;
      first [discriminate H | injection H as _ <-; reflexivity]. }
  split; [exact E|]. split; [reflexivity|]. split; [reflexivity|].
  exists b. split; [reflexivity | exact NZ].
Qed.

(** What [ProvisionalAllocateCommit] makes of a valid committed layer
    when nothing is muted. *)
Lemma ProvisionalAllocateCommit_of_layer
  (f f' : Fwd) (p : VideoAllocationProvisional.t)
  (alloc : VideoAllocation.t) :
  provisional f = Some p ->
  VideoAllocationProvisional.muted p = false ->
  VideoAllocationProvisional.pubMuted p = false ->
  IsValid (VideoAllocationProvisional.allocatedLayer p) = true ->
  ProvisionalAllocateCommit f = Ok (alloc, f') ->
  VideoAllocation.PauseReason alloc = VideoPauseReasonNone
  /\ at_layer (VideoAllocationProvisional.bitrates p)
       (VideoAllocationProvisional.allocatedLayer p)
     = Ok (VideoAllocation.BandwidthRequested alloc)
  /\ Spatial (VideoAllocation.TargetLayer alloc)
     = Spatial (VideoAllocationProvisional.allocatedLayer p)
  /\ VideoAllocation.RequestLayerSpatial alloc
     = Spatial (VideoAllocationProvisional.allocatedLayer p)
  /\ IsValid (VideoAllocation.TargetLayer alloc) = true
  /\ (VideoAllocation.IsDeficient alloc = true
      <-> VideoAllocation.BandwidthNeeded alloc <> 0
          /\ GreaterThan (VideoAllocationProvisional.allocatedLayer p)
               (VideoAllocationProvisional.maxLayer p) = false
          /\ VideoAllocation.BandwidthRequested alloc
             < VideoAllocation.BandwidthNeeded alloc).
Proof.
  intros P Mu Pm V H. unfold ProvisionalAllocateCommit, the_provisional in H.
  rewrite P in H. cbv beta iota delta [bind] in H.
  rewrite Mu, Pm, V in H.
  destruct (getOptimalBandwidthNeeded false false
              (Spatial (VideoAllocationProvisional.maxSeenLayer p))
              (VideoAllocationProvisional.bitrates p)
              (VideoAllocationProvisional.maxLayer p))
    as [optimal|] eqn:O; [|discriminate H].
  destruct (getBandwidthNeeded (VideoAllocationProvisional.bitrates p)
              (GetTarget (vls f))
              (VideoAllocation.BandwidthRequested (lastAllocation f)))
    as [existing|]; [|discriminate H].
  destruct (getDistanceToDesired _ _ _ _ _ _ _) as [distance|];
    [|discriminate H].
  match type of H with
  | match ?m with Ok _ => _ | Abort _ => _ end = _ =>
    destruct m as [[a g]|] eqn:Mid; [|discriminate H]
  end.
  pose proof (updateAllocation_keeps g a) as Kp.
  destruct (updateAllocation g a) as [a' g'] eqn:U.
  injection H as -> ->. simpl in Kp.
  destruct Kp as (K1 & K2 & K3 & K4 & K5 & K6 & K7 & K8 & K9 & K10).
  rewrite K1, K2, K3, K5, K6, K8, K9.
  clear K1 K2 K3 K4 K5 K6 K7 K8 K9 K10 U.
  revert Mid.
  destruct (at_layer _ _) as [b|]; cbv beta iota delta [bind];
    [|destruct (optimal =? 0); discriminate].
  destruct (optimal =? 0) eqn:Oz.
  - apply Z.eqb_eq in Oz. subst optimal.
    intros Mid; injection Mid as <- <-; simpl. rewrite V. settle.
  - apply Z.eqb_neq in Oz. simpl.
    destruct (GreaterThan (VideoAllocationProvisional.allocatedLayer p)
                (VideoAllocationProvisional.maxLayer p)) eqn:G.
    + intros Mid; injection Mid as <- <-; simpl. rewrite V. settle.
    + destruct (b >=? optimal) eqn:Ge; simpl;
        intros Mid; injection Mid as <- <-; simpl; rewrite V; settle; lia.
Qed.

(** X8. A probe that [ProvisionalAllocate] accepts, committed with
    [ProvisionalAllocateCommit], becomes an allocation that is not paused,
    targets the spatial layer probed and requests the bitrate of the layer
    probed, which is not zero; it is deficient exactly when some bandwidth
    is needed, the layer is not above the maximum and its bitrate is short
    of the optimal. *)
Theorem accepted_probe_is_committed
  (f f1 f2 : Fwd) (p : VideoAllocationProvisional.t) (capacity : Z)
  (layer : VideoLayer) (allowPause allowOvershoot : bool) (used : Z)
  (alloc : VideoAllocation.t) :
  provisional f = Some p ->
  ProvisionalAllocate f capacity layer allowPause allowOvershoot
  = Ok (true, used, f1) ->
  ProvisionalAllocateCommit f1 = Ok (alloc, f2) ->
  VideoAllocation.PauseReason alloc = VideoPauseReasonNone
  /\ at_layer (VideoAllocationProvisional.bitrates p) layer
     = Ok (VideoAllocation.BandwidthRequested alloc)
  /\ VideoAllocation.BandwidthRequested alloc <> 0
  /\ Spatial (VideoAllocation.TargetLayer alloc) = Spatial layer
  /\ VideoAllocation.RequestLayerSpatial alloc = Spatial layer
  /\ IsValid (VideoAllocation.TargetLayer alloc) = true
  /\ (VideoAllocation.IsDeficient alloc = true
      <-> VideoAllocation.BandwidthNeeded alloc <> 0
          /\ GreaterThan layer (VideoAllocationProvisional.maxLayer p) = false
          /\ VideoAllocation.BandwidthRequested alloc
             < VideoAllocation.BandwidthNeeded alloc).
Proof.
  intros P A C.
  destruct (ProvisionalAllocate_accepted _ _ _ _ _ P A)
    as (-> & Mu & Pm & b & B & NZ).
  assert (V : IsValid layer = true).
  { unfold at_layer in B. apply at_in_bounds in B. destruct B as [B _].
    apply in_bounds_elim in B. unfold IsValid. lia. }
  pose proof (@ProvisionalAllocateCommit_of_layer
                (set_allocatedLayer f p layer) f2
                (VideoAllocationProvisional.with_allocatedLayer p layer)
                alloc eq_refl) as Q.
  destruct p as [m pm seen al brs mx cur allocd]. simpl in *.
  destruct (Q Mu Pm V C) as (Q1 & Q2 & Q3 & Q4 & Q5 & Q6).
  split; [exact Q1|]. split; [exact Q2|].
  split; [congruence|]. split; [exact Q3|]. split; [exact Q4|].
  split; [exact Q5 | exact Q6].
Qed.

(** ** The transitions offered to the cooperative allocator *)

(** The weighted search only ever proposes a layer strictly below the
    target. *)
Lemma weighted_search_below (brs : Bitrates) (targetLayer : VideoLayer)
  (reachable existing : Z) (l : VideoLayer) (d : Z) (v : F32.t) :
  weighted_search brs targetLayer reachable existing = Ok (l, d, v) ->
  l = InvalidLayer
  \/ (IsValid l = true /\ GreaterThan targetLayer l = true).
Proof.
  set (P := fun acc : best =>
              let '(l, _, _) := acc in
              l = InvalidLayer
              \/ (0 <= Spatial l <= Spatial targetLayer
                  /\ 0 <= Temporal l <= Temporal targetLayer
                  /\ (Spatial l < Spatial targetLayer
                      \/ Temporal l < Temporal targetLayer))).
  intros H.
  assert (Q : P (l, d, v)).
  { revert H. unfold weighted_search.
    apply (for_loop_invariant P).
    - intros s a r Hs Pa Hr.
      destruct (for_loop _ _ a) as [a1|] eqn:Inner; simpl in Hr;
        [|discriminate].
      inversion Hr; subst r; clear Hr.
      apply In_range_up in Hs.
      revert Inner. apply (for_loop_invariant P); [|exact Pa].
      intros t a2 r Ht Pa2 Hr.
      apply In_range_up in Ht.
      destruct ((s =? Spatial targetLayer) && (t =? Temporal targetLayer))
        eqn:E.
      + inversion Hr; subst. exact Pa2.
      + destruct (weigh_candidate _ _ _ _ _ _ a2) as [a3|] eqn:W;
          simpl in Hr; [|discriminate].
        inversion Hr; subst r. clear Hr.
        unfold weigh_candidate in W. destruct a2 as [[bl bd] bv].
        destruct (at_ brs s t); simpl in W; [|discriminate].
        destruct (F64.to_int 64 _); simpl in W; [|discriminate].
        match type of W with
        | (if ?c then _ else _) = _ => destruct c
        end; inversion W; subst; [|exact Pa2].
        simpl. right. simpl. lia.
    - simpl. left. reflexivity. }
  simpl in Q. destruct Q as [Q|Q]; [left; exact Q|right].
  unfold IsValid, GreaterThan. lia.
Qed.

(** X9. The transition that
    [ProvisionalAllocateGetBestWeightedTransition] offers is committed to
    the workspace as it is offered, and the layers and bitrates returned
    are those of the workspace.  Unless the feed is dry, a transition from
    a valid target goes strictly down or to no layer at all. *)
Theorem best_weighted_transition_moves_down
  (f f' : Fwd) (p : VideoAllocationProvisional.t) (tr : VideoTransition.t)
  (al : list Z) (brs' : Bitrates) :
  provisional f = Some p ->
  ProvisionalAllocateGetBestWeightedTransition f = Ok (tr, al, brs', f') ->
  f' = set_allocatedLayer f p (VideoTransition.To tr)
  /\ al = VideoAllocationProvisional.availableLayers p
  /\ brs' = VideoAllocationProvisional.bitrates p
  /\ VideoTransition.From tr = GetTarget (vls f)
  /\ (VideoAllocationProvisional.muted p
      || VideoAllocationProvisional.pubMuted p = true ->
      VideoTransition.To tr = InvalidLayer)
  /\ (maxReachableLayerTemporal (VideoAllocationProvisional.bitrates p)
        (VideoAllocationProvisional.maxLayer p) <> Ok None ->
      VideoTransition.To tr = InvalidLayer
      \/ (IsValid (VideoTransition.To tr) = true
          /\ GreaterThan (VideoTransition.From tr) (VideoTransition.To tr)
             = true)).
Proof.
  intros P H.
  unfold ProvisionalAllocateGetBestWeightedTransition, the_provisional in H.
  rewrite P in H. cbv beta iota delta [bind] in H.
  destruct (VideoAllocationProvisional.muted p
            || VideoAllocationProvisional.pubMuted p) eqn:M.
  - destruct (getBandwidthNeeded _ _ _); [|discriminate H].
    injection H as <- <- <- <-. simpl.
    repeat split. intros _. left. reflexivity.
  - destruct (maxReachableLayerTemporal _ _) as [[r|]|] eqn:R;
      [| |discriminate H].
    + destruct (getBandwidthNeeded _ _ _) as [existing|]; [|discriminate H].
      destruct (weighted_search _ _ _ _) as [[[l d] v]|] eqn:W;
        [|discriminate H].
      injection H as <- <- <- <-. simpl.
      repeat split; [discriminate|].
      intros _. exact (weighted_search_below _ _ _ _ W).
    + destruct (getBandwidthNeeded _ _ _); [|discriminate H].
      injection H as <- <- <- <-. simpl.
      repeat split; [discriminate|]. intros C. contradiction C. reflexivity.
Qed.

(** X10. The transition that
    [ProvisionalAllocateGetCooperativeTransition] offers starts at the
    target of the selector and is committed to the workspace as it is
    offered.  It goes to no layer when the workspace is muted; a valid
    layer it goes to either has a non-zero bitrate or is the current layer
    of the workspace, kept for opportunistic forwarding. *)
Theorem cooperative_transition_is_committed
  (f f' : Fwd) (p : VideoAllocationProvisional.t) (allowOvershoot : bool)
  (tr : VideoTransition.t) (al : list Z) (brs' : Bitrates) :
  provisional f = Some p ->
  ProvisionalAllocateGetCooperativeTransition f allowOvershoot
  = Ok (tr, al, brs', f') ->
  f' = set_allocatedLayer f p (VideoTransition.To tr)
  /\ al = VideoAllocationProvisional.availableLayers p
  /\ brs' = VideoAllocationProvisional.bitrates p
  /\ VideoTransition.From tr = GetTarget (vls f)
  /\ (VideoAllocationProvisional.muted p
      || VideoAllocationProvisional.pubMuted p = true ->
      VideoTransition.To tr = InvalidLayer)
  /\ (IsValid (VideoTransition.To tr) = true ->
      (exists b,
         at_layer (VideoAllocationProvisional.bitrates p)
           (VideoTransition.To tr) = Ok b /\ b <> 0)
      \/ VideoTransition.To tr = VideoAllocationProvisional.currentLayer p).
Proof.
  intros P H.
  unfold ProvisionalAllocateGetCooperativeTransition, the_provisional in H.
  rewrite P in H. cbv beta iota delta [bind] in H.
  destruct (VideoAllocationProvisional.muted p
            || VideoAllocationProvisional.pubMuted p) eqn:M.
  - destruct (getBandwidthNeeded _ _ _); [|discriminate H].
    injection H as <- <- <- <-. simpl.
    repeat split. intros V. discriminate V.
  - match type of H with
    | match ?m with Ok _ => _ | Abort _ => _ end = _ =>
      destruct m as [[early|]|] eqn:E; [| |discriminate H]
    end.
    + injection H as ->.
      destruct (IsValid (GetTarget (vls f))) eqn:V; [|discriminate E].
      destruct (first_nonzero_layer _ _ _) as [[[ml mb]|]|] eqn:F;
        [| |discriminate E].
      * destruct (IsValid ml); [|discriminate E].
        match type of E with
        | match ?m with Ok _ => _ | Abort _ => _ end = _ =>
          destruct m as [[|]|] eqn:S; [| |discriminate E]
        end.
        -- injection E as <- <- <- <-. simpl.
           repeat split; [discriminate|].
           intros _. left.
           destruct (negb (GreaterThan (GetTarget (vls f)) ml));
             [|discriminate S].
           destruct (at_layer _ _) as [b|]; [|discriminate S].
           exists b. split; [reflexivity|].
           injection S as S. destruct (b =? 0) eqn:Bz; [discriminate S|].
           apply Z.eqb_neq. exact Bz.
        -- destruct (GreaterThan (GetTarget (vls f)) ml); [|discriminate E].
           destruct (getBandwidthNeeded _ _ _); [|discriminate E].
           injection E as <- <- <- <-. simpl.
           repeat split; [discriminate|].
           intros _. left.
           destruct (first_nonzero_layer_found _ _ _ F) as (_ & _ & B & NZ).
           exists mb. split; assumption.
      * simpl in E. discriminate E.
    + clear E.
      match type of H with
      | match ?m with Ok _ => _ | Abort _ => _ end = _ =>
        destruct m as [[tl bw]|] eqn:T1; [|discriminate H]
      end.
      assert (A : IsValid tl = true ->
                  exists b,
                    at_layer (VideoAllocationProvisional.bitrates p) tl = Ok b
                    /\ b <> 0).
      { clear H. intros V.
        assert (N : forall sp tp r,
                  match first_nonzero_layer
                          (VideoAllocationProvisional.bitrates p) sp tp with
                  | Ok (Some hit) => Ok hit
                  | Ok None => Ok (InvalidLayer, 0)
                  | Abort w => Abort w
                  end = Ok (tl, r) ->
                  exists b,
                    at_layer (VideoAllocationProvisional.bitrates p) tl = Ok b
                    /\ b <> 0).
        { intros sp tp r N.
          destruct (first_nonzero_layer _ sp tp) as [[[l b]|]|] eqn:F;
            [| |discriminate N].
          - injection N as -> ->.
            destruct (first_nonzero_layer_found _ _ _ F) as (_ & _ & B & NZ).
            exists r. split; assumption.
          - injection N as <- _. discriminate V. }
        destruct (negb (IsValid (GetTarget (vls f))));
          [|injection T1 as <- _; discriminate V].
        match type of T1 with
        | match ?m with Ok _ => _ | Abort _ => _ end = _ =>
          destruct m as [[tl0 bw0]|] eqn:T0; [|discriminate T1]
        end.
        match type of T1 with
        | (if ?c then _ else _) = _ => destruct c
        end.
        - exact (N _ _ _ T1).
        - injection T1 as -> ->. exact (N _ _ _ T0). }
      destruct (IsValid tl) eqn:V; simpl in H.
      * destruct (getBandwidthNeeded _ _ _); [|discriminate H].
        injection H as <- <- <- <-. simpl.
        repeat split; [discriminate|].
        intros _. left. apply A. reflexivity.
      * destruct (IsValid (VideoAllocationProvisional.currentLayer p)).
        -- destruct (at_layer _ _); [|discriminate H].
           destruct (getBandwidthNeeded _ _ _); [|discriminate H].
           injection H as <- <- <- <-. simpl.
           repeat split; [discriminate|].
           intros _. right. reflexivity.
        -- destruct (getBandwidthNeeded _ _ _); [|discriminate H].
           injection H as <- <- <- <-. simpl.
           repeat split; [discriminate|].
           intros _. right. reflexivity.
Qed.


(** ** The preview of the next higher layer *)

Lemma VideoLayer_eqb_eq (a b : VideoLayer) :
  VideoLayer_eqb a b = true -> a = b.
Proof.
  destruct a, b. unfold VideoLayer_eqb. simpl. intros H.
  f_equal; lia.
Qed.

(** How a pass of [findNextHigher] can end. *)
Lemma findNextHigher_outcomes (brs : Bitrates) (targetLayer : VideoLayer)
  (already minSpatial maxSpatial minTemporal maxTemporal : Z)
  (done available : bool) (tr : VideoTransition.t) :
  findNextHigher brs targetLayer already minSpatial maxSpatial minTemporal
    maxTemporal = Ok (done, tr, available) ->
  (done = false /\ available = false
   /\ tr = VideoTransition.mk (mkLayer 0 0) (mkLayer 0 0) 0)
  \/ (done = true /\ available = true
      /\ exists s t b,
           minSpatial <= s <= maxSpatial /\ minTemporal <= t <= maxTemporal
           /\ at_ brs s t = Ok b /\ b <> 0 /\ already <= b
           /\ tr = VideoTransition.mk targetLayer (mkLayer s t)
                     (int64 (b - already))).
Proof.
  unfold findNextHigher. intros H.
  match type of H with
  | bind ?m _ = _ => destruct m as [[r|]|] eqn:F; simpl in H;
                     [| |discriminate H]
  end.
  - injection H as ->. right.
    apply for_first_found in F. destruct F as (s & Hs & F).
    apply for_first_found in F. destruct F as (t & Ht & F).
    apply In_range_up in Hs. apply In_range_up in Ht.
    destruct (at_ brs s t) as [b|] eqn:B; simpl in F; [|discriminate F].
    destruct ((b =? 0) || (b <? already)) eqn:C; [discriminate F|].
    injection F as <- <- <-.
    split; [reflexivity|]. split; [reflexivity|].
    exists s, t, b. repeat split; try assumption; try lia.
  - injection H as <- <- <-. left. repeat split.
Qed.

(** X11. [GetNextHigherTransition] offers a transition only on a
    deficient video forwarder whose target, when valid, has been reached
    by the current layer.  The transition offered starts at the target and
    goes to a layer with a non-zero bitrate not below that of the target,
    the difference being its bandwidth delta; the layer is above the
    target, or above the maximum layer when the search overshoots.
    When nothing is offered the transition is the zero value. *)
Theorem GetNextHigherTransition_offers_more
  (f : Fwd) (brs : Bitrates) (allowOvershoot available : bool)
  (tr : VideoTransition.t) :
  GetNextHigherTransition f brs allowOvershoot = Ok (tr, available) ->
  (available = false ->
   tr = VideoTransition.mk (mkLayer 0 0) (mkLayer 0 0) 0)
  /\ (available = true ->
      kind f <> RTPCodecTypeAudio
      /\ isDeficientLocked f = true
      /\ VideoTransition.From tr = GetTarget (vls f)
      /\ (IsValid (GetTarget (vls f)) = true ->
          GetTarget (vls f) = GetCurrent (vls f))
      /\ exists b already,
           at_layer brs (VideoTransition.To tr) = Ok b
           /\ b <> 0
           /\ (if IsValid (GetTarget (vls f))
               then at_layer brs (GetTarget (vls f)) else Ok 0) = Ok already
           /\ already <= b
           /\ VideoTransition.BandwidthDelta tr = int64 (b - already)
           /\ (GreaterThan (VideoTransition.To tr) (GetTarget (vls f)) = true
               \/ (allowOvershoot && IsOvershootOkay (vls f) = true
                   /\ Spatial (GetMax (vls f))
                      < Spatial (VideoTransition.To tr)))).
Proof.
  unfold GetNextHigherTransition. intros H.
  destruct (kind f) eqn:K.
  all: try (injection H as <- <-; split; [reflexivity|discriminate]).
  all: destruct (isDeficientLocked f); simpl in H;
    [|injection H as <- <-; split; [reflexivity|discriminate]].
  all: destruct (IsValid (GetTarget (vls f))) eqn:V; cbn [andb negb] in H.
  all: try (destruct (VideoLayer_eqb (GetTarget (vls f)) (GetCurrent (vls f)))
              eqn:E; cbn [andb negb] in H;
            [apply VideoLayer_eqb_eq in E
            |injection H as <- <-; split; [reflexivity|discriminate]]).
  all: match type of H with
       | bind ?m _ = _ =>
         remember m as am eqn:A; destruct am as [already|];
         [symmetry in A|discriminate H]
       end.
  all: set (Facts := fun tr : VideoTransition.t =>
              VideoTransition.From tr = GetTarget (vls f)
              /\ exists b,
                   at_layer brs (VideoTransition.To tr) = Ok b
                   /\ b <> 0 /\ already <= b
                   /\ VideoTransition.BandwidthDelta tr = int64 (b - already)
                   /\ (GreaterThan (VideoTransition.To tr)
                         (GetTarget (vls f)) = true
                       \/ (allowOvershoot && IsOvershootOkay (vls f) = true
                           /\ Spatial (GetMax (vls f))
                              < Spatial (VideoTransition.To tr)))).
  all: assert (O : forall (above : bool) mins maxs mint maxt d t a,
                 (forall s' t', mins <= s' <= maxs -> mint <= t' <= maxt ->
                    if above
                    then GreaterThan (mkLayer s' t') (GetTarget (vls f))
                         = true
                    else allowOvershoot && IsOvershootOkay (vls f) = true
                         /\ Spatial (GetMax (vls f)) < s') ->
                 findNextHigher brs (GetTarget (vls f)) already
                   mins maxs mint maxt = Ok (d, t, a) ->
                 (d = false /\ a = false) \/ (d = true /\ a = true /\ Facts t))
    by (intros above mins maxs mint maxt d t a Ab R;
        apply findNextHigher_outcomes in R;
        destruct R as [(-> & -> & _)
                      |(-> & -> & s' & t' & b & Hs & Ht & B & NZ & Ge & ->)];
        [left; split; reflexivity|right];
        split; [reflexivity|]; split; [reflexivity|];
        split; [reflexivity|]; exists b; simpl;
        split; [exact B|]; split; [exact NZ|]; split; [exact Ge|];
        split; [reflexivity|];
        specialize (Ab s' t' Hs Ht); destruct above;
        [left; exact Ab | right; exact Ab]).
  all: assert (N : forall d t a,
                 Ok (false, VideoTransition.mk (mkLayer 0 0) (mkLayer 0 0) 0,
                     false) = Ok (d, t, a) ->
                 (d = false /\ a = false) \/ (d = true /\ a = true /\ Facts t))
    by (intros d t a Q; injection Q as <- _ <-; left; split; reflexivity).
  all: unfold bind in H.
  all: repeat
         (match type of H with
          | match ?r with Ok _ => _ | Abort _ => _ end = _ =>
            let R := fresh "R" in
            let d := fresh "d" in
            let t := fresh "t" in
            let a := fresh "a" in
            destruct r as [[[d t] a]|] eqn:R; [|discriminate H];
            cbv beta iota delta [bind] in H;
            assert ((d = false /\ a = false)
                    \/ (d = true /\ a = true /\ Facts t))
              by (revert R;
                  first
                    [apply N
                    |apply (O true); intros s' t' Hs Ht;
                     unfold GreaterThan; simpl; unfold IsValid in V; lia
                    |destruct (allowOvershoot && IsOvershootOkay (vls f))
                       eqn:Ov; simpl;
                     [destruct (IsValid (GetMax (vls f)));
                      [apply (O false); intros s' t' Hs Ht;
                       split; [reflexivity|lia]
                      |apply N]
                     |apply N]]);
            clear R;
            match goal with
            | Q : _ \/ _ |- _ =>
              destruct Q as [(-> & ->)|(-> & -> & Q)];
              [|injection H as <- <-;
                split; [discriminate|]; intros _;
                split; [discriminate|]; split; [reflexivity|];
                destruct Q as (Q1 & b & Q2 & Q3 & Q4 & Q5 & Q6);
                split; [exact Q1|];
                split; [first [intros _; assumption | discriminate]|];
                exists b, already;
                split; [exact Q2|]; split; [exact Q3|];
                split; [first [exact A | reflexivity]|];
                split; [exact Q4|]; split; [exact Q5 | exact Q6]]
            end
          end).
  all: injection H as <- <-; split; [reflexivity|discriminate].
Qed.

(** ** The optimal bandwidth *)

Lemma for_first_option_map {I R R' : Type} (g : R -> R') (xs : list I)
  (body : I -> result (option R)) (body' : I -> result (option R')) :
  (forall x, body' x = (r <- body x ;; Ok (option_map g r))) ->
  for_first xs body' = (r <- for_first xs body ;; Ok (option_map g r)).
Proof.
  intros E. induction xs as [|x xs IH]; [reflexivity|].
  simpl. rewrite E. destruct (body x) as [[v|]|]; simpl;
    [reflexivity|exact IH|reflexivity].
Qed.

(** The loop of [getOptimalBandwidthNeeded] is the search for the highest
    layer with a non-zero bitrate, keeping the bitrate only. *)
Lemma getOptimalBandwidthNeeded_search (seen : Z) (brs : Bitrates)
  (maxLayer : VideoLayer) :
  seen <> InvalidLayerSpatial ->
  getOptimalBandwidthNeeded false false seen brs maxLayer
  = (found <- first_nonzero_layer brs (range_down (Spatial maxLayer) 0)
                (range_down (Temporal maxLayer) 0) ;;
     match found with
     | Some (_, b) => Ok b
     | None => Ok 0
     end).
Proof.
  intros S. unfold getOptimalBandwidthNeeded, first_nonzero_layer.
  apply Z.eqb_neq in S. rewrite S. simpl.
  rewrite (for_first_option_map (@snd VideoLayer Z)
             (range_down (Spatial maxLayer) 0)
             (fun s =>
                for_first (range_down (Temporal maxLayer) 0) (fun t =>
                  b <- at_ brs s t ;;
                  if negb (b =? 0) then Ok (Some (mkLayer s t, b))
                  else Ok None))).
  - destruct (for_first _ _) as [[[l b]|]|]; reflexivity.
  - intros s.
    apply for_first_option_map. intros t.
    destruct (at_ brs s t) as [b|]; simpl; [|reflexivity].
    destruct (b =? 0); reflexivity.
Qed.

Lemma first_nonzero_layer_none (brs : Bitrates) (spatials temporals : list Z) :
  first_nonzero_layer brs spatials temporals = Ok None ->
  forall s t, In s spatials -> In t temporals -> at_ brs s t = Ok 0.
Proof.
  unfold first_nonzero_layer. intros H s t Hs Ht.
  pose proof (for_first_none _ _ H s Hs) as Hrow.
  pose proof (for_first_none _ _ Hrow t Ht) as Hcell.
  simpl in Hcell.
  destruct (at_ brs s t) as [b|]; simpl in Hcell; [|discriminate Hcell].
  destruct (b =? 0) eqn:E; [|discriminate Hcell].
  apply Z.eqb_eq in E. subst b. reflexivity.
Qed.

(** X12. The optimal bandwidth is the bitrate of the highest layer, in
    the order of layers, that lies within the maximum layer and has a
    non-zero bitrate; it is zero exactly when the stream is muted by
    either side, nothing has been published, or no layer within the
    maximum has a non-zero bitrate. *)
Theorem getOptimalBandwidthNeeded_is_highest_measured
  (m pm : bool) (seen : Z) (brs : Bitrates) (maxLayer : VideoLayer) (b : Z) :
  getOptimalBandwidthNeeded m pm seen brs maxLayer = Ok b ->
  (b <> 0 ->
   m = false /\ pm = false /\ seen <> InvalidLayerSpatial
   /\ exists l,
        0 <= Spatial l <= Spatial maxLayer
        /\ 0 <= Temporal l <= Temporal maxLayer
        /\ at_layer brs l = Ok b
        /\ forall s t,
             0 <= s <= Spatial maxLayer -> 0 <= t <= Temporal maxLayer ->
             GreaterThan (mkLayer s t) l = true -> at_ brs s t = Ok 0)
  /\ (b = 0 ->
      m = true \/ pm = true \/ seen = InvalidLayerSpatial
      \/ forall s t,
           0 <= s <= Spatial maxLayer -> 0 <= t <= Temporal maxLayer ->
           at_ brs s t = Ok 0).
Proof.
  intros H.
  destruct m; [unfold getOptimalBandwidthNeeded in H; injection H as <-;
               split; [intros C; contradiction C; reflexivity
                      |intros _; left; reflexivity]|].
  destruct pm; [unfold getOptimalBandwidthNeeded in H; injection H as <-;
                split; [intros C; contradiction C; reflexivity
                       |intros _; right; left; reflexivity]|].
  destruct (Z.eq_dec seen InvalidLayerSpatial) as [S|S].
  { unfold getOptimalBandwidthNeeded in H. apply Z.eqb_eq in S.
    rewrite S in H. injection H as <-.
    split; [intros C; contradiction C; reflexivity
           |intros _; right; right; left; apply Z.eqb_eq; exact S]. }
  rewrite (getOptimalBandwidthNeeded_search brs maxLayer S) in H.
  destruct (first_nonzero_layer _ _ _) as [[[l b']|]|] eqn:F; simpl in H;
    [| |discriminate H]; injection H as <-.
  - destruct (first_nonzero_layer_found _ _ _ F) as (Hs & Ht & B & NZ).
    apply In_range_down in Hs. apply In_range_down in Ht.
    split; [|intros C; contradiction NZ].
    intros _. repeat split; try assumption.
    exists l. repeat split; try lia; try assumption.
    exact (maximal_layer_is_highest _ _ F).
  - split; [intros C; contradiction C; reflexivity|].
    intros _. right. right. right. intros s t Hs Ht.
    apply (first_nonzero_layer_none _ _ _ F);
      apply In_range_down_intro; lia.
Qed.

(** ** The selector follows the allocation *)

Lemma Ok_inj {A : Type} (a b : A) : Ok a = Ok b -> a = b.
Proof. intros H. injection H as H. exact H. Qed.

Lemma AllocateOptimal_ends_in_update
  (f f' : Fwd) (availableLayers : list Z) (brs : Bitrates)
  (allowOvershoot : bool) (alloc : VideoAllocation.t) :
  kind f <> RTPCodecTypeAudio ->
  AllocateOptimal f availableLayers brs allowOvershoot = Ok (alloc, f') ->
  exists a0, updateAllocation f a0 = (alloc, f').
Proof.
  intros K H. unfold AllocateOptimal in H.
  destruct (kind f); try (contradiction K; reflexivity).
  all: cbv beta iota zeta delta [bind] in H.
  all: repeat match type of H with
              | match ?m with Ok _ => _ | Abort _ => _ end = _ =>
                destruct m; [|discriminate H]
              end.
  all: apply Ok_inj in H; eexists; exact H.
Qed.

Lemma Pause_ends_in_update
  (f f' : Fwd) (availableLayers : list Z) (brs : Bitrates)
  (alloc : VideoAllocation.t) :
  Pause f availableLayers brs = Ok (alloc, f') ->
  exists a0,
    updateAllocation f a0 = (alloc, f')
    /\ VideoAllocation.TargetLayer a0 = InvalidLayer.
Proof.
  intros H. unfold Pause in H.
  cbv beta iota zeta delta [bind] in H.
  repeat match type of H with
         | match ?m with Ok _ => _ | Abort _ => _ end = _ =>
           destruct m; [|discriminate H]
         end.
  apply Ok_inj in H. eexists. split; [exact H|].
  destruct (muted f); [|destruct (pubMuted f); [|destruct (_ =? 0)]];
    reflexivity.
Qed.

Lemma ProvisionalAllocateCommit_ends_in_update
  (f f' : Fwd) (alloc : VideoAllocation.t) :
  ProvisionalAllocateCommit f = Ok (alloc, f') ->
  exists g a0, updateAllocation g a0 = (alloc, f').
Proof.
  intros H. unfold ProvisionalAllocateCommit in H.
  cbv beta iota zeta delta [bind] in H.
  repeat match type of H with
         | match ?m with Ok _ => _ | Abort _ => _ end = _ =>
           destruct m; [|discriminate H]
         end.
  match type of H with
  | (let (_, _) := ?q in _) = _ => destruct q
  end.
  match type of H with
  | Ok (updateAllocation ?g ?a) = _ =>
    apply Ok_inj in H; exists g, a; exact H
  end.
Qed.

Section Lawful.
Context {laws : VideoLayerSelectorLaws Sel}.

Lemma updateAllocation_target (f : Fwd) (alloc : VideoAllocation.t) :
  GetTarget (vls (snd (updateAllocation f alloc)))
  = VideoAllocation.TargetLayer (fst (updateAllocation f alloc)).
Proof.
  unfold updateAllocation, setTargetLayer, resyncLocked.
  repeat match goal with
         | |- context [if ?c then _ else _] => destruct c; simpl
         end;
    rewrite ?GetTarget_SetCurrent, ?GetTarget_SetRequestSpatial,
      ?GetTarget_SetTarget; reflexivity.
Qed.

(** Without a valid target the forwarder is resynchronised. *)
Lemma updateAllocation_resync (f : Fwd) (alloc : VideoAllocation.t) :
  IsValid (VideoAllocation.TargetLayer alloc) = false ->
  let f' := snd (updateAllocation f alloc) in
  lastSSRC f' = 0
  /\ GetCurrent (vls f') = InvalidLayer
  /\ GetTarget (vls f') = VideoAllocation.TargetLayer alloc
  /\ (pubMuted f = true ->
      resumeBehindThreshold f' = ResumeBehindThresholdSeconds).
Proof.
  intros V. unfold updateAllocation. rewrite V. simpl.
  unfold setTargetLayer. simpl. rewrite V. simpl.
  rewrite GetTarget_SetRequestSpatial, GetTarget_SetTarget, V. simpl.
  unfold resyncLocked. simpl.
  destruct (pubMuted f); simpl;
    rewrite ?GetTarget_SetCurrent, ?GetTarget_SetRequestSpatial,
      ?GetTarget_SetTarget, ?GetCurrent_SetCurrent;
    repeat split; discriminate.
Qed.

(** X13. With a selector that reads back the target it is given, every
    allocator leaves the selector's target equal to the target of the
    allocation it returns, which is the allocation recorded last:
    [AllocateOptimal] on a video forwarder, [Pause],
    [ProvisionalAllocateCommit], and [AllocateNextHigher] when it
    boosts. *)
Theorem allocators_keep_selector_in_step (f f' : Fwd)
  (alloc : VideoAllocation.t) :
  (exists availableLayers brs allowOvershoot,
     kind f <> RTPCodecTypeAudio
     /\ AllocateOptimal f availableLayers brs allowOvershoot
        = Ok (alloc, f'))
  \/ (exists availableLayers brs,
        Pause f availableLayers brs = Ok (alloc, f'))
  \/ ProvisionalAllocateCommit f = Ok (alloc, f')
  \/ (exists capacity availableLayers brs allowOvershoot,
        AllocateNextHigher f capacity availableLayers brs allowOvershoot
        = Ok (alloc, true, f')) ->
  GetTarget (vls f') = VideoAllocation.TargetLayer alloc
  /\ lastAllocation f' = alloc.
Proof.
  intros H.
  assert (E : exists g a0, updateAllocation g a0 = (alloc, f')).
  { destruct H as [(al & brs & ao & K & H)|[(al & brs & H)|[H|
                   (cap & al & brs & ao & H)]]].
    - edestruct AllocateOptimal_ends_in_update as (a0 & U);
        [exact K | exact H |].
      exists f, a0. exact U.
    - apply Pause_ends_in_update in H. destruct H as (a0 & U & _).
      exists f, a0. exact U.
    - apply ProvisionalAllocateCommit_ends_in_update in H. exact H.
    - apply AllocateNextHigher_boosted in H.
      destruct H as (_ & s & t & b & already & a0 & _ & _ & _ & U & _).
      exists f, a0. exact U. }
  destruct E as (g & a0 & U).
  pose proof (updateAllocation_target g a0) as T.
  pose proof (updateAllocation_lastAllocation g a0) as L.
  rewrite U in T, L. split; [exact T | exact L].
Qed.

(** X14. After [Pause], with a selector that reads back what it is given,
    the forwarder has no target and no current layer and is resynchronised
    (the next packet starts a new source), the resume threshold is armed
    when the publisher is muted, and a video forwarder drops every packet
    without an error and without a change of state. *)
Theorem Pause_stops_forwarding
  (f f' : Fwd) (availableLayers : list Z) (brs : Bitrates)
  (alloc : VideoAllocation.t) :
  Pause f availableLayers brs = Ok (alloc, f') ->
  GetTarget (vls f') = InvalidLayer
  /\ GetCurrent (vls f') = InvalidLayer
  /\ lastSSRC f' = 0
  /\ (pubMuted f = true ->
      resumeBehindThreshold f' = ResumeBehindThresholdSeconds)
  /\ (kind f = RTPCodecTypeVideo ->
      forall extPkt layer switchingAt timeSinceFirst,
        GetTranslationParams f' extPkt layer switchingAt timeSinceFirst
        = (TranslationParams.with_shouldDrop TranslationParams.zero_value
             true, None, f')).
Proof.
  intros H. apply Pause_ends_in_update in H. destruct H as (a0 & U & T).
  assert (V : IsValid (VideoAllocation.TargetLayer a0) = false)
    by (rewrite T; reflexivity).
  pose proof (updateAllocation_resync f a0 V) as R.
  pose proof (updateAllocation_frame f a0) as Fr.
  rewrite U in R, Fr. simpl in R, Fr.
  destruct R as (R1 & R2 & R3 & R4).
  destruct Fr as (F1 & F2 & F3 & _).
  rewrite T in R3.
  split; [exact R3|]. split; [exact R2|]. split; [exact R1|].
  split; [exact R4|].
  intros K pkt layer sat since.
  unfold GetTranslationParams, getTranslationParamsVideo.
  rewrite F3, K, R3.
  destruct (muted f' || pubMuted f'); reflexivity.
Qed.

End Lawful.
End AllocationProperties.

(* ------------------------------------------------------------------ *)
(** ** Properties of the translation of packets *)

Section TranslationProperties.
Context {Sel Mun Cod : Type}.
Context {selector : VideoLayerSelector Sel}.
Context {munger : RTPMungerOps Mun}.
Context {codecs : CodecMungerOps Cod}.

Local Notation "'Fwd'" := (Forwarder Sel Mun Cod).

(** The part of the forwarder that only the allocator and the mute calls
    write: the translation of packets leaves it alone, and never takes
    back that the forwarder has started. *)
Lemma expectedTimestamp_keeps (f f1 : Fwd) sat since e r e' :
  expectedTimestamp f sat since e r = (e', f1) ->
  muted f1 = muted f /\ pubMuted f1 = pubMuted f /\ kind f1 = kind f
  /\ lastAllocation f1 = lastAllocation f /\ provisional f1 = provisional f
  /\ getReferenceLayerRTPTimestamp f1 = getReferenceLayerRTPTimestamp f
  /\ referenceLayerSpatial f1 = referenceLayerSpatial f.
Proof.
  unfold expectedTimestamp. intros H.
  repeat break_match_hyp H; inversion H; subst; simpl; auto 10.
Qed.

Lemma switchCandidates_keeps (f f1 : Fwd) pkt layer sat since r :
  switchCandidates f pkt layer sat since = (r, f1) ->
  muted f1 = muted f /\ pubMuted f1 = pubMuted f /\ kind f1 = kind f
  /\ lastAllocation f1 = lastAllocation f /\ provisional f1 = provisional f.
Proof.
  unfold switchCandidates. intros H.
  destruct (referenceLayerSpatial f =? InvalidLayerSpatial);
    (destruct (referenceTimestamp _ _ _ _ _) in H;
     [ destruct (expectedTimestamp _ _ _ _ _) as [e' f2] eqn:E in H;
       apply expectedTimestamp_keeps in E;
       inversion H; subst; simpl in E;
       destruct E as (E1 & E2 & E3 & E4 & E5 & _); auto 10
     | inversion H; subst; simpl; auto 10 ]).
Qed.

Lemma chooseNextTimestamp_keeps (f f1 : Fwd) l r e c :
  chooseNextTimestamp f l r e = (c, f1) ->
  muted f1 = muted f /\ pubMuted f1 = pubMuted f /\ kind f1 = kind f
  /\ lastAllocation f1 = lastAllocation f /\ provisional f1 = provisional f.
Proof.
  unfold chooseNextTimestamp. intros H.
  repeat break_match_hyp H; inversion H; subst; simpl; auto 10.
Qed.

Lemma processSourceSwitch_keeps (f f1 : Fwd) pkt layer sat since e :
  processSourceSwitch f pkt layer sat since = (e, f1) ->
  muted f1 = muted f /\ pubMuted f1 = pubMuted f /\ kind f1 = kind f
  /\ lastAllocation f1 = lastAllocation f /\ provisional f1 = provisional f
  /\ (started f = true -> started f1 = true)
  /\ (e = None -> started f1 = true).
Proof.
  unfold processSourceSwitch, nextTimestampOnSwitch. intros H.
  destruct (started f) eqn:St; simpl in H.
  - destruct (switchCandidates f pkt layer sat since)
      as [[[[l r] x]|err'] f2] eqn:C.
    + pose proof (switchCandidates_keeps _ _ _ _ _ C) as (A1 & A2 & A3 & A4 & A5).
      apply switchCandidates_frame in C.
      destruct C as (_ & _ & _ & _ & _ & S2).
      destruct (chooseNextTimestamp f2 l r x) as [[n|err''] f3] eqn:D.
      * pose proof (chooseNextTimestamp_keeps _ _ _ _ D)
          as (B1 & B2 & B3 & B4 & B5).
        apply chooseNextTimestamp_frame in D.
        destruct D as (_ & _ & _ & _ & _ & S3).
        inversion H; subst. simpl.
        repeat split; congruence.
      * pose proof (chooseNextTimestamp_keeps _ _ _ _ D)
          as (B1 & B2 & B3 & B4 & B5).
        apply chooseNextTimestamp_frame in D.
        destruct D as (_ & _ & _ & _ & _ & S3).
        inversion H; subst. repeat split; congruence.
    + pose proof (switchCandidates_keeps _ _ _ _ _ C) as (A1 & A2 & A3 & A4 & A5).
      apply switchCandidates_frame in C.
      destruct C as (_ & _ & _ & _ & _ & S2).
      inversion H; subst. repeat split; congruence.
  - inversion H; subst. simpl. repeat split; congruence.
Qed.

(** How the common path can end. *)
Lemma getTranslationParamsCommon_outcomes
  (f f' : Fwd) (pkt : ExtPacket) (layer : Z) (tp tp' : TranslationParams.t)
  (sat : Time) (since : Z) (e : option error) :
  TranslationParams.shouldDrop tp = false ->
  getTranslationParamsCommon f pkt layer tp sat since = (tp', e, f') ->
  (TranslationParams.shouldDrop tp' = true
   /\ match e with
      | None => True
      | Some err =>
        is_benign_munger_error err = false
        /\ exists (g : Fwd) (m : Mun),
             UpdateAndGetSnTs (rtpMunger g) pkt (TranslationParams.marker tp)
             = (inr err, m)
      end)
  \/ (TranslationParams.shouldDrop tp' = false /\ e = None
      /\ lastSSRC f' = SSRC pkt
      /\ exists (g : Fwd) (tpRTP : TranslationParamsRTP),
           UpdateAndGetSnTs (rtpMunger g) pkt (TranslationParams.marker tp)
           = (inl tpRTP, rtpMunger f')
           /\ tp' = TranslationParams.with_rtp tp tpRTP).
Proof.
  intros D H. unfold getTranslationParamsCommon in H.
  match type of H with
  | (let '(_, _) := ?c in _) = _ => destruct c as [dropped g] eqn:C
  end.
  destruct dropped.
  - injection H as <- <- <-. left. split; [reflexivity|exact I].
  - assert (L : lastSSRC g = SSRC pkt).
    { destruct (negb (lastSSRC f =? SSRC pkt)) eqn:N.
      - destruct (processSourceSwitch f pkt layer sat since) as [[err|] g0];
          [discriminate C|].
        injection C as <-. reflexivity.
      - injection C as <-. apply negb_false_iff in N. lia. }
    destruct (UpdateAndGetSnTs (rtpMunger g) pkt (TranslationParams.marker tp))
      as [[tpRTP|err] m] eqn:U.
    + injection H as <- <- <-. right.
      destruct tp. simpl in *. subst.
      repeat split; try assumption.
      exists g, tpRTP. split; [exact U|reflexivity].
    + destruct (is_benign_munger_error err) eqn:B;
        injection H as <- <- <-; left; (split; [reflexivity|]);
        [exact I|].
      split; [exact B|]. exists g, m. exact U.
Qed.

Lemma getTranslationParamsCommon_keeps
  (f f' : Fwd) (pkt : ExtPacket) (layer : Z) (tp tp' : TranslationParams.t)
  (sat : Time) (since : Z) (e : option error) :
  getTranslationParamsCommon f pkt layer tp sat since = (tp', e, f') ->
  muted f' = muted f /\ pubMuted f' = pubMuted f /\ kind f' = kind f
  /\ lastAllocation f' = lastAllocation f /\ provisional f' = provisional f
  /\ (started f = true -> started f' = true).
Proof.
  intros H. unfold getTranslationParamsCommon in H.
  match type of H with
  | (let '(_, _) := ?c in _) = _ => destruct c as [dropped g] eqn:C
  end.
  assert (G : muted g = muted f /\ pubMuted g = pubMuted f /\ kind g = kind f
              /\ lastAllocation g = lastAllocation f
              /\ provisional g = provisional f
              /\ (started f = true -> started g = true)).
  { destruct (negb (lastSSRC f =? SSRC pkt)).
    - destruct (processSourceSwitch f pkt layer sat since) as [[err|] g0]
        eqn:P; apply processSourceSwitch_keeps in P;
        destruct P as (P1 & P2 & P3 & P4 & P5 & P6 & _);
        injection C as _ <-; simpl; auto 10.
    - injection C as _ <-. auto 10. }
  destruct dropped.
  - injection H as _ _ <-. exact G.
  - destruct (UpdateAndGetSnTs _ _ _) as [[tpRTP|err] m].
    + injection H as _ _ <-. simpl. exact G.
    + destruct (is_benign_munger_error err); injection H as _ _ <-;
        simpl; exact G.
Qed.

(** X15. [GetTranslationParams] returns an error only together with the
    order to drop the packet, and only for one of two reasons: the
    forwarder has an unknown kind, or the RTP munger failed to translate
    the sequence number and timestamp with an error other than the three
    it reports for padding-only, duplicate and out-of-order packets.  A
    failure to reconcile a source switch is never returned. *)
Theorem GetTranslationParams_errors
  (f f' : Fwd) (pkt : ExtPacket) (layer : Z) (sat : Time) (since : Z)
  (tp : TranslationParams.t) (err : error) :
  GetTranslationParams f pkt layer sat since = (tp, Some err, f') ->
  TranslationParams.shouldDrop tp = true
  /\ muted f = false /\ pubMuted f = false
  /\ ((kind f = RTPCodecTypeUnknown /\ err = ErrUnknownKind /\ f' = f)
      \/ (kind f <> RTPCodecTypeUnknown
          /\ is_benign_munger_error err = false
          /\ exists (g : Fwd) (marker : bool) (m : Mun),
               UpdateAndGetSnTs (rtpMunger g) pkt marker = (inr err, m))).
Proof.
  unfold GetTranslationParams. intros H.
  destruct (muted f); [discriminate H|].
  destruct (pubMuted f); [discriminate H|].
  simpl in H. destruct (kind f) eqn:K.
  - injection H as <- <- <-. repeat split. left. repeat split.
  - unfold getTranslationParamsAudio in H.
    destruct (getTranslationParamsCommon _ _ _ _ _ _) as [[tp0 [e0|]] g]
      eqn:C; [|discriminate H].
    injection H as <- <- <-.
    apply getTranslationParamsCommon_outcomes in C; [|reflexivity].
    destruct C as [(_ & B & g0 & m & U)|(_ & C & _)]; [|discriminate C].
    repeat split. right. split; [discriminate|]. split; [exact B|].
    exists g0, (TranslationParams.marker TranslationParams.zero_value), m.
    exact U.
  - unfold getTranslationParamsVideo in H.
    destruct (negb (IsValid (GetTarget (vls f)))); [discriminate H|].
    destruct (Select (vls f) pkt layer) as [result sel].
    destruct (negb (IsSelected result)).
    { repeat break_match_hyp H; discriminate H. }
    destruct (FlagPauseOnDowngrade && isDeficientLocked (with_vls f sel)
              && (Spatial (GetTarget (vls (with_vls f sel)))
                  <? Spatial (GetCurrent (vls (with_vls f sel)))));
      [discriminate H|].
    destruct (getTranslationParamsCommon _ _ _ _ _ _) as [[tp0 e0] g] eqn:C.
    destruct (TranslationParams.shouldDrop tp0) eqn:D; [|discriminate H].
    injection H as <- -> <-.
    apply getTranslationParamsCommon_outcomes in C; [|reflexivity].
    destruct C as [(_ & B & g0 & m & U)|(_ & C & _)]; [|discriminate C].
    split; [exact D|]. repeat split. right.
    split; [discriminate|]. split; [exact B|].
    eexists g0, _, m. exact U.
Qed.

(** X16. A packet comes out of [GetTranslationParams] as forwarded only
    when nothing is muted, on a video forwarder only with a valid target,
    and only with the sequence number and timestamp the RTP munger
    translated for it; no error accompanies it, and the forwarder then
    remembers the SSRC of the packet as the last one forwarded. *)
Theorem GetTranslationParams_forwarded
  (f f' : Fwd) (pkt : ExtPacket) (layer : Z) (sat : Time) (since : Z)
  (tp : TranslationParams.t) (e : option error) :
  GetTranslationParams f pkt layer sat since = (tp, e, f') ->
  TranslationParams.shouldDrop tp = false ->
  e = None
  /\ muted f = false /\ pubMuted f = false
  /\ kind f <> RTPCodecTypeUnknown
  /\ (kind f = RTPCodecTypeVideo -> IsValid (GetTarget (vls f)) = true)
  /\ lastSSRC f' = SSRC pkt
  /\ exists (g : Fwd),
       UpdateAndGetSnTs (rtpMunger g) pkt (TranslationParams.marker tp)
       = (inl (TranslationParams.rtp tp), rtpMunger f').
Proof.
  unfold GetTranslationParams. intros H D.
  destruct (muted f); [injection H as <- _ _; discriminate D|].
  destruct (pubMuted f); [injection H as <- _ _; discriminate D|].
  simpl in H. destruct (kind f) eqn:K.
  - injection H as <- _ _. discriminate D.
  - unfold getTranslationParamsAudio in H.
    destruct (getTranslationParamsCommon _ _ _ _ _ _) as [[tp0 [e0|]] g]
      eqn:C; [injection H as <- _ _; discriminate D|].
    injection H as <- <- <-.
    apply getTranslationParamsCommon_outcomes in C; [|reflexivity].
    destruct C as [(C & _)|(_ & _ & L & g0 & tpRTP & U & ->)];
      [congruence|].
    repeat split; try discriminate; try assumption.
    exists g0. exact U.
  - unfold getTranslationParamsVideo in H.
    destruct (negb (IsValid (GetTarget (vls f)))) eqn:V;
      [injection H as <- _ _; discriminate D|].
    apply negb_false_iff in V.
    destruct (Select (vls f) pkt layer) as [result sel].
    destruct (negb (IsSelected result)).
    { repeat break_match_hyp H; injection H as <- _ _; discriminate D. }
    destruct (FlagPauseOnDowngrade && isDeficientLocked (with_vls f sel)
              && (Spatial (GetTarget (vls (with_vls f sel)))
                  <? Spatial (GetCurrent (vls (with_vls f sel)))));
      [injection H as <- _ _; discriminate D|].
    destruct (getTranslationParamsCommon _ _ _ _ _ _) as [[tp0 e0] g] eqn:C.
    destruct (TranslationParams.shouldDrop tp0) eqn:D0;
      injection H as <- <- <-; [congruence|].
    apply getTranslationParamsCommon_outcomes in C; [|reflexivity].
    destruct C as [(C & _)|(_ & _ & L & g0 & tpRTP & U & ->)];
      [congruence|].
    repeat split; try discriminate; try assumption;
      try (intros _; exact V).
    exists g0. exact U.
Qed.

(** X17. [GetTranslationParams] never touches what the allocator and the
    mute calls own: the mute flags, the kind, the last allocation and the
    cooperative workspace are as before, and a forwarder that has started
    stays started. *)
Theorem GetTranslationParams_leaves_allocation_alone
  (f f' : Fwd) (pkt : ExtPacket) (layer : Z) (sat : Time) (since : Z)
  (tp : TranslationParams.t) (e : option error) :
  GetTranslationParams f pkt layer sat since = (tp, e, f') ->
  muted f' = muted f /\ pubMuted f' = pubMuted f /\ kind f' = kind f
  /\ lastAllocation f' = lastAllocation f /\ provisional f' = provisional f
  /\ (started f = true -> started f' = true).
Proof.
  unfold GetTranslationParams. intros H.
  destruct (muted f || pubMuted f); [injection H as _ _ <-; auto 10|].
  destruct (kind f) eqn:K.
  - injection H as _ _ <-. rewrite K. auto 10.
  - unfold getTranslationParamsAudio in H.
    destruct (getTranslationParamsCommon _ _ _ _ _ _) as [[tp0 [e0|]] g]
      eqn:C; injection H as _ _ <-;
      apply getTranslationParamsCommon_keeps in C;
      rewrite K in C; exact C.
  - unfold getTranslationParamsVideo in H.
    destruct (negb (IsValid (GetTarget (vls f))));
      [injection H as _ _ <-; rewrite K; auto 10|].
    destruct (Select (vls f) pkt layer) as [result sel].
    destruct (negb (IsSelected result)).
    { repeat break_match_hyp H; injection H as _ _ <-; simpl;
        rewrite ?K; auto 10. }
    match type of H with
    | (if ?c then _ else _) = _ => destruct c
    end.
    { injection H as _ _ <-. unfold maybeRollback.
      destruct (IsSwitching result); simpl; rewrite ?K; auto 10. }
    destruct (getTranslationParamsCommon _ _ _ _ _ _) as [[tp0 e0] g] eqn:C.
    apply getTranslationParamsCommon_keeps in C. simpl in C.
    destruct (TranslationParams.shouldDrop tp0); injection H as _ _ <-;
      unfold maybeRollback; try destruct (IsSwitching result); simpl;
      rewrite <- ?K; exact C.
Qed.

(** X18. [processSourceSwitch] fails for one of two reasons only: the
    callback that maps the packet's timestamp to the reference layer
    returned the error, or the forwarder is switching between layers
    (it is not resuming) and the switch point is too far behind.  It never
    fails on the first packet, and a failure leaves the RTP munger, the
    selector and the last SSRC as they were. *)
Theorem processSourceSwitch_failures
  (f f1 : Fwd) (pkt : ExtPacket) (layer : Z) (sat : Time) (since : Z)
  (err : error) :
  processSourceSwitch f pkt layer sat since = (Some err, f1) ->
  started f = true
  /\ ((exists callback,
         getReferenceLayerRTPTimestamp f = Some callback
         /\ callback (Timestamp pkt) layer
              (if referenceLayerSpatial f =? InvalidLayerSpatial
               then layer else referenceLayerSpatial f) = inr err)
      \/ (lastSSRC f <> 0
          /\ err = errors_New "switch point too far behind"))
  /\ rtpMunger f1 = rtpMunger f /\ vls f1 = vls f
  /\ lastSSRC f1 = lastSSRC f.
Proof.
  intros H.
  pose proof (processSourceSwitch_failure_frame _ _ _ _ _ H) as (F1 & F2 & F3).
  unfold processSourceSwitch, nextTimestampOnSwitch in H.
  destruct (started f); simpl in H; [|discriminate H].
  split; [reflexivity|]. split; [|repeat split; assumption].
  destruct (switchCandidates f pkt layer sat since)
    as [[[[l r] x]|err'] f2] eqn:C.
  - right.
    pose proof (switchCandidates_frame _ _ _ _ _ C) as (_ & _ & L2 & _).
    destruct (chooseNextTimestamp f2 l r x) as [[n|err''] f3] eqn:D;
      [discriminate H|].
    injection H as <- <-.
    unfold chooseNextTimestamp in D.
    destruct (lastSSRC f2 =? 0) eqn:Z0; [discriminate D|].
    apply Z.eqb_neq in Z0.
    split; [congruence|].
    repeat break_match_hyp D; inversion D; reflexivity.
  - left. injection H as <- <-.
    unfold switchCandidates in C.
    match type of C with
    | context [referenceTimestamp ?g _ _ _ _] =>
      destruct (referenceTimestamp g pkt layer
                  (ExtLastTS (GetLast (rtpMunger g)))
                  (ExtLastTS (GetLast (rtpMunger g)))) as [ts|e0] eqn:R
    end.
    + destruct (expectedTimestamp _ _ _ _ _). discriminate C.
    + injection C as <- _.
      unfold referenceTimestamp in R.
      destruct (referenceLayerSpatial f =? InvalidLayerSpatial); simpl in R.
      * destruct (getReferenceLayerRTPTimestamp f) as [cb|];
          [|discriminate R].
        exists cb. split; [reflexivity|].
        destruct (cb (Timestamp pkt) layer layer); [discriminate R|].
        congruence.
      * destruct (getReferenceLayerRTPTimestamp f) as [cb|];
          [|discriminate R].
        exists cb. split; [reflexivity|].
        destruct (cb (Timestamp pkt) layer (referenceLayerSpatial f));
          [discriminate R|].
        congruence.
Qed.

End TranslationProperties.

(* ------------------------------------------------------------------ *)
(** ** Properties of mute, start-up, padding and migration *)

Section RestProperties.
Context {Sel Mun Cod : Type}.
Context {selector : VideoLayerSelector Sel}.
Context {munger : RTPMungerOps Mun}.
Context {codecs : CodecMungerOps Cod}.
Context {selectorMore : VideoLayerSelectorMore Sel}.
Context {mungerMore : RTPMungerMore Mun}.
Context {codecsMore : CodecMungerMore Cod}.

Local Notation "'Fwd'" := (Forwarder Sel Mun Cod).

(** X19. [PubMute] reports a change exactly when the flag differs, and
    then sets it; a second call with the same flag changes nothing.
    Muting resynchronises: the last SSRC is forgotten, the current layer
    is invalidated and the resume threshold is armed, after which every
    packet is dropped without an error and without a change of state.
    Unmuting only clears the flag.  The subscriber's mute flag is never
    touched. *)
Theorem PubMute_resyncs_on_mute (f f' : Fwd) (pubMuted' changed : bool) :
  PubMute f pubMuted' = (changed, f') ->
  pubMuted f' = pubMuted'
  /\ muted f' = muted f
  /\ changed = negb (Bool.eqb (pubMuted f) pubMuted')
  /\ (changed = false -> f' = f)
  /\ PubMute f' pubMuted' = (false, f')
  /\ (changed = true -> pubMuted' = true ->
      lastSSRC f' = 0
      /\ vls f' = SetCurrent (vls f) InvalidLayer
      /\ resumeBehindThreshold f' = ResumeBehindThresholdSeconds
      /\ forall extPkt layer switchingAt timeSinceFirst,
           GetTranslationParams f' extPkt layer switchingAt timeSinceFirst
           = (TranslationParams.with_shouldDrop TranslationParams.zero_value
                true, None, f'))
  /\ (changed = true -> pubMuted' = false -> f' = with_pubMuted f false).
Proof.
  unfold PubMute. intros H.
  destruct (Bool.eqb (pubMuted f) pubMuted') eqn:E.
  - injection H as <- <-. apply eqb_prop in E.
    rewrite E, eqb_reflx.
    repeat split; try congruence; discriminate.
  - injection H as <- <-.
    assert (P : pubMuted f = negb pubMuted')
      by (destruct (pubMuted f), pubMuted'; simpl in E;
          try discriminate E; reflexivity).
    destruct pubMuted'; unfold resyncLocked; simpl.
    + split; [reflexivity|]. split; [reflexivity|]. split; [reflexivity|].
      split; [discriminate|]. split; [reflexivity|].
      split; [|discriminate].
      intros _ _. split; [reflexivity|]. split; [reflexivity|].
      split; [reflexivity|].
      intros pkt layer sat since.
      unfold GetTranslationParams. simpl.
      rewrite orb_true_r. reflexivity.
    + split; [reflexivity|]. split; [reflexivity|]. split; [reflexivity|].
      split; [discriminate|]. split; [reflexivity|].
      split; [discriminate|]. intros _ _. reflexivity.
Qed.

(** X20. The spatial layer a forwarder reports as subscribed is the
    invalid layer when the subscriber muted, and otherwise the higher of
    the maximum and the current spatial layer: never below the layer
    being forwarded. *)
Theorem GetMaxSubscribedSpatial_covers_current (f : Fwd) :
  (muted f = true -> GetMaxSubscribedSpatial f = InvalidLayerSpatial)
  /\ (muted f = false ->
      GetMaxSubscribedSpatial f
      = Z.max (Spatial (GetMax (vls f))) (Spatial (GetCurrent (vls f)))
      /\ Spatial (GetCurrent (vls f)) <= GetMaxSubscribedSpatial f
      /\ Spatial (GetMax (vls f)) <= GetMaxSubscribedSpatial f).
Proof.
  unfold GetMaxSubscribedSpatial.
  destruct (muted f); simpl; split; try discriminate; try reflexivity.
  intros _.
  destruct (Spatial (GetMax (vls f)) <? Spatial (GetCurrent (vls f))) eqn:L;
    lia.
Qed.

(** X21. [FilterRTX] passes the NACKs through unchanged (sequence-number
    filtering is switched off) and answers for the three spatial layers.
    Nothing is disallowed unless the forwarder is deficient; when it is
    deficient and the target is below the current layer every layer is
    disallowed, and otherwise exactly the layers above the current one;
    a disallowed layer has every higher layer disallowed too. *)
Theorem FilterRTX_curbs_layers_above_current
  (f : Fwd) (nacks filtered : list Z) (disallowed : list bool) :
  FilterRTX f nacks = (filtered, disallowed) ->
  filtered = nacks
  /\ List.length disallowed = 3%nat
  /\ (isDeficientLocked f = false -> disallowed = [false; false; false])
  /\ (isDeficientLocked f = true ->
      Spatial (GetTarget (vls f)) < Spatial (GetCurrent (vls f)) ->
      disallowed = [true; true; true])
  /\ (isDeficientLocked f = true ->
      Spatial (GetCurrent (vls f)) <= Spatial (GetTarget (vls f)) ->
      forall layer, (layer < 3)%nat ->
        nth layer disallowed false
        = (Z.of_nat layer >? Spatial (GetCurrent (vls f))))
  /\ (forall layer layer', (layer <= layer' < 3)%nat ->
        nth layer disallowed false = true ->
        nth layer' disallowed false = true).
Proof.
  unfold FilterRTX. simpl. intros H. injection H as <- <-.
  change (range_up 0 DefaultMaxLayerSpatial) with [0; 1; 2]. simpl.
  split; [reflexivity|]. split; [reflexivity|].
  destruct (isDeficientLocked f); simpl.
  - split; [discriminate|].
    split.
    { intros _ L. apply Z.ltb_lt in L. rewrite L. reflexivity. }
    split.
    { intros _ L layer Hl.
      assert (N : (Spatial (GetTarget (vls f))
                   <? Spatial (GetCurrent (vls f))) = false) by lia.
      rewrite N. simpl.
      destruct layer as [|[|[|n]]]; simpl; try reflexivity; lia. }
    intros layer layer' Hl.
    destruct (Spatial (GetTarget (vls f)) <? Spatial (GetCurrent (vls f)));
      simpl.
    + destruct layer' as [|[|[|n]]]; simpl; try reflexivity; lia.
    + destruct layer as [|[|[|n]]]; destruct layer' as [|[|[|m]]]; simpl;
        try lia; try (intros; assumption).
  - split; [reflexivity|]. split; [discriminate|]. split; [discriminate|].
    intros layer layer' _.
    destruct layer as [|[|[|[|n]]]]; simpl; discriminate.
Qed.

(** X22. The state of a forwarder that has not started is the zero value,
    and seeding any forwarder with it changes nothing. *)
Theorem SeedState_ignores_a_forwarder_not_started (f g : Fwd) :
  started f = false ->
  Started (GetState f) = false /\ SeedState g (GetState f) = g.
Proof.
  intros S. unfold GetState, SeedState. rewrite S. simpl.
  split; reflexivity.
Qed.

Section Seeding.
Context {seedLaws : SeedLaws Mun Cod}.

(** X23. With mungers that give back the state they are seeded with, the
    state of a started forwarder survives a migration: a forwarder seeded
    with it is started and reports the same state. *)
Theorem GetState_of_SeedState (f g : Fwd) :
  started f = true ->
  started (SeedState g (GetState f)) = true
  /\ GetState (SeedState g (GetState f)) = GetState f.
Proof.
  intros S. unfold GetState, SeedState. rewrite S. simpl.
  rewrite GetLast_SeedLast, CodecGetState_CodecSeedState.
  split; reflexivity.
Qed.

End Seeding.

(** X24. A forwarder that starts with padding starts in the third quartile
    of the sequence-number and timestamp spaces: with the random numbers
    drawn below 2^14 and 2^30, the packet handed to the RTP munger has a
    sequence number in [2^15, 2^15 + 2^14) and a timestamp in
    [2^31, 2^31 + 2^30), its extended values are the same numbers, and
    the timestamp is recorded as the first one.  Once started the
    forwarder is not started again. *)
Theorem maybeStart_third_quartile (f : Fwd) (now : Time) (r14 r30 : Z) :
  started f = false ->
  0 <= r14 < 2 ^ 14 ->
  0 <= r30 < 2 ^ 30 ->
  let f' := maybeStart f now r14 r30 in
  started f' = true
  /\ preStartTime f' = now
  /\ (exists extPkt,
        rtpMunger f' = SetLastSnTs (rtpMunger f) extPkt
        /\ 2 ^ 15 <= SequenceNumber extPkt < 2 ^ 15 + 2 ^ 14
        /\ 2 ^ 31 <= Timestamp extPkt < 2 ^ 31 + 2 ^ 30
        /\ ExtSequenceNumber extPkt = SequenceNumber extPkt
        /\ ExtTimestamp extPkt = Timestamp extPkt
        /\ extFirstTS f' = Timestamp extPkt)
  /\ forall now' r14' r30', maybeStart f' now' r14' r30' = f'.
Proof.
  intros S R14 R30. unfold maybeStart. rewrite S. cbv beta iota zeta.
  assert (E16 : wrap_unsigned 16 (wrap_unsigned 16 r14
                                  + wrap_unsigned 16 (2 ^ 15))
                = r14 + 32768).
  { unfold wrap_unsigned. change (2 ^ 16) with 65536.
    change (2 ^ 15) with 32768. change (2 ^ 14) with 16384 in R14.
    rewrite (Z.mod_small r14) by lia.
    rewrite (Z.mod_small 32768) by lia.
    apply Z.mod_small. lia. }
  assert (E32 : uint32 (uint32 r30 + uint32 (2 ^ 31)) = r30 + 2147483648).
  { unfold uint32, wrap_unsigned. change (2 ^ 32) with 4294967296.
    change (2 ^ 31) with 2147483648. change (2 ^ 30) with 1073741824 in R30.
    rewrite (Z.mod_small r30) by lia.
    rewrite (Z.mod_small 2147483648) by lia.
    apply Z.mod_small. lia. }
  assert (U16 : uint64 (r14 + 32768) = r14 + 32768).
  { unfold uint64, wrap_unsigned. change (2 ^ 14) with 16384 in R14.
    apply Z.mod_small. change (2 ^ 64) with 18446744073709551616. lia. }
  assert (U32 : uint64 (r30 + 2147483648) = r30 + 2147483648).
  { unfold uint64, wrap_unsigned. change (2 ^ 30) with 1073741824 in R30.
    apply Z.mod_small. change (2 ^ 64) with 18446744073709551616. lia. }
  rewrite E16, E32, U16, U32.
  split; [reflexivity|]. split; [reflexivity|].
  split; [|reflexivity].
  eexists. split; [reflexivity|]. cbn [SequenceNumber Timestamp
    ExtSequenceNumber ExtTimestamp extFirstTS with_extFirstTS].
  change (2 ^ 15) with 32768. change (2 ^ 14) with 16384 in *.
  change (2 ^ 31) with 2147483648. change (2 ^ 30) with 1073741824 in *.
  repeat split; lia.
Qed.

(** X25. [GetSnTsForBlankFrames] always asks the RTP munger for blank
    frames at a timestamp strictly after the last one sent, as a signed
    64-bit difference, whatever the expected-timestamp callback returns;
    the timestamp asked is the callback's when that is after the last one;
    it asks for one
    packet more exactly when the last packet did not end a frame, and
    reports that as [frameEndNeeded]. *)
Theorem GetSnTsForBlankFrames_after_last
  (f : Fwd) (frameRate numPackets : Z) (now expected : Time) (r14 r30 : Z) :
  let f0 := maybeStart f now r14 r30 in
  let last := ExtLastTS (GetLast (rtpMunger f0)) in
  let frameEndNeeded := negb (IsOnFrameBoundary (rtpMunger f0)) in
  exists extExpectedTS,
    0 < int64 (extExpectedTS - last)
    /\ (forall callback tsExt,
          getExpectedRTPTimestamp f = Some callback ->
          callback expected = inl tsExt ->
          0 < int64 (tsExt - last) -> extExpectedTS = tsExt)
    /\ GetSnTsForBlankFrames f frameRate numPackets now expected r14 r30
       = (fst (UpdateAndGetPaddingSnTs (rtpMunger f0)
                 (if frameEndNeeded then numPackets + 1 else numPackets)
                 (ClockRate (codec f)) frameRate frameEndNeeded
                 extExpectedTS),
          frameEndNeeded,
          with_rtpMunger f0
            (snd (UpdateAndGetPaddingSnTs (rtpMunger f0)
                    (if frameEndNeeded then numPackets + 1 else numPackets)
                    (ClockRate (codec f)) frameRate frameEndNeeded
                    extExpectedTS))).
Proof.
  intros f0 last frameEndNeeded.
  assert (C : codec f0 = codec f
              /\ getExpectedRTPTimestamp f0 = getExpectedRTPTimestamp f).
  { unfold f0, maybeStart. destruct (started f); split; reflexivity. }
  destruct C as [C1 C2].
  exists (guardNextTimestamp last
            match getExpectedRTPTimestamp f with
            | Some callback =>
              match callback expected with
              | inl tsExt => tsExt
              | inr _ => last
              end
            | None => last
            end).
  split; [apply guardNextTimestamp_after_last|].
  split.
  - intros callback tsExt G E P. rewrite G, E.
    unfold guardNextTimestamp.
    destruct (int64 (tsExt - last) <=? 0) eqn:L; [lia|reflexivity].
  - unfold GetSnTsForBlankFrames. fold f0. rewrite C1, C2.
    fold last. fold frameEndNeeded. unfold guardNextTimestamp.
    destruct (UpdateAndGetPaddingSnTs _ _ _ _ _ _). reflexivity.
Qed.

(** X26. [GetSnTsForPadding] starts the forwarder if need be and, while
    the stream is paused (no valid target), forces the frame marker: the
    caller's [forceMarker] makes no difference then. *)
Theorem GetSnTsForPadding_forces_marker_when_paused
  (f : Fwd) (num : Z) (forceMarker : bool) (now : Time) (r14 r30 : Z) :
  IsValid (GetTarget (vls f)) = false ->
  GetSnTsForPadding f num forceMarker now r14 r30
  = GetSnTsForPadding f num true now r14 r30
  /\ started (snd (GetSnTsForPadding f num forceMarker now r14 r30)) = true.
Proof.
  intros V. unfold GetSnTsForPadding.
  assert (T : vls (maybeStart f now r14 r30) = vls f).
  { unfold maybeStart. destruct (started f); reflexivity. }
  rewrite T, V. simpl. split; [reflexivity|].
  destruct (UpdateAndGetPaddingSnTs _ _ _ _ _ _). simpl.
  unfold maybeStart. destruct (started f) eqn:S; [exact S|reflexivity].
Qed.

(** X27. [TranslateCodecHeader] forwards the packet exactly when the codec
    munger succeeds, with the sizes it returns, keeping the selector as
    the temporal selection left it and the RTP munger as it was.
    Otherwise the sizes are zero and the selector is rolled back when the
    selection was switching; a filtered temporal layer and a picture-id
    cache miss are swallowed (no error), the first one being reported to
    the RTP munger as a dropped packet and nothing else being; any other
    failure is returned. *)
Theorem TranslateCodecHeader_outcomes
  (f f' : Fwd) (extPkt : ExtPacket) (tpr : TranslationParamsRTP)
  (forwarded : bool) (inputSize outputSize : Z) (err : option codec_error) :
  TranslateCodecHeader f extPkt tpr
  = (forwarded, inputSize, outputSize, err, f') ->
  let '(tl, isSwitching, sel) := SelectTemporal (vls f) extPkt in
  let outcome :=
    fst (UpdateAndGet (codecMunger f) extPkt
           (match snOrdering tpr with
            | SequenceNumberOrderingOutOfOrder => true | _ => false end)
           (match snOrdering tpr with
            | SequenceNumberOrderingGap => true | _ => false end) tl) in
  (forwarded = true
   <-> outcome = inl (inputSize, outputSize))
  /\ (forwarded = true ->
      err = None /\ vls f' = sel /\ rtpMunger f' = rtpMunger f)
  /\ (forwarded = false ->
      inputSize = 0 /\ outputSize = 0
      /\ vls f' = (if isSwitching then Rollback sel else sel))
  /\ (err <> Some ErrFilteredVP8TemporalLayer
      /\ err <> Some ErrOutOfOrderVP8PictureIdCacheMiss)
  /\ (forall e, outcome = inr (ErrCodec e) <-> err = Some (ErrCodec e))
  /\ rtpMunger f'
     = match outcome with
       | inr ErrFilteredVP8TemporalLayer =>
         PacketDropped (rtpMunger f) extPkt
       | _ => rtpMunger f
       end.
Proof.
  unfold TranslateCodecHeader. intros H.
  destruct (SelectTemporal (vls f) extPkt) as [[tl isSwitching] sel].
  simpl in H.
  destruct (UpdateAndGet (codecMunger f) extPkt _ _ tl)
    as [[[i o]|[| |e]] cod]; simpl in *.
  all: injection H as <- <- <- <- <-; unfold maybeRollback;
    destruct isSwitching; simpl;
    repeat split; try discriminate; try congruence;
    try (intros Q; discriminate Q); try (intros Q; congruence).
Qed.

End RestProperties.

(* ------------------------------------------------------------------ *)
(** ** The properties of the rest of the forwarder, run *)

Section RestScenarios.
Import Scenario.
Import ScenarioRest.

(** Pausing a stream that needs bandwidth. *)
Lemma Pause_names_its_reason_witness :
  exists alloc f',
    Pause streaming [0; 1; 2] fullBitrates = Ok (alloc, f')
    /\ VideoAllocation.TargetLayer alloc = InvalidLayer
    /\ VideoAllocation.BandwidthRequested alloc = 0
    /\ VideoAllocation.PauseReason alloc <> VideoPauseReasonNone
    /\ lastAllocation f' = alloc.
Proof.
  assert (R : exists alloc f',
             Pause streaming [0; 1; 2] fullBitrates = Ok (alloc, f'))
    by (do 2 eexists; vm_compute; reflexivity).
  destruct R as (alloc & f' & R). exists alloc, f'.
  split; [exact R|].
  apply Pause_names_its_reason in R.
  destruct R as (T & _ & B & N & _ & _ & _ & _ & _ & L).
  repeat split; assumption.
Defined.

Lemma AllocateOptimal_bookkeeping_witness :
  exists alloc f',
    AllocateOptimal fresh [0; 1; 2] fullBitrates false = Ok (alloc, f')
    /\ VideoAllocation.IsDeficient alloc = false
    /\ VideoAllocation.MaxLayer alloc = L23
    /\ lastAllocation f' = alloc.
Proof.
  assert (R : exists alloc f',
             AllocateOptimal fresh [0; 1; 2] fullBitrates false
             = Ok (alloc, f'))
    by (do 2 eexists; vm_compute; reflexivity).
  destruct R as (alloc & f' & R). exists alloc, f'.
  split; [exact R|].
  apply AllocateOptimal_bookkeeping in R; [|discriminate].
  destruct R as (D & _ & _ & _ & _ & M & L).
  repeat split; assumption.
Defined.

Lemma AllocateOptimal_targets_whenever_subscribed_witness :
  exists alloc f',
    AllocateOptimal fresh [0; 1; 2] fullBitrates false = Ok (alloc, f')
    /\ IsValid (VideoAllocation.TargetLayer alloc) = true.
Proof.
  assert (R : exists alloc f',
             AllocateOptimal fresh [0; 1; 2] fullBitrates false
             = Ok (alloc, f'))
    by (do 2 eexists; vm_compute; reflexivity).
  destruct R as (alloc & f' & R). exists alloc, f'.
  split; [exact R|].
  apply AllocateOptimal_targets_whenever_subscribed in R;
    [|discriminate|vm_compute; discriminate|vm_compute; discriminate].
  apply R. repeat split. discriminate.
Defined.

(** The next layer, (0,1), needs 800000 more and does not fit 10000. *)
Lemma AllocateNextHigher_without_boost_witness :
  exists alloc f',
    AllocateNextHigher deficient 10000 [0; 1; 2] unorderedBitrates false
    = Ok (alloc, false, f')
    /\ f' = deficient /\ alloc = lastAllocation deficient.
Proof.
  assert (R : exists alloc f',
             AllocateNextHigher deficient 10000 [0; 1; 2] unorderedBitrates
               false = Ok (alloc, false, f'))
    by (do 2 eexists; vm_compute; reflexivity).
  destruct R as (alloc & f' & R). exists alloc, f'.
  split; [exact R|].
  apply AllocateNextHigher_without_boost_changes_nothing in R. exact R.
Defined.

(** With 1000000 available it fits. *)
Lemma AllocateNextHigher_boost_fits_witness :
  exists alloc f',
    AllocateNextHigher deficient 1000000 [0; 1; 2] unorderedBitrates false
    = Ok (alloc, true, f')
    /\ lastAllocation f' = alloc
    /\ VideoAllocation.PauseReason alloc = VideoPauseReasonNone
    /\ VideoAllocation.BandwidthDelta alloc <= 1000000.
Proof.
  assert (R : exists alloc f',
             AllocateNextHigher deficient 1000000 [0; 1; 2] unorderedBitrates
               false = Ok (alloc, true, f'))
    by (do 2 eexists; vm_compute; reflexivity).
  destruct R as (alloc & f' & R). exists alloc, f'.
  split; [exact R|].
  apply AllocateNextHigher_boost_fits in R.
  destruct R as (_ & L & P & _ & _ & _ & F).
  repeat split; try assumption. apply F. reflexivity.
Defined.

(** Probing (2,3) with room for it. *)
Lemma ProvisionalAllocate_accounting_witness :
  exists used f',
    ProvisionalAllocate streaming 1000000 L23 true false
    = Ok (true, used, f')
    /\ VideoAllocationProvisional.allocatedLayer
         (match provisional f' with
          | Some p => p
          | None => VideoAllocationProvisional.mk false false InvalidLayer []
                      zeroBitrates InvalidLayer InvalidLayer InvalidLayer
          end) = L23.
Proof.
  assert (R : exists used f',
             ProvisionalAllocate streaming 1000000 L23 true false
             = Ok (true, used, f'))
    by (do 2 eexists; vm_compute; reflexivity).
  destruct R as (used & f' & R). exists used, f'.
  split; [exact R|].
  eapply ProvisionalAllocate_accounting in R; [|reflexivity].
  destruct R as (_ & A). destruct (A eq_refl) as (-> & _). reflexivity.
Defined.

Lemma ProvisionalAllocateCommit_deficiency_witness :
  exists alloc f',
    ProvisionalAllocateCommit committed = Ok (alloc, f')
    /\ lastAllocation f' = alloc
    /\ (VideoAllocation.PauseReason alloc = VideoPauseReasonMuted -> False).
Proof.
  assert (R : exists alloc f',
             ProvisionalAllocateCommit committed = Ok (alloc, f'))
    by (do 2 eexists; vm_compute; reflexivity).
  destruct R as (alloc & f' & R). exists alloc, f'.
  split; [exact R|].
  eapply ProvisionalAllocateCommit_deficiency in R; [|reflexivity].
  destruct R as (L & _ & _ & _ & M & _).
  split; [exact L|]. intros Q. apply M in Q. discriminate Q.
Defined.

(** A probe of (1,1) accepted and committed. *)
Lemma accepted_probe_is_committed_witness :
  exists used f1 alloc f2,
    ProvisionalAllocate streaming 1000000 (mkLayer 1 1) true false
    = Ok (true, used, f1)
    /\ ProvisionalAllocateCommit f1 = Ok (alloc, f2)
    /\ VideoAllocation.PauseReason alloc = VideoPauseReasonNone
    /\ VideoAllocation.BandwidthRequested alloc = 220000
    /\ VideoAllocation.RequestLayerSpatial alloc = 1.
Proof.
  assert (R : exists used f1 alloc f2,
             ProvisionalAllocate streaming 1000000 (mkLayer 1 1) true false
             = Ok (true, used, f1)
             /\ ProvisionalAllocateCommit f1 = Ok (alloc, f2))
    by (do 4 eexists;
        split; [vm_compute; reflexivity | vm_compute; reflexivity]).
  destruct R as (used & f1 & alloc & f2 & A & C).
  exists used, f1, alloc, f2.
  split; [exact A|]. split; [exact C|].
  destruct (accepted_probe_is_committed streaming
              (p := VideoAllocationProvisional.mk false false L23 [0; 1; 2]
                      fullBitrates L23 (mkLayer 1 1) InvalidLayer)
              1000000 (mkLayer 1 1) true false ltac:(reflexivity) A C)
    as (P & B & _ & _ & Q & _).
  split; [exact P|]. split; [|exact Q].
  vm_compute in B. injection B as B. symmetry. exact B.
Defined.

Lemma best_weighted_transition_moves_down_witness :
  exists tr al brs f',
    ProvisionalAllocateGetBestWeightedTransition sacrificing
    = Ok (tr, al, brs, f')
    /\ VideoTransition.From tr = L23
    /\ (VideoTransition.To tr = InvalidLayer
        \/ GreaterThan (VideoTransition.From tr) (VideoTransition.To tr)
           = true).
Proof.
  assert (R : exists tr al brs f',
             ProvisionalAllocateGetBestWeightedTransition sacrificing
             = Ok (tr, al, brs, f'))
    by (do 4 eexists; vm_compute; reflexivity).
  destruct R as (tr & al & brs & f' & R). exists tr, al, brs, f'.
  split; [exact R|].
  eapply best_weighted_transition_moves_down in R; [|reflexivity].
  destruct R as (_ & _ & _ & F & _ & D).
  split; [exact F|].
  destruct D as [D|(_ & D)];
    [vm_compute; discriminate|left; exact D|right; exact D].
Defined.

Lemma cooperative_transition_is_committed_witness :
  exists tr al brs f',
    ProvisionalAllocateGetCooperativeTransition streaming false
    = Ok (tr, al, brs, f')
    /\ VideoTransition.From tr = mkLayer 1 1
    /\ al = [0; 1; 2].
Proof.
  assert (R : exists tr al brs f',
             ProvisionalAllocateGetCooperativeTransition streaming false
             = Ok (tr, al, brs, f'))
    by (do 4 eexists; vm_compute; reflexivity).
  destruct R as (tr & al & brs & f' & R). exists tr, al, brs, f'.
  split; [exact R|].
  eapply cooperative_transition_is_committed in R; [|reflexivity].
  destruct R as (_ & A & _ & F & _).
  split; [exact F | exact A].
Defined.

(** Deficient at (0,0): the next higher layer on offer is (0,1). *)
Lemma GetNextHigherTransition_offers_more_witness :
  exists tr,
    GetNextHigherTransition deficient unorderedBitrates false = Ok (tr, true)
    /\ VideoTransition.From tr = mkLayer 0 0
    /\ isDeficientLocked deficient = true.
Proof.
  assert (R : exists tr,
             GetNextHigherTransition deficient unorderedBitrates false
             = Ok (tr, true))
    by (eexists; vm_compute; reflexivity).
  destruct R as (tr & R). exists tr.
  split; [exact R|].
  apply GetNextHigherTransition_offers_more in R.
  destruct R as (_ & A). destruct (A eq_refl) as (_ & D & F & _).
  split; [exact F | exact D].
Defined.

Lemma getOptimalBandwidthNeeded_is_highest_measured_witness :
  getOptimalBandwidthNeeded false false 2 fullBitrates L23 = Ok 340000
  /\ exists l, at_layer fullBitrates l = Ok 340000.
Proof.
  assert (R : getOptimalBandwidthNeeded false false 2 fullBitrates L23
              = Ok 340000) by (vm_compute; reflexivity).
  split; [exact R|].
  apply getOptimalBandwidthNeeded_is_highest_measured in R.
  destruct R as (A & _).
  destruct (A ltac:(discriminate)) as (_ & _ & _ & l & _ & _ & B & _).
  exists l. exact B.
Defined.

Lemma allocators_keep_selector_in_step_witness :
  exists alloc f',
    Pause streaming [0; 1; 2] fullBitrates = Ok (alloc, f')
    /\ GetTarget (vls f') = VideoAllocation.TargetLayer alloc
    /\ lastAllocation f' = alloc.
Proof.
  assert (R : exists alloc f',
             Pause streaming [0; 1; 2] fullBitrates = Ok (alloc, f'))
    by (do 2 eexists; vm_compute; reflexivity).
  destruct R as (alloc & f' & R). exists alloc, f'.
  split; [exact R|].
  eapply allocators_keep_selector_in_step.
  right. left. exists [0; 1; 2], fullBitrates. exact R.
Defined.

Lemma Pause_stops_forwarding_witness :
  exists alloc f',
    Pause streaming [0; 1; 2] fullBitrates = Ok (alloc, f')
    /\ lastSSRC f' = 0
    /\ GetTranslationParams f' (packet 1111 5000) 1 0 0
       = (TranslationParams.with_shouldDrop TranslationParams.zero_value true,
          None, f').
Proof.
  assert (R : exists alloc f',
             Pause streaming [0; 1; 2] fullBitrates = Ok (alloc, f'))
    by (do 2 eexists; vm_compute; reflexivity).
  destruct R as (alloc & f' & R). exists alloc, f'.
  split; [exact R|].
  apply Pause_stops_forwarding in R.
  destruct R as (_ & _ & L & _ & D).
  split; [exact L|]. apply D. reflexivity.
Defined.

(** A forwarder of unknown kind. *)
Lemma GetTranslationParams_errors_witness :
  exists tp f',
    GetTranslationParams unknownKind (packet 1111 5000) 0 0 0
    = (tp, Some ErrUnknownKind, f')
    /\ TranslationParams.shouldDrop tp = true.
Proof.
  assert (R : exists tp f',
             GetTranslationParams unknownKind (packet 1111 5000) 0 0 0
             = (tp, Some ErrUnknownKind, f'))
    by (do 2 eexists; vm_compute; reflexivity).
  destruct R as (tp & f' & R). exists tp, f'.
  split; [exact R|].
  apply GetTranslationParams_errors in R.
  destruct R as (D & _). exact D.
Defined.

(** A selected packet of the SSRC being forwarded. *)
Lemma GetTranslationParams_forwarded_witness :
  exists tp e f',
    GetTranslationParams (forwarding [plainSelected]) (packet 1111 1000100)
      1 0 0 = (tp, e, f')
    /\ TranslationParams.shouldDrop tp = false
    /\ e = None
    /\ lastSSRC f' = 1111.
Proof.
  assert (R : exists tp e f',
             GetTranslationParams (forwarding [plainSelected])
               (packet 1111 1000100) 1 0 0 = (tp, e, f')
             /\ TranslationParams.shouldDrop tp = false)
    by (do 3 eexists;
        split; [vm_compute; reflexivity | vm_compute; reflexivity]).
  destruct R as (tp & e & f' & R & D). exists tp, e, f'.
  split; [exact R|]. split; [exact D|].
  apply GetTranslationParams_forwarded in R; [|exact D].
  destruct R as (E & _ & _ & _ & _ & L & _).
  split; [exact E | exact L].
Defined.

Lemma GetTranslationParams_leaves_allocation_alone_witness :
  exists tp e f',
    GetTranslationParams (forwarding [plainSelected]) (packet 2222 1000100)
      1 0 0 = (tp, e, f')
    /\ lastAllocation f' = VideoAllocationDefault
    /\ started f' = true.
Proof.
  assert (R : exists tp e f',
             GetTranslationParams (forwarding [plainSelected])
               (packet 2222 1000100) 1 0 0 = (tp, e, f'))
    by (do 3 eexists; vm_compute; reflexivity).
  destruct R as (tp & e & f' & R). exists tp, e, f'.
  split; [exact R|].
  apply GetTranslationParams_leaves_allocation_alone in R.
  destruct R as (_ & _ & _ & L & _ & S).
  split; [exact L|]. apply S. reflexivity.
Defined.

(** No sender report yet for the layer switched to. *)
Lemma processSourceSwitch_failures_witness :
  exists f1,
    processSourceSwitch (unresolved []) (packet 2222 5000) 1 0 0
    = (Some (errors_New "no sender report"), f1)
    /\ rtpMunger f1 = rtpMunger (unresolved [])
    /\ lastSSRC f1 = 1111.
Proof.
  assert (R : exists f1,
             processSourceSwitch (unresolved []) (packet 2222 5000) 1 0 0
             = (Some (errors_New "no sender report"), f1))
    by (eexists; vm_compute; reflexivity).
  destruct R as (f1 & R). exists f1.
  split; [exact R|].
  apply processSourceSwitch_failures in R.
  destruct R as (_ & _ & M & _ & L).
  split; [exact M | exact L].
Defined.

Lemma PubMute_resyncs_on_mute_witness :
  exists f',
    PubMute (forwarding []) true = (true, f')
    /\ pubMuted f' = true
    /\ lastSSRC f' = 0
    /\ PubMute f' true = (false, f').
Proof.
  assert (R : exists f', PubMute (forwarding []) true = (true, f'))
    by (eexists; vm_compute; reflexivity).
  destruct R as (f' & R). exists f'.
  split; [exact R|].
  apply PubMute_resyncs_on_mute in R.
  destruct R as (P & _ & _ & _ & I & M & _).
  split; [exact P|].
  destruct (M eq_refl eq_refl) as (L & _).
  split; [exact L | exact I].
Defined.

Lemma FilterRTX_curbs_layers_above_current_witness :
  exists disallowed,
    FilterRTX deficient [7; 8] = ([7; 8], disallowed)
    /\ nth 0 disallowed false = false
    /\ nth 1 disallowed false = true
    /\ nth 2 disallowed false = true.
Proof.
  assert (R : exists disallowed,
             FilterRTX deficient [7; 8] = ([7; 8], disallowed))
    by (eexists; vm_compute; reflexivity).
  destruct R as (ds & R). exists ds.
  split; [exact R|].
  apply FilterRTX_curbs_layers_above_current in R.
  destruct R as (_ & _ & _ & _ & N & _).
  assert (D : isDeficientLocked deficient = true) by reflexivity.
  assert (L : Spatial (GetCurrent (vls deficient))
              <= Spatial (GetTarget (vls deficient)))
    by (vm_compute; discriminate).
  split; [exact (N D L 0%nat ltac:(repeat constructor))|].
  split; [exact (N D L 1%nat ltac:(repeat constructor))|].
  exact (N D L 2%nat ltac:(repeat constructor)).
Defined.

Lemma SeedState_ignores_a_forwarder_not_started_witness :
  SeedState fresh (GetState unstarted) = fresh.
Proof.
  destruct (SeedState_ignores_a_forwarder_not_started unstarted fresh
              ltac:(reflexivity)) as [_ E].
  exact E.
Defined.

Lemma GetState_of_SeedState_witness :
  started (SeedState unstarted (GetState (forwarding []))) = true
  /\ GetState (SeedState unstarted (GetState (forwarding [])))
     = GetState (forwarding []).
Proof.
  apply (GetState_of_SeedState (forwarding []) unstarted).
  reflexivity.
Defined.

Lemma maybeStart_third_quartile_witness :
  started (maybeStart unstarted 1000 5 7) = true
  /\ extFirstTS (maybeStart unstarted 1000 5 7) = 2147483655.
Proof.
  destruct (maybeStart_third_quartile unstarted 1000 (r14 := 5)
              (r30 := 7) ltac:(reflexivity)
              ltac:(split; [discriminate|reflexivity])
              ltac:(split; [discriminate|reflexivity]))
    as (S & _).
  split; [exact S|]. vm_compute. reflexivity.
Defined.

Lemma GetSnTsForPadding_forces_marker_when_paused_witness :
  GetSnTsForPadding fresh 2 false 1000 5 7
  = GetSnTsForPadding fresh 2 true 1000 5 7.
Proof.
  assert (V : IsValid (GetTarget (vls fresh)) = false) by reflexivity.
  destruct (GetSnTsForPadding_forces_marker_when_paused fresh 2 false
              1000 5 7 V) as [E _].
  exact E.
Defined.

(** A VP8 packet of temporal layer 0 on a stream targeting (1,1). *)
Lemma TranslateCodecHeader_outcomes_witness :
  exists i o f',
    TranslateCodecHeader streaming (packet 1111 5000)
      (mkTranslationParamsRTP SequenceNumberOrderingContiguous 100 5000)
    = (true, i, o, None, f')
    /\ rtpMunger f' = rtpMunger streaming.
Proof.
  assert (R : exists i o f',
             TranslateCodecHeader streaming (packet 1111 5000)
               (mkTranslationParamsRTP SequenceNumberOrderingContiguous
                  100 5000) = (true, i, o, None, f'))
    by (do 3 eexists; vm_compute; reflexivity).
  destruct R as (i & o & f' & R). exists i, o, f'.
  split; [exact R|].
  apply TranslateCodecHeader_outcomes in R.
  vm_compute in R. destruct R as (_ & A & _).
  destruct (A eq_refl) as (_ & _ & M). exact M.
Defined.

Lemma GetMaxSubscribedSpatial_covers_current_witness :
  GetMaxSubscribedSpatial (switching []) = 2
  /\ Spatial (GetCurrent (vls (switching [])))
     <= GetMaxSubscribedSpatial (switching []).
Proof.
  destruct (GetMaxSubscribedSpatial_covers_current (switching []))
    as (_ & A).
  destruct (A eq_refl) as (E & C & _).
  split; [|exact C]. rewrite E. reflexivity.
Defined.

(** Blank frames after the last timestamp, 1000000. *)
Lemma GetSnTsForBlankFrames_after_last_witness :
  exists extExpectedTS,
    0 < int64 (extExpectedTS - 1000000)
    /\ snd (fst (GetSnTsForBlankFrames (forwarding []) 30 2 0 0 5 7)) = false.
Proof.
  destruct (GetSnTsForBlankFrames_after_last (forwarding []) 30 2 0 0 5 7)
    as (ts & P & _ & E).
  exists ts. split; [exact P|]. rewrite E. reflexivity.
Defined.

End RestScenarios.
